(** * Equipment maintenance registry: storage layer and REST handlers

    A shallow embedding of [server/storage.ts] (class [DatabaseStorage]) and
    of the Express handlers of [registerRoutes], over an in-memory model of
    the relational tables declared in the shared schema.  Query-builder calls
    are given their SQL meaning: joins are nested loops over the tables,
    [where] filters with three-valued logic, [orderBy] sorts, [limit] and
    [offset] slice.  JavaScript objects are association lists from property
    names to values, so that reading a property that a row does not carry
    yields [JUndefined] exactly as in the handlers. *)

From Stdlib Require Import ZArith List String Ascii Bool Lia Permutation Sorted.
From Stdlib Require Import DecimalString.
Import ListNotations.

Local Open Scope string_scope.
Local Open Scope list_scope.
Local Open Scope Z_scope.

(* ================================================================== *)
(** ** JavaScript values and objects *)

Module Js.

Inductive jsval : Type :=
| JUndefined
| JNull
| JBool (b : bool)
| JNum (n : Z)
| JStr (s : string)
| JDate (t : Z)
| JNaN
| JInfinity.

(** Key equality of a [Map] (SameValueZero) on the values used as keys. *)
Definition jsval_eqb (a b : jsval) : bool :=
  match a, b with
  | JUndefined, JUndefined => true
  | JNull, JNull => true
  | JBool x, JBool y => Bool.eqb x y
  | JNum x, JNum y => x =? y
  | JStr x, JStr y => String.eqb x y
  | JDate x, JDate y => x =? y
  | JNaN, JNaN => true
  | JInfinity, JInfinity => true
  | _, _ => false
  end.

(** A plain object: its own properties in insertion order. *)
Definition obj : Type := list (string * jsval).

(** [o.k]: the value of property [k], [undefined] when [o] has none. *)
Fixpoint prop (o : obj) (k : string) : jsval :=
  match o with
  | [] => JUndefined
  | (k', v) :: o' => if String.eqb k k' then v else prop o' k
  end.

(** Assignment of one property, as done by an object literal or a spread:
    an existing key keeps its position, a new key goes last. *)
Fixpoint set_prop (o : obj) (k : string) (v : jsval) : obj :=
  match o with
  | [] => [(k, v)]
  | (k', v') :: o' =>
      if String.eqb k k' then (k', v) :: o' else (k', v') :: set_prop o' k v
  end.

(** Truthiness of an optional number ([undefined], [0] are falsy). *)
Definition truthy_num (o : option Z) : bool :=
  match o with
  | Some n => negb (n =? 0)
  | None => false
  end.

(** Truthiness of an optional string ([undefined], [""] are falsy). *)
Definition truthy_str (o : option string) : bool :=
  match o with
  | Some s => negb (String.eqb s "")
  | None => false
  end.

(** [Math.ceil(a / b)] for a row count [a] (never negative) and an integer
    [b]: [NaN] for 0/0 and [Infinity] for a positive count over 0. *)
Definition ceil_div (a b : Z) : jsval :=
  if b =? 0 then (if a =? 0 then JNaN else JInfinity)
  else JNum (- ((- a) / b)).

(** [JSON.stringify], which [res.json] applies to the body, writes [null]
    for [NaN] and [Infinity]. *)
Definition json_number (v : jsval) : jsval :=
  match v with
  | JNaN | JInfinity => JNull
  | _ => v
  end.

(** [s.split(sep)] for a one-character separator. *)
Fixpoint split_acc (sep : ascii) (s : string) (cur : string) : list string :=
  match s with
  | EmptyString => [cur]
  | String c s' =>
      if Ascii.eqb c sep then cur :: split_acc sep s' ""
      else split_acc sep s' (cur ++ String c "")%string
  end.

Definition split (sep : ascii) (s : string) : list string :=
  split_acc sep s "".

Definition jnum_opt (o : option Z) : jsval :=
  match o with Some n => JNum n | None => JNull end.
Definition jstr_opt (o : option string) : jsval :=
  match o with Some s => JStr s | None => JNull end.
Definition jbool_opt (o : option bool) : jsval :=
  match o with Some b => JBool b | None => JNull end.
Definition jdate_opt (o : option Z) : jsval :=
  match o with Some t => JDate t | None => JNull end.

End Js.
Import Js.

(** A promise that settles: the value, or the exception thrown. *)
Inductive outcome (A : Type) : Type :=
| Ok (a : A)
| Throw (msg : string).
Arguments Ok {A} a.
Arguments Throw {A} msg.

Definition bind {A B : Type} (m : outcome A) (k : A -> outcome B) : outcome B :=
  match m with
  | Ok a => k a
  | Throw e => Throw e
  end.

Notation "x <- m ;; k" := (bind m (fun x => k))
  (at level 61, m at next level, right associativity).

(* ================================================================== *)
(** ** SQL as executed by the database *)

Module Sql.

(** Three-valued truth: [None] is SQL's unknown. *)
Definition tri : Type := option bool.

Definition and3 (a b : tri) : tri :=
  match a, b with
  | Some false, _ | _, Some false => Some false
  | Some true, Some true => Some true
  | _, _ => None
  end.

Definition or3 (a b : tri) : tri :=
  match a, b with
  | Some true, _ | _, Some true => Some true
  | Some false, Some false => Some false
  | _, _ => None
  end.

(** [and(...cs)] and [or(...cs)] of the query builder. *)
Definition and_all (cs : list tri) : tri := fold_right and3 (Some true) cs.
Definition or_any (cs : list tri) : tri := fold_right or3 (Some false) cs.

(** A [WHERE] clause keeps a row only when its condition is true. *)
Definition holds (t : tri) : bool :=
  match t with Some true => true | _ => false end.

(** The values of the column type [integer].  The stored ids and the
    values of the sequences are in this range.  A statement that binds a
    number outside it is refused by the database; the comparisons below
    do not cover that case, and the theorems that assert the answer to a
    request state the range of its numbers as a hypothesis. *)
Definition int4 (n : Z) : bool :=
  (-2147483648 <=? n) && (n <=? 2147483647).

Definition eq_int (a b : option Z) : tri :=
  match a, b with
  | Some x, Some y => Some (x =? y)
  | _, _ => None
  end.

Definition eq_text (a b : option string) : tri :=
  match a, b with
  | Some x, Some y => Some (String.eqb x y)
  | _, _ => None
  end.

Definition eq_bool (a b : option bool) : tri :=
  match a, b with
  | Some x, Some y => Some (Bool.eqb x y)
  | _, _ => None
  end.

Definition ge_int (a b : option Z) : tri :=
  match a, b with
  | Some x, Some y => Some (y <=? x)
  | _, _ => None
  end.

Definition le_int (a b : option Z) : tri :=
  match a, b with
  | Some x, Some y => Some (x <=? y)
  | _, _ => None
  end.

(** *** LIKE patterns *)

Inductive tok : Type :=
| PAny                (* [%]: any run of characters *)
| POne                (* [_]: exactly one character *)
| PChar (c : ascii).  (* a literal character *)

(** Pattern text to tokens; the backslash is the escape character.  A
    pattern that ends in a lone backslash is refused by the database; the
    patterns built by the storage layer all end in [%], so the last case
    of the inner match is never reached from there. *)
Fixpoint like_tokens (p : string) : list tok :=
  match p with
  | EmptyString => []
  | String c p' =>
      if Ascii.eqb c "%" then PAny :: like_tokens p'
      else if Ascii.eqb c "_" then POne :: like_tokens p'
      else if Ascii.eqb c "\" then
        match p' with
        | EmptyString => [PChar c]
        | String d p'' => PChar d :: like_tokens p''
        end
      else PChar c :: like_tokens p'
  end.

Fixpoint like_match (p : list tok) : string -> bool :=
  match p with
  | [] => fun s => match s with EmptyString => true | _ => false end
  | PAny :: p' =>
      fix star (s : string) : bool :=
        like_match p' s
        || match s with
           | EmptyString => false
           | String _ s' => star s'
           end
  | POne :: p' =>
      fun s => match s with
               | EmptyString => false
               | String _ s' => like_match p' s'
               end
  | PChar c :: p' =>
      fun s => match s with
               | EmptyString => false
               | String d s' => Ascii.eqb c d && like_match p' s'
               end
  end.

(** [like(col, pattern)]; unknown on a NULL column. *)
Definition like (col : option string) (pattern : string) : tri :=
  match col with
  | Some s => Some (like_match (like_tokens pattern) s)
  | None => None
  end.

(** The template literal [`%${s}%`]. *)
Definition contains_pattern (s : string) : string :=
  ("%" ++ s ++ "%")%string.

(** *** Joins *)

Definition innerJoin {A B : Type} (l : list A) (r : list B)
           (on : A -> B -> bool) : list (A * B) :=
  flat_map (fun a => map (fun b => (a, b)) (filter (on a) r)) l.

Definition leftJoin {A B : Type} (l : list A) (r : list B)
           (on : A -> B -> bool) : list (A * option B) :=
  flat_map (fun a =>
              match filter (on a) r with
              | [] => [(a, None)]
              | m => map (fun b => (a, Some b)) m
              end) l.

(** *** WHERE *)

(** [conditions.length > 0 ? query.where(and(...conditions)) : query] *)
Definition where_all {R : Type} (conditions : list (R -> tri))
           (rows : list R) : list R :=
  match conditions with
  | [] => rows
  | _ => filter (fun r => holds (and_all (map (fun c => c r) conditions))) rows
  end.

(** *** ORDER BY

    The database is free in the order of rows that compare equal, and in
    the order of a query without [ORDER BY].  [orderBy] keeps such rows in
    the order of its input, one of the orders the database may choose.  The
    theorems about the rows a [LIMIT] keeps and about the pages of several
    queries do not rely on that choice: they speak of any listing in an
    order the database may return. *)

Fixpoint insert_by {A : Type} (leb : A -> A -> bool) (x : A) (l : list A)
  : list A :=
  match l with
  | [] => [x]
  | y :: l' => if leb x y then x :: l else y :: insert_by leb x l'
  end.

Definition orderBy {A : Type} (leb : A -> A -> bool) (l : list A) : list A :=
  fold_right (insert_by leb) [] l.

(** Text columns compare bytewise (the C collation). *)
Definition text_leb (a b : string) : bool := String.leb a b.

(** Nullable timestamps, ascending: NULLs come last. *)
Definition time_leb (a b : option Z) : bool :=
  match a, b with
  | Some x, Some y => x <=? y
  | _, None => true
  | None, Some _ => false
  end.

(** Lexicographic combination for [orderBy(c1, c2)]. *)
Definition lex_leb {A : Type} (le1 le2 : A -> A -> bool) (x y : A) : bool :=
  if le1 x y then (if le1 y x then le2 x y else true) else false.

(** *** LIMIT and OFFSET

    The builder emits [LIMIT] for a non-negative number and [OFFSET] for a
    truthy one; the database refuses a negative [OFFSET]. *)
Definition limit_offset {A : Type} (limit offset : Z) (rows : list A)
  : outcome (list A) :=
  if offset <? 0 then Throw "OFFSET must not be negative"
  else
    let rest := skipn (Z.to_nat offset) rows in
    Ok (if 0 <=? limit then firstn (Z.to_nat limit) rest else rest).

End Sql.
Import Sql.

(* ================================================================== *)
(** ** The relational schema (shared/schema.ts) *)

Inductive busy_level : Type := Busy1 | Busy2 | Busy3 | Busy4.
Inductive importance_level : Type := LevelA | LevelB | LevelC.

Definition busy_label (b : busy_level) : string :=
  match b with Busy1 => "1" | Busy2 => "2" | Busy3 => "3" | Busy4 => "4" end.

Definition importance_label (i : importance_level) : string :=
  match i with LevelA => "A" | LevelB => "B" | LevelC => "C" end.

Definition importance_eqb (a b : importance_level) : bool :=
  match a, b with
  | LevelA, LevelA | LevelB, LevelB | LevelC, LevelC => true
  | _, _ => false
  end.

(** Reading a label as a value of the enum type; the database refuses any
    other text. *)
Definition importance_of_label (s : string) : option importance_level :=
  if String.eqb s "A" then Some LevelA
  else if String.eqb s "B" then Some LevelB
  else if String.eqb s "C" then Some LevelC
  else None.

Module Base.
Record t : Type := mk {
  baseId : Z;
  baseName : string;
  createdAt : option Z;
  updatedAt : option Z }.
End Base.

Module Workshop.
Record t : Type := mk {
  workshopId : Z;
  baseId : Z;
  workshopName : string;
  busyLevel : busy_level;
  createdAt : option Z;
  updatedAt : option Z }.
End Workshop.

Module EquipmentType.
Record t : Type := mk {
  typeId : Z;
  typeName : string;
  lifecycleYears : option Z;
  createdAt : option Z;
  updatedAt : option Z }.
End EquipmentType.

Module Equipment.
Record t : Type := mk {
  equipmentId : Z;
  workshopId : Z;
  typeId : Z;
  equipmentName : string;
  createdAt : option Z;
  updatedAt : option Z }.
End Equipment.

Module Component.
(** [failureRate] is a double that is only stored and returned; it is
    carried as an opaque number. *)
Record t : Type := mk {
  componentId : Z;
  typeId : Z;
  componentName : string;
  importanceLevel : importance_level;
  failureRate : option Z;
  lifecycleYears : option Z;
  createdAt : option Z;
  updatedAt : option Z }.
End Component.

Module SparePart.
Record t : Type := mk {
  sparePartId : Z;
  materialCode : string;
  manufacturer : string;
  manufacturerMaterialCode : option string;
  specification : option string;
  description : option string;
  isCustom : option bool;
  createdAt : option Z;
  updatedAt : option Z }.
End SparePart.

Module SparePartSupplier.
Record t : Type := mk {
  supplierId : Z;
  sparePartId : Z;
  supplierName : string;
  supplyCycleWeeks : Z;
  createdAt : option Z;
  updatedAt : option Z }.
End SparePartSupplier.

Module EquipmentComponentSparePart.
Record t : Type := mk {
  id : Z;
  equipmentId : Z;
  componentId : Z;
  sparePartId : Z;
  quantity : option Z;
  createdAt : option Z;
  updatedAt : option Z }.
End EquipmentComponentSparePart.
Module Assoc := EquipmentComponentSparePart.

(** The database: one list of rows per table, in storage order, and the
    sequence behind the serial key of [spare_part]. *)
Record Db : Type := mkDb {
  bases : list Base.t;
  workshops : list Workshop.t;
  equipmentTypes : list EquipmentType.t;
  equipment : list Equipment.t;
  components : list Component.t;
  spareParts : list SparePart.t;
  sparePartSuppliers : list SparePartSupplier.t;
  equipmentComponentSpareParts : list Assoc.t;
  sparePartSeq : Z }.

Definition with_bases (db : Db) (l : list Base.t) : Db :=
  mkDb l (workshops db) (equipmentTypes db) (equipment db) (components db)
       (spareParts db) (sparePartSuppliers db)
       (equipmentComponentSpareParts db) (sparePartSeq db).

Definition with_spareParts (db : Db) (l : list SparePart.t) (seq : Z) : Db :=
  mkDb (bases db) (workshops db) (equipmentTypes db) (equipment db)
       (components db) l (sparePartSuppliers db)
       (equipmentComponentSpareParts db) seq.

(** *** Rows as the objects a [select()] returns *)

Definition obj_of_base (b : Base.t) : obj :=
  [ ("baseId", JNum (Base.baseId b));
    ("baseName", JStr (Base.baseName b));
    ("createdAt", jdate_opt (Base.createdAt b));
    ("updatedAt", jdate_opt (Base.updatedAt b)) ].

Definition obj_of_workshop (w : Workshop.t) : obj :=
  [ ("workshopId", JNum (Workshop.workshopId w));
    ("baseId", JNum (Workshop.baseId w));
    ("workshopName", JStr (Workshop.workshopName w));
    ("busyLevel", JStr (busy_label (Workshop.busyLevel w)));
    ("createdAt", jdate_opt (Workshop.createdAt w));
    ("updatedAt", jdate_opt (Workshop.updatedAt w)) ].

Definition obj_of_equipment (e : Equipment.t) : obj :=
  [ ("equipmentId", JNum (Equipment.equipmentId e));
    ("workshopId", JNum (Equipment.workshopId e));
    ("typeId", JNum (Equipment.typeId e));
    ("equipmentName", JStr (Equipment.equipmentName e));
    ("createdAt", jdate_opt (Equipment.createdAt e));
    ("updatedAt", jdate_opt (Equipment.updatedAt e)) ].

Definition obj_of_component (c : Component.t) : obj :=
  [ ("componentId", JNum (Component.componentId c));
    ("typeId", JNum (Component.typeId c));
    ("componentName", JStr (Component.componentName c));
    ("importanceLevel", JStr (importance_label (Component.importanceLevel c)));
    ("failureRate", jnum_opt (Component.failureRate c));
    ("lifecycleYears", jnum_opt (Component.lifecycleYears c));
    ("createdAt", jdate_opt (Component.createdAt c));
    ("updatedAt", jdate_opt (Component.updatedAt c)) ].

Definition obj_of_sparePart (s : SparePart.t) : obj :=
  [ ("sparePartId", JNum (SparePart.sparePartId s));
    ("materialCode", JStr (SparePart.materialCode s));
    ("manufacturer", JStr (SparePart.manufacturer s));
    ("manufacturerMaterialCode", jstr_opt (SparePart.manufacturerMaterialCode s));
    ("specification", jstr_opt (SparePart.specification s));
    ("description", jstr_opt (SparePart.description s));
    ("isCustom", jbool_opt (SparePart.isCustom s));
    ("createdAt", jdate_opt (SparePart.createdAt s));
    ("updatedAt", jdate_opt (SparePart.updatedAt s)) ].

(* ================================================================== *)
(** ** server/storage.ts: class DatabaseStorage *)

Module EquipmentParams.
Record t : Type := mk {
  workshopId : option Z;
  typeId : option Z;
  baseId : option Z;
  search : option string;
  page : option Z;
  limit : option Z;
  sortBy : option string;
  sortOrder : option string }.
End EquipmentParams.

Module AssociationParams.
Record t : Type := mk {
  equipmentId : option Z;
  componentId : option Z;
  sparePartId : option Z;
  importanceLevel : option (list string);
  supplyCycleRange : option (list Z);
  isCustom : option bool;
  keyword : option string }.
End AssociationParams.

(** A field of an insert that may be left out ([undefined]), be [null], or
    carry a value. *)
Inductive optional (A : Type) : Type :=
| Absent
| Null
| Given (a : A).
Arguments Absent {A}.
Arguments Null {A}.
Arguments Given {A} a.

Module InsertSparePart.
Record t : Type := mk {
  materialCode : string;
  manufacturer : string;
  manufacturerMaterialCode : optional string;
  specification : optional string;
  description : optional string;
  isCustom : optional bool }.
End InsertSparePart.

(** What the HTTP driver resolves a statement without RETURNING to: an
    object [{ rows, rowCount, ... }]. *)
Record QueryResult : Type := mkQueryResult { rowCount : nat }.

(** [!!result] on that object: an object is truthy whatever it holds. *)
Definition truthy_result (r : QueryResult) : bool := true.

Module Storage.

(** [if (v) conditions.push(c)] for a number and for a string. *)
Definition whenNum {R : Type} (v : option Z) (c : Z -> R -> tri)
  : list (R -> tri) :=
  match v with
  | Some n => if n =? 0 then [] else [c n]
  | None => []
  end.

Definition whenStr {R : Type} (v : option string) (c : string -> R -> tri)
  : list (R -> tri) :=
  match v with
  | Some s => if String.eqb s "" then [] else [c s]
  | None => []
  end.

(** *** Base *)

Definition getBase (db : Db) (id : Z) : option obj :=
  option_map obj_of_base
    (hd_error (filter (fun b => Base.baseId b =? id) (bases db))).

(** The workshop table references [base_id]: deleting a base that a
    workshop still points to is refused by the database. *)
Definition deleteBase (db : Db) (id : Z) : outcome (Db * bool) :=
  let doomed := filter (fun b => Base.baseId b =? id) (bases db) in
  if existsb (fun w =>
                existsb (fun b => Workshop.baseId w =? Base.baseId b) doomed)
             (workshops db)
  then Throw "violates foreign key constraint"
  else
    let result := mkQueryResult (List.length doomed) in
    Ok (with_bases db (filter (fun b => negb (Base.baseId b =? id)) (bases db)),
        truthy_result result).

(** *** Workshop *)

Definition getWorkshops (db : Db) (baseId : option Z) : list obj :=
  let query := workshops db in
  let query :=
    if truthy_num baseId
    then filter (fun w => holds (eq_int (Some (Workshop.baseId w)) baseId)) query
    else query in
  map obj_of_workshop
      (orderBy (fun x y => text_leb (Workshop.workshopName x)
                                    (Workshop.workshopName y)) query).

(** *** Equipment *)

Definition EquipmentRow : Type :=
  (Equipment.t * Workshop.t * EquipmentType.t * Base.t)%type.

Definition equipmentJoin (db : Db) : list EquipmentRow :=
  innerJoin
    (innerJoin
       (innerJoin (equipment db) (workshops db)
          (fun e w => Equipment.workshopId e =? Workshop.workshopId w))
       (equipmentTypes db)
       (fun '(e, _) t => Equipment.typeId e =? EquipmentType.typeId t))
    (bases db)
    (fun '(_, w, _) b => Workshop.baseId w =? Base.baseId b).

Definition equipmentSelect (r : EquipmentRow) : obj :=
  let '(e, w, t, b) := r in
  [ ("equipmentId", JNum (Equipment.equipmentId e));
    ("workshopId", JNum (Equipment.workshopId e));
    ("typeId", JNum (Equipment.typeId e));
    ("equipmentName", JStr (Equipment.equipmentName e));
    ("createdAt", jdate_opt (Equipment.createdAt e));
    ("updatedAt", jdate_opt (Equipment.updatedAt e));
    ("workshopName", JStr (Workshop.workshopName w));
    ("typeName", JStr (EquipmentType.typeName t));
    ("baseId", JNum (Workshop.baseId w));
    ("baseName", JStr (Base.baseName b)) ].

Definition equipmentConditions (p : EquipmentParams.t)
  : list (EquipmentRow -> tri) :=
  whenNum (EquipmentParams.workshopId p)
    (fun v '(e, _, _, _) => eq_int (Some (Equipment.workshopId e)) (Some v))
  ++ whenNum (EquipmentParams.typeId p)
    (fun v '(e, _, _, _) => eq_int (Some (Equipment.typeId e)) (Some v))
  ++ whenStr (EquipmentParams.search p)
    (fun s '(e, _, _, _) =>
       like (Some (Equipment.equipmentName e)) (contains_pattern s))
  ++ whenNum (EquipmentParams.baseId p)
    (fun v '(_, w, _, _) => eq_int (Some (Workshop.baseId w)) (Some v)).

(** The column an [orderField] names, as its ascending comparison; the
    chain of [if ... else if] of the source. *)
Definition orderColumn (orderField : string)
  : option (EquipmentRow -> EquipmentRow -> bool) :=
  if String.eqb orderField "equipmentId" then
    Some (fun '(x, _, _, _) '(y, _, _, _) =>
            Equipment.equipmentId x <=? Equipment.equipmentId y)
  else if String.eqb orderField "equipmentName" then
    Some (fun '(x, _, _, _) '(y, _, _, _) =>
            text_leb (Equipment.equipmentName x) (Equipment.equipmentName y))
  else if String.eqb orderField "workshopName" then
    Some (fun '(_, x, _, _) '(_, y, _, _) =>
            text_leb (Workshop.workshopName x) (Workshop.workshopName y))
  else if String.eqb orderField "typeName" then
    Some (fun '(_, _, x, _) '(_, _, y, _) =>
            text_leb (EquipmentType.typeName x) (EquipmentType.typeName y))
  else if String.eqb orderField "baseName" then
    Some (fun '(_, _, _, x) '(_, _, _, y) =>
            text_leb (Base.baseName x) (Base.baseName y))
  else if String.eqb orderField "createdAt" then
    Some (fun '(x, _, _, _) '(y, _, _, _) =>
            time_leb (Equipment.createdAt x) (Equipment.createdAt y))
  else None.

Definition equipmentSort (sortBy sortOrder : string)
           (filteredQuery : list EquipmentRow) : list EquipmentRow :=
  if negb (String.eqb sortBy "") && negb (String.eqb sortOrder "") then
    match orderColumn sortBy with
    | Some le =>
        if String.eqb sortOrder "asc"
        then orderBy le filteredQuery
        else orderBy (fun x y => le y x) filteredQuery
    | None => filteredQuery
    end
  else filteredQuery.

Definition getEquipments (db : Db) (params : EquipmentParams.t)
  : outcome (list obj * Z) :=
  let page := match EquipmentParams.page params with Some v => v | None => 1 end in
  let limit := match EquipmentParams.limit params with Some v => v | None => 10 end in
  let sortBy :=
    match EquipmentParams.sortBy params with Some v => v | None => "equipment_id" end in
  let sortOrder :=
    match EquipmentParams.sortOrder params with Some v => v | None => "asc" end in
  let conditions := equipmentConditions params in
  let filteredQuery := where_all conditions (equipmentJoin db) in
  let total := Z.of_nat (List.length (where_all conditions (equipmentJoin db))) in
  let filteredQuery := equipmentSort sortBy sortOrder filteredQuery in
  let offset := (page - 1) * limit in
  data <- limit_offset limit offset filteredQuery ;;
  Ok (map equipmentSelect data, total).

Definition getEquipment (db : Db) (id : Z) : option obj :=
  option_map obj_of_equipment
    (hd_error (filter (fun e => Equipment.equipmentId e =? id) (equipment db))).

(** *** Component *)



Definition getComponent (db : Db) (id : Z) : option obj :=
  option_map obj_of_component
    (hd_error (filter (fun c => Component.componentId c =? id) (components db))).

(** *** Spare part *)

Definition getSparePart (db : Db) (id : Z) : option obj :=
  option_map obj_of_sparePart
    (hd_error (filter (fun s => SparePart.sparePartId s =? id) (spareParts db))).

Definition getSparePartByMaterialCode (db : Db) (materialCode : string)
  : option obj :=
  option_map obj_of_sparePart
    (hd_error (filter (fun s => String.eqb (SparePart.materialCode s) materialCode)
                      (spareParts db))).

(** The value a nullable column without default receives. *)
Definition stored {A : Type} (v : optional A) : option A :=
  match v with Given a => Some a | _ => None end.

(** [is_custom] has DEFAULT false. *)
Definition stored_isCustom (v : optional bool) : option bool :=
  match v with Given b => Some b | Null => None | Absent => Some false end.

(** [insert(spareParts).values(sparePart).returning()]; [now] is the
    database clock.  [spare_part_id] is the primary key and comes from
    the sequence, which moves on whether or not the row is accepted;
    [material_code] is UNIQUE. *)
Definition createSparePart (db : Db) (now : Z) (sparePart : InsertSparePart.t)
  : Db * outcome obj :=
  let id := sparePartSeq db in
  if existsb (fun s => SparePart.sparePartId s =? id) (spareParts db)
     || existsb (fun s => String.eqb (SparePart.materialCode s)
                                     (InsertSparePart.materialCode sparePart))
                (spareParts db)
  then (with_spareParts db (spareParts db) (id + 1),
        Throw "duplicate key value violates unique constraint")
  else
    let row :=
      SparePart.mk id
        (InsertSparePart.materialCode sparePart)
        (InsertSparePart.manufacturer sparePart)
        (stored (InsertSparePart.manufacturerMaterialCode sparePart))
        (stored (InsertSparePart.specification sparePart))
        (stored (InsertSparePart.description sparePart))
        (stored_isCustom (InsertSparePart.isCustom sparePart))
        (Some now) (Some now) in
    (with_spareParts db (spareParts db ++ [row]) (id + 1),
     Ok (obj_of_sparePart row)).

(** *** Spare part supplier *)



(** *** Equipment / component / spare part association *)

Definition AssociationRow : Type :=
  (Assoc.t * Equipment.t * Component.t * SparePart.t
   * option SparePartSupplier.t)%type.

Definition associationJoin (db : Db) : list AssociationRow :=
  leftJoin
    (innerJoin
       (innerJoin
          (innerJoin (equipmentComponentSpareParts db) (equipment db)
             (fun a e => Assoc.equipmentId a =? Equipment.equipmentId e))
          (components db)
          (fun '(a, _) c => Assoc.componentId a =? Component.componentId c))
       (spareParts db)
       (fun '(a, _, _) s => Assoc.sparePartId a =? SparePart.sparePartId s))
    (sparePartSuppliers db)
    (fun '(_, _, _, s) u => SparePart.sparePartId s =? SparePartSupplier.sparePartId u).

(** The selected columns; none of them comes from the supplier table. *)
Definition associationSelect (r : AssociationRow) : obj :=
  let '(a, e, c, s, _) := r in
  [ ("id", JNum (Assoc.id a));
    ("equipmentId", JNum (Assoc.equipmentId a));
    ("componentId", JNum (Assoc.componentId a));
    ("sparePartId", JNum (Assoc.sparePartId a));
    ("quantity", jnum_opt (Assoc.quantity a));
    ("createdAt", jdate_opt (Assoc.createdAt a));
    ("updatedAt", jdate_opt (Assoc.updatedAt a));
    ("equipmentName", JStr (Equipment.equipmentName e));
    ("componentName", JStr (Component.componentName c));
    ("importanceLevel", JStr (importance_label (Component.importanceLevel c)));
    ("materialCode", JStr (SparePart.materialCode s));
    ("sparePartName", jstr_opt (SparePart.description s));
    ("specification", jstr_opt (SparePart.specification s));
    ("manufacturer", JStr (SparePart.manufacturer s)) ].

Definition supplierWeeks (r : AssociationRow) : option Z :=
  let '(_, _, _, _, u) := r in
  option_map SparePartSupplier.supplyCycleWeeks u.

(** The labels of [inArray(components.importanceLevel, ...)] are bound as
    values of the enum type: a label outside A, B, C fails the statement. *)
Fixpoint bind_levels (labels : list string) : outcome (list importance_level) :=
  match labels with
  | [] => Ok []
  | s :: rest =>
      match importance_of_label s with
      | Some i => more <- bind_levels rest ;; Ok (i :: more)
      | None => Throw "invalid input value for enum importance_level"
      end
  end.

(** [if (importanceLevel && importanceLevel.length > 0)] *)
Definition levelCondition (importanceLevel : option (list string))
  : outcome (list (AssociationRow -> tri)) :=
  match importanceLevel with
  | Some (s :: rest) =>
      levels <- bind_levels (s :: rest) ;;
      Ok [fun '(_, _, c, _, _) =>
            Some (existsb (importance_eqb (Component.importanceLevel c)) levels)]
  | _ => Ok []
  end.

(** [if (supplyCycleRange && supplyCycleRange.length === 2)] *)
Definition rangeCondition (supplyCycleRange : option (list Z))
  : list (AssociationRow -> tri) :=
  match supplyCycleRange with
  | Some [min; max] =>
      [fun r => and_all [ge_int (supplierWeeks r) (Some min);
                         le_int (supplierWeeks r) (Some max)]]
  | _ => []
  end.

(** [if (isCustom !== undefined)] *)
Definition customCondition (isCustom : option bool)
  : list (AssociationRow -> tri) :=
  match isCustom with
  | Some v => [fun '(_, _, _, s, _) => eq_bool (SparePart.isCustom s) (Some v)]
  | None => []
  end.

Definition keywordCondition (keyword : string) (r : AssociationRow) : tri :=
  let '(_, e, c, s, _) := r in
  or_any [ like (Some (SparePart.materialCode s)) (contains_pattern keyword);
           like (SparePart.description s) (contains_pattern keyword);
           like (SparePart.specification s) (contains_pattern keyword);
           like (Some (Equipment.equipmentName e)) (contains_pattern keyword);
           like (Some (Component.componentName c)) (contains_pattern keyword) ].

Definition associationConditions (p : AssociationParams.t)
           (level : list (AssociationRow -> tri))
  : list (AssociationRow -> tri) :=
  whenNum (AssociationParams.equipmentId p)
    (fun v '(a, _, _, _, _) => eq_int (Some (Assoc.equipmentId a)) (Some v))
  ++ whenNum (AssociationParams.componentId p)
    (fun v '(a, _, _, _, _) => eq_int (Some (Assoc.componentId a)) (Some v))
  ++ whenNum (AssociationParams.sparePartId p)
    (fun v '(a, _, _, _, _) => eq_int (Some (Assoc.sparePartId a)) (Some v))
  ++ level
  ++ rangeCondition (AssociationParams.supplyCycleRange p)
  ++ customCondition (AssociationParams.isCustom p)
  ++ whenStr (AssociationParams.keyword p) keywordCondition.

(** [orderBy(equipment.equipmentName, components.componentName)] *)
Definition associationOrder (x y : AssociationRow) : bool :=
  lex_leb
    (fun '(_, e1, _, _, _) '(_, e2, _, _, _) =>
       text_leb (Equipment.equipmentName e1) (Equipment.equipmentName e2))
    (fun '(_, _, c1, _, _) '(_, _, c2, _, _) =>
       text_leb (Component.componentName c1) (Component.componentName c2))
    x y.

(** The rows of the joined tables that the query keeps, in result order. *)
Definition associationRows (db : Db) (p : AssociationParams.t)
  : outcome (list AssociationRow) :=
  level <- levelCondition (AssociationParams.importanceLevel p) ;;
  Ok (orderBy associationOrder
        (where_all (associationConditions p level) (associationJoin db))).

Definition getAssociations (db : Db) (params : AssociationParams.t)
  : outcome (list obj) :=
  rows <- associationRows db params ;;
  Ok (map associationSelect rows).

End Storage.

(* ================================================================== *)
(** ** The Express handlers (registerRoutes) *)

(** A node of a hierarchy response. *)
#[local] Unset Elimination Schemes.
Inductive TreeNode : Type :=
| Node (id : jsval) (name : jsval) (type : string) (data : obj)
       (children : option (list TreeNode)).
#[local] Set Elimination Schemes.

Definition node_id (n : TreeNode) : jsval :=
  match n with Node i _ _ _ _ => i end.
Definition node_name (n : TreeNode) : jsval :=
  match n with Node _ m _ _ _ => m end.
Definition node_type (n : TreeNode) : string :=
  match n with Node _ _ t _ _ => t end.
Definition node_data (n : TreeNode) : obj :=
  match n with Node _ _ _ d _ => d end.
Definition node_children (n : TreeNode) : list TreeNode :=
  match n with Node _ _ _ _ (Some l) => l | Node _ _ _ _ None => [] end.

Record Pagination : Type := mkPagination {
  pg_page : Z;
  pg_limit : Z;
  pg_total : Z;
  pg_totalPages : jsval }.

(** The JSON bodies the handlers send. *)
Inductive body : Type :=
| BObject (o : obj)
| BArray (rows : list obj)
| BPage (data : list obj) (pagination : Pagination)
| BTree (root : TreeNode)
| BSuccess
| BError (error : string)
| BValidation
| BInternal (message : string).

Record response : Type := mkResponse { status : Z; payload : body }.

(** [handleErrors] for an exception that is not a validation error. *)
Definition handleErrors (message : string) : response :=
  mkResponse 500 (BInternal message).

(** [handleErrors] for a ZodError. *)
Definition handleZodError : response := mkResponse 400 BValidation.

(** The number a property holds, to pass it on as a numeric argument. *)
Definition as_num (v : jsval) : option Z :=
  match v with JNum n => Some n | _ => None end.

(** [`${prefix}${v}`] for the identifiers the handlers interpolate. *)
Definition template (prefix : string) (v : jsval) : string :=
  match v with
  | JNum n => (prefix ++ NilZero.string_of_int (Z.to_int n))%string
  | JStr s => (prefix ++ s)%string
  | JNull => (prefix ++ "null")%string
  | _ => (prefix ++ "undefined")%string
  end.

(** [Promise.all(xs.map(f))]: every result, or the first rejection. *)
Fixpoint all {A B : Type} (f : A -> outcome B) (xs : list A) : outcome (list B) :=
  match xs with
  | [] => Ok []
  | x :: rest => y <- f x ;; ys <- all f rest ;; Ok (y :: ys)
  end.

(** Query strings.  A numeric parameter is held as the integer [parseInt]
    reads from its text; [None] stands for a parameter that is missing or
    empty, which is what the handlers test before parsing. *)
Module EquipmentQuery.
Record t : Type := mk {
  workshopId : option Z;
  typeId : option Z;
  baseId : option Z;
  search : option string;
  page : option Z;
  limit : option Z;
  sortBy : option string;
  sortOrder : option string }.
End EquipmentQuery.

(** An id filter of the association listing: missing or empty, the text
    [all], or a number. *)
Inductive idFilter : Type :=
| IdMissing
| IdAll
| IdNumber (n : Z).

Module AssociationQuery.
(** [supplyCycleRange] is the array [split(',').map(Number)] makes of a
    present parameter written with integer literals. *)
Record t : Type := mk {
  equipmentId : idFilter;
  componentId : idFilter;
  sparePartId : idFilter;
  importanceLevel : option string;
  supplyCycleRange : option (list Z);
  isCustom : option string;
  keyword : option string }.
End AssociationQuery.

Module Routes.

Definition orDefault {A : Type} (v : option A) (d : A) : A :=
  match v with Some x => x | None => d end.

(** *** DELETE /api/bases/:id *)

Definition delete_base (db : Db) (id : Z) : Db * response :=
  match Storage.deleteBase db id with
  | Ok (db', result) =>
      if negb result
      then (db', mkResponse 404 (BError "Base not found or could not be deleted"))
      else (db', mkResponse 200 BSuccess)
  | Throw e => (db, handleErrors e)
  end.

(** *** GET /api/equipment *)

Definition equipmentParams (q : EquipmentQuery.t) : EquipmentParams.t :=
  EquipmentParams.mk
    (EquipmentQuery.workshopId q)
    (EquipmentQuery.typeId q)
    (EquipmentQuery.baseId q)
    (EquipmentQuery.search q)
    (Some (orDefault (EquipmentQuery.page q) 1))
    (Some (orDefault (EquipmentQuery.limit q) 10))
    (EquipmentQuery.sortBy q)
    (Some (if truthy_str (EquipmentQuery.sortOrder q)
           then orDefault (EquipmentQuery.sortOrder q) "asc"
           else "asc")).

Definition get_equipment (db : Db) (q : EquipmentQuery.t) : response :=
  let params := equipmentParams q in
  let page := orDefault (EquipmentParams.page params) 1 in
  let limit := orDefault (EquipmentParams.limit params) 10 in
  match Storage.getEquipments db params with
  | Ok (data, total) =>
      mkResponse 200
        (BPage data (mkPagination page limit total
                                  (json_number (ceil_div total limit))))
  | Throw e => handleErrors e
  end.

(** *** POST /api/spare-parts *)

(** The insert schema derived from the table: NOT NULL columns without
    default are required strings, the others may be left out or null. *)
Definition requiredString (v : jsval) : option string :=
  match v with JStr s => Some s | _ => None end.

Definition optionalString (v : jsval) : option (optional string) :=
  match v with
  | JUndefined => Some Absent
  | JNull => Some Null
  | JStr s => Some (Given s)
  | _ => None
  end.

Definition optionalBoolean (v : jsval) : option (optional bool) :=
  match v with
  | JUndefined => Some Absent
  | JNull => Some Null
  | JBool b => Some (Given b)
  | _ => None
  end.

Definition insertSparePartSchema_parse (body : obj) : option InsertSparePart.t :=
  match requiredString (prop body "materialCode"),
        requiredString (prop body "manufacturer"),
        optionalString (prop body "manufacturerMaterialCode"),
        optionalString (prop body "specification"),
        optionalString (prop body "description"),
        optionalBoolean (prop body "isCustom") with
  | Some code, Some maker, Some mcode, Some spec, Some descr, Some custom =>
      Some (InsertSparePart.mk code maker mcode spec descr custom)
  | _, _, _, _, _, _ => None
  end.

Definition post_spare_parts (db : Db) (now : Z) (body : obj) : Db * response :=
  match insertSparePartSchema_parse body with
  | None => (db, handleZodError)
  | Some sparePartData =>
      match Storage.getSparePartByMaterialCode db
              (InsertSparePart.materialCode sparePartData) with
      | Some _ => (db, mkResponse 400 (BError "Material code already exists"))
      | None =>
          match Storage.createSparePart db now sparePartData with
          | (db', Ok newSparePart) => (db', mkResponse 201 (BObject newSparePart))
          | (db', Throw e) => (db', handleErrors e)
          end
      end
  end.

(** *** GET /api/associations *)

Definition idParam (f : idFilter) : option Z :=
  match f with IdNumber n => Some n | _ => None end.

Definition associationParams (q : AssociationQuery.t) : AssociationParams.t :=
  AssociationParams.mk
    (idParam (AssociationQuery.equipmentId q))
    (idParam (AssociationQuery.componentId q))
    (idParam (AssociationQuery.sparePartId q))
    (if truthy_str (AssociationQuery.importanceLevel q)
     then option_map (split ",") (AssociationQuery.importanceLevel q)
     else None)
    (AssociationQuery.supplyCycleRange q)
    (option_map (fun s => String.eqb s "true") (AssociationQuery.isCustom q))
    (AssociationQuery.keyword q).

Definition get_associations (db : Db) (q : AssociationQuery.t) : response :=
  match Storage.getAssociations db (associationParams q) with
  | Ok associations => mkResponse 200 (BArray associations)
  | Throw e => handleErrors e
  end.

(** *** GET /api/hierarchy/base/:id, as registered first *)

Definition workshopNode (db : Db) (workshop : obj) : outcome TreeNode :=
  equipmentResponse <-
    Storage.getEquipments db
      (EquipmentParams.mk (as_num (prop workshop "workshopId")) None None None
                          None (Some 100) None None) ;;
  Ok (Node (prop workshop "workshopId") (prop workshop "workshopName")
           "车间" workshop
           (Some (map (fun equipment =>
                         Node (prop equipment "equipmentId")
                              (prop equipment "equipmentName")
                              "设备" equipment None)
                      (fst equipmentResponse)))).

Definition hierarchy_base (db : Db) (baseId : Z) : response :=
  match Storage.getBase db baseId with
  | None => mkResponse 404 (BError "Base not found")
  | Some base =>
      let workshops := Storage.getWorkshops db (Some baseId) in
      match all (workshopNode db) workshops with
      | Ok children =>
          mkResponse 200
            (BTree (Node (prop base "baseId") (prop base "baseName")
                         "基地" base (Some children)))
      | Throw e => handleErrors e
      end
  end.

(** *** GET /api/hierarchy/base/:baseId, as registered second *)

Definition workshopNode_second (db : Db) (workshop : obj) : outcome TreeNode :=
  equipmentList <-
    Storage.getEquipments db
      (EquipmentParams.mk (as_num (prop workshop "workshopId")) None None None
                          None (Some 1000) None None) ;;
  Ok (Node (JStr (template "workshop-" (prop workshop "workshopId")))
           (prop workshop "workshopName") "车间" workshop
           (Some (map (fun equipment =>
                         Node (JStr (template "equipment-" (prop equipment "equipmentId")))
                              (prop equipment "equipmentName")
                              "设备" equipment (Some []))
                      (fst equipmentList)))).

Definition hierarchy_base_second (db : Db) (baseId : Z) : response :=
  match Storage.getBase db baseId with
  | None => mkResponse 404 (BError "Base not found")
  | Some base =>
      let workshops := Storage.getWorkshops db (Some baseId) in
      match all (workshopNode_second db) workshops with
      | Ok workshopNodes =>
          mkResponse 200
            (BTree (Node (JStr (template "base-" (prop base "baseId")))
                         (prop base "baseName") "基地" base (Some workshopNodes)))
      | Throw e => handleErrors e
      end
  end.

(** Both handlers are registered for the same method and path shape, and
    neither passes control on: the router answers with the one registered
    first. *)
Definition dispatch {A : Type} (handlers : list (Db -> A -> response))
           (db : Db) (arg : A) : response :=
  match handlers with
  | h :: _ => h db arg
  | [] => mkResponse 404 (BError "Cannot GET")
  end.

Definition GET_hierarchy_base : Db -> Z -> response :=
  dispatch [hierarchy_base; hierarchy_base_second].

(** *** GET /api/hierarchy/equipment/:id *)

(** [componentsMap]: component id to [{ component, spareParts }], where
    [spareParts] holds [{ sparePart, association }]; entries are kept in
    the order of insertion, which is the order [entries()] yields. *)
Definition Entry : Type := (obj * obj)%type.
Definition ComponentsMap : Type := list (jsval * (obj * list Entry)).

Fixpoint map_has (m : ComponentsMap) (k : jsval) : bool :=
  match m with
  | [] => false
  | (k', _) :: m' => jsval_eqb k k' || map_has m' k
  end.

Fixpoint map_set (m : ComponentsMap) (k : jsval) (v : obj * list Entry)
  : ComponentsMap :=
  match m with
  | [] => [(k, v)]
  | (k', v') :: m' =>
      if jsval_eqb k k' then (k', v) :: m' else (k', v') :: map_set m' k v
  end.

(** [componentsMap.get(k).spareParts.push(e)] *)
Fixpoint map_push (m : ComponentsMap) (k : jsval) (e : Entry) : ComponentsMap :=
  match m with
  | [] => []
  | (k', (component, spareParts)) :: m' =>
      if jsval_eqb k k'
      then (k', (component, spareParts ++ [e])) :: m'
      else (k', (component, spareParts)) :: map_push m' k e
  end.

Definition getComponent_of (db : Db) (v : jsval) : option obj :=
  match as_num v with Some n => Storage.getComponent db n | None => None end.

Definition getSparePart_of (db : Db) (v : jsval) : option obj :=
  match as_num v with Some n => Storage.getSparePart db n | None => None end.

(** One turn of the loop [for (const assoc of associations)]. *)
Definition group_step (db : Db) (componentsMap : ComponentsMap) (assoc : obj)
  : ComponentsMap :=
  let key := prop assoc "componentId" in
  let componentsMap :=
    if negb (map_has componentsMap key) then
      match getComponent_of db key with
      | Some component => map_set componentsMap key (component, [])
      | None => componentsMap
      end
    else componentsMap in
  if map_has componentsMap key then
    match getSparePart_of db (prop assoc "sparePartId") with
    | Some sparePart => map_push componentsMap key (sparePart, assoc)
    | None => componentsMap
    end
  else componentsMap.

Definition sparePartNode (e : Entry) : TreeNode :=
  let '(sparePart, association) := e in
  Node (prop sparePart "sparePartId")
       (prop sparePart "sparePartName")
       "备件"
       (set_prop
          (set_prop
             (set_prop sparePart "importanceLevel" (prop association "importanceLevel"))
             "supplyCycle" (prop association "supplyCycle"))
          "quantity" (prop association "quantity"))
       None.

Definition componentNode (entry : jsval * (obj * list Entry)) : TreeNode :=
  let '(componentId, (component, spareParts)) := entry in
  Node componentId (prop component "componentName") "部件" component
       (Some (map sparePartNode spareParts)).

Definition hierarchy_equipment (db : Db) (equipmentId : Z) : response :=
  match Storage.getEquipment db equipmentId with
  | None => mkResponse 404 (BError "Equipment not found")
  | Some equipment =>
      match Storage.getAssociations db
              (AssociationParams.mk (Some equipmentId) None None None None None None) with
      | Ok associations =>
          let componentsMap := fold_left (group_step db) associations [] in
          mkResponse 200
            (BTree (Node (prop equipment "equipmentId")
                         (prop equipment "equipmentName")
                         "设备" equipment
                         (Some (map componentNode componentsMap))))
      | Throw e => handleErrors e
      end
  end.

End Routes.

(* ================================================================== *)
(** ** More of server/storage.ts: creating, updating and listing rows *)

(** The sequences behind the serial keys of [base], [workshop],
    [equipment_type] and [equipment]. *)
Record Serials : Type := mkSerials {
  baseSeq : Z;
  workshopSeq : Z;
  equipmentTypeSeq : Z;
  equipmentSeq : Z }.

Module InsertBase.
Record t : Type := mk { baseName : string }.
End InsertBase.

Module InsertWorkshop.
Record t : Type := mk {
  baseId : Z;
  workshopName : string;
  busyLevel : busy_level }.
End InsertWorkshop.

Module InsertEquipmentType.
Record t : Type := mk {
  typeName : string;
  lifecycleYears : optional Z }.
End InsertEquipmentType.

Module InsertEquipment.
Record t : Type := mk {
  workshopId : Z;
  typeId : Z;
  equipmentName : string }.
End InsertEquipment.

Definition with_workshops (db : Db) (l : list Workshop.t) : Db :=
  mkDb (bases db) l (equipmentTypes db) (equipment db) (components db)
       (spareParts db) (sparePartSuppliers db)
       (equipmentComponentSpareParts db) (sparePartSeq db).

Definition with_equipmentTypes (db : Db) (l : list EquipmentType.t) : Db :=
  mkDb (bases db) (workshops db) l (equipment db) (components db)
       (spareParts db) (sparePartSuppliers db)
       (equipmentComponentSpareParts db) (sparePartSeq db).

Definition with_equipment (db : Db) (l : list Equipment.t) : Db :=
  mkDb (bases db) (workshops db) (equipmentTypes db) l (components db)
       (spareParts db) (sparePartSuppliers db)
       (equipmentComponentSpareParts db) (sparePartSeq db).

Definition busy_of_label (s : string) : option busy_level :=
  if String.eqb s "1" then Some Busy1
  else if String.eqb s "2" then Some Busy2
  else if String.eqb s "3" then Some Busy3
  else if String.eqb s "4" then Some Busy4
  else None.

Module Crud.

(** *** Base *)

Definition getBases (db : Db) : list obj :=
  map obj_of_base
      (orderBy (fun x y => text_leb (Base.baseName x) (Base.baseName y))
               (bases db)).

(** [insert(bases).values(base).returning()]: the key comes from the
    sequence, which moves on whether or not the row is accepted; the
    timestamps default to the clock [now]. *)
Definition createBase (db : Db) (seqs : Serials) (now : Z) (base : InsertBase.t)
  : Serials * outcome (Db * obj) :=
  let id := baseSeq seqs in
  let seqs' := mkSerials (id + 1) (workshopSeq seqs) (equipmentTypeSeq seqs)
                         (equipmentSeq seqs) in
  if existsb (fun b => Base.baseId b =? id) (bases db)
  then (seqs', Throw "duplicate key value violates unique constraint")
  else
    let row := Base.mk id (InsertBase.baseName base) (Some now) (Some now) in
    (seqs', Ok (with_bases db (bases db ++ [row]), obj_of_base row)).

(** [update(bases).set(base).where(eq(bases.baseId, id)).returning()],
    and the first row returned. *)
Definition updateBase (db : Db) (id : Z) (base : InsertBase.t)
  : Db * option obj :=
  let hit := fun b => Base.baseId b =? id in
  let rows :=
    map (fun b => if hit b
                  then Base.mk (Base.baseId b) (InsertBase.baseName base)
                               (Base.createdAt b) (Base.updatedAt b)
                  else b)
        (bases db) in
  (with_bases db rows, option_map obj_of_base (hd_error (filter hit rows))).

(** *** Workshop *)

Definition getWorkshop (db : Db) (id : Z) : option obj :=
  option_map obj_of_workshop
    (hd_error (filter (fun w => Workshop.workshopId w =? id) (workshops db))).

(** [base_id] references [base]. *)
Definition createWorkshop (db : Db) (seqs : Serials) (now : Z)
           (workshop : InsertWorkshop.t) : Serials * outcome (Db * obj) :=
  let id := workshopSeq seqs in
  let seqs' := mkSerials (baseSeq seqs) (id + 1) (equipmentTypeSeq seqs)
                         (equipmentSeq seqs) in
  if existsb (fun w => Workshop.workshopId w =? id) (workshops db)
  then (seqs', Throw "duplicate key value violates unique constraint")
  else if negb (existsb (fun b => Base.baseId b =? InsertWorkshop.baseId workshop)
                        (bases db))
  then (seqs', Throw "violates foreign key constraint")
  else
    let row := Workshop.mk id (InsertWorkshop.baseId workshop)
                           (InsertWorkshop.workshopName workshop)
                           (InsertWorkshop.busyLevel workshop)
                           (Some now) (Some now) in
    (seqs', Ok (with_workshops db (workshops db ++ [row]), obj_of_workshop row)).

(** The equipment table references [workshop_id]. *)
Definition deleteWorkshop (db : Db) (id : Z) : outcome (Db * bool) :=
  let doomed := filter (fun w => Workshop.workshopId w =? id) (workshops db) in
  if existsb (fun e =>
                existsb (fun w => Equipment.workshopId e =? Workshop.workshopId w)
                        doomed)
             (equipment db)
  then Throw "violates foreign key constraint"
  else
    let result := mkQueryResult (List.length doomed) in
    Ok (with_workshops db
          (filter (fun w => negb (Workshop.workshopId w =? id)) (workshops db)),
        truthy_result result).

(** *** Equipment type *)

Definition obj_of_equipmentType (t : EquipmentType.t) : obj :=
  [ ("typeId", JNum (EquipmentType.typeId t));
    ("typeName", JStr (EquipmentType.typeName t));
    ("lifecycleYears", jnum_opt (EquipmentType.lifecycleYears t));
    ("createdAt", jdate_opt (EquipmentType.createdAt t));
    ("updatedAt", jdate_opt (EquipmentType.updatedAt t)) ].

Definition createEquipmentType (db : Db) (seqs : Serials) (now : Z)
           (equipmentType : InsertEquipmentType.t)
  : Serials * outcome (Db * obj) :=
  let id := equipmentTypeSeq seqs in
  let seqs' := mkSerials (baseSeq seqs) (workshopSeq seqs) (id + 1)
                         (equipmentSeq seqs) in
  if existsb (fun t => EquipmentType.typeId t =? id) (equipmentTypes db)
  then (seqs', Throw "duplicate key value violates unique constraint")
  else
    let row := EquipmentType.mk id (InsertEquipmentType.typeName equipmentType)
                 (Storage.stored (InsertEquipmentType.lifecycleYears equipmentType))
                 (Some now) (Some now) in
    (seqs', Ok (with_equipmentTypes db (equipmentTypes db ++ [row]),
                obj_of_equipmentType row)).

(** *** Equipment *)

(** [workshop_id] references [workshop], [type_id] references
    [equipment_type]. *)
Definition createEquipment (db : Db) (seqs : Serials) (now : Z)
           (equipmentData : InsertEquipment.t) : Serials * outcome (Db * obj) :=
  let id := equipmentSeq seqs in
  let seqs' := mkSerials (baseSeq seqs) (workshopSeq seqs)
                         (equipmentTypeSeq seqs) (id + 1) in
  if existsb (fun e => Equipment.equipmentId e =? id) (equipment db)
  then (seqs', Throw "duplicate key value violates unique constraint")
  else if negb (existsb (fun w => Workshop.workshopId w
                                  =? InsertEquipment.workshopId equipmentData)
                        (workshops db))
          || negb (existsb (fun t => EquipmentType.typeId t
                                     =? InsertEquipment.typeId equipmentData)
                           (equipmentTypes db))
  then (seqs', Throw "violates foreign key constraint")
  else
    let row := Equipment.mk id (InsertEquipment.workshopId equipmentData)
                            (InsertEquipment.typeId equipmentData)
                            (InsertEquipment.equipmentName equipmentData)
                            (Some now) (Some now) in
    (seqs', Ok (with_equipment db (equipment db ++ [row]), obj_of_equipment row)).

(** *** Spare part *)

Definition searchCondition (search : string) (s : SparePart.t) : tri :=
  or_any [ like (Some (SparePart.materialCode s)) (contains_pattern search);
           like (Some (SparePart.manufacturer s)) (contains_pattern search);
           like (SparePart.specification s) (contains_pattern search);
           like (SparePart.description s) (contains_pattern search) ].

Definition sparePartConditions (search : option string) (isCustom : option bool)
  : list (SparePart.t -> tri) :=
  Storage.whenStr search searchCondition
  ++ match isCustom with
     | Some v => [fun s => eq_bool (SparePart.isCustom s) (Some v)]
     | None => []
     end.

Definition getSpareParts (db : Db) (search : option string)
           (isCustom : option bool) : list obj :=
  map obj_of_sparePart
      (orderBy (fun x y => text_leb (SparePart.materialCode x)
                                    (SparePart.materialCode y))
               (where_all (sparePartConditions search isCustom) (spareParts db))).

(** What [set] writes to a nullable column: a field left out keeps the
    stored value. *)
Definition assigned {A : Type} (v : optional A) (old : option A) : option A :=
  match v with
  | Absent => old
  | Null => None
  | Given a => Some a
  end.

Definition setSparePart (sparePart : InsertSparePart.t) (s : SparePart.t)
  : SparePart.t :=
  SparePart.mk (SparePart.sparePartId s)
    (InsertSparePart.materialCode sparePart)
    (InsertSparePart.manufacturer sparePart)
    (assigned (InsertSparePart.manufacturerMaterialCode sparePart)
              (SparePart.manufacturerMaterialCode s))
    (assigned (InsertSparePart.specification sparePart) (SparePart.specification s))
    (assigned (InsertSparePart.description sparePart) (SparePart.description s))
    (assigned (InsertSparePart.isCustom sparePart) (SparePart.isCustom s))
    (SparePart.createdAt s) (SparePart.updatedAt s).

(** [update(spareParts).set(sparePart).where(eq(sparePartId, id))
    .returning()]; the statement fails when it would leave two rows with
    one material code. *)
Definition updateSparePart (db : Db) (id : Z) (sparePart : InsertSparePart.t)
  : outcome (Db * option obj) :=
  let hit := fun s => SparePart.sparePartId s =? id in
  if existsb hit (spareParts db)
     && existsb (fun s => negb (hit s)
                          && String.eqb (SparePart.materialCode s)
                                        (InsertSparePart.materialCode sparePart))
                (spareParts db)
  then Throw "duplicate key value violates unique constraint"
  else
    let rows := map (fun s => if hit s then setSparePart sparePart s else s)
                    (spareParts db) in
    Ok (with_spareParts db rows (sparePartSeq db),
        option_map obj_of_sparePart (hd_error (filter hit rows))).

End Crud.

(* ================================================================== *)
(** ** More Express handlers *)

(** The application state the handlers of this part work on: the tables
    and the sequences. *)
Definition Store : Type := (Db * Serials)%type.

Module Handlers.

(** The insert schema of an [integer] column accepts the integers of the
    column type and refuses every other value. *)
Definition requiredNumber (v : jsval) : option Z :=
  match v with
  | JNum n => if int4 n then Some n else None
  | _ => None
  end.

Definition optionalNumber (v : jsval) : option (optional Z) :=
  match v with
  | JUndefined => Some Absent
  | JNull => Some Null
  | JNum n => if int4 n then Some (Given n) else None
  | _ => None
  end.

Definition insertBaseSchema_parse (body : obj) : option InsertBase.t :=
  option_map InsertBase.mk (Routes.requiredString (prop body "baseName")).

Definition insertWorkshopSchema_parse (body : obj) : option InsertWorkshop.t :=
  match requiredNumber (prop body "baseId"),
        Routes.requiredString (prop body "workshopName"),
        Routes.requiredString (prop body "busyLevel") with
  | Some b, Some n, Some l =>
      option_map (InsertWorkshop.mk b n) (busy_of_label l)
  | _, _, _ => None
  end.

Definition insertEquipmentTypeSchema_parse (body : obj)
  : option InsertEquipmentType.t :=
  match Routes.requiredString (prop body "typeName"),
        optionalNumber (prop body "lifecycleYears") with
  | Some n, Some y => Some (InsertEquipmentType.mk n y)
  | _, _ => None
  end.

Definition insertEquipmentSchema_parse (body : obj) : option InsertEquipment.t :=
  match requiredNumber (prop body "workshopId"),
        requiredNumber (prop body "typeId"),
        Routes.requiredString (prop body "equipmentName") with
  | Some w, Some t, Some n => Some (InsertEquipment.mk w t n)
  | _, _, _ => None
  end.

(** The shape shared by the POST handlers: parse, insert, 201. *)
Definition created (st : Store) (r : Serials * outcome (Db * obj))
  : Store * response :=
  match r with
  | (seqs, Ok (db, row)) => ((db, seqs), mkResponse 201 (BObject row))
  | (seqs, Throw e) => ((fst st, seqs), handleErrors e)
  end.

(** *** /api/bases *)

Definition get_bases (db : Db) : response :=
  mkResponse 200 (BArray (Crud.getBases db)).

Definition get_base (db : Db) (id : Z) : response :=
  match Storage.getBase db id with
  | None => mkResponse 404 (BError "Base not found")
  | Some base => mkResponse 200 (BObject base)
  end.

Definition post_bases (st : Store) (now : Z) (body : obj) : Store * response :=
  match insertBaseSchema_parse body with
  | None => (st, handleZodError)
  | Some baseData => created st (Crud.createBase (fst st) (snd st) now baseData)
  end.

Definition put_base (db : Db) (id : Z) (body : obj) : Db * response :=
  match insertBaseSchema_parse body with
  | None => (db, handleZodError)
  | Some baseData =>
      match Crud.updateBase db id baseData with
      | (db', None) => (db', mkResponse 404 (BError "Base not found"))
      | (db', Some updatedBase) => (db', mkResponse 200 (BObject updatedBase))
      end
  end.

(** *** /api/workshops *)

Definition get_workshops (db : Db) (baseId : option Z) : response :=
  mkResponse 200 (BArray (Storage.getWorkshops db baseId)).

Definition post_workshops (st : Store) (now : Z) (body : obj)
  : Store * response :=
  match insertWorkshopSchema_parse body with
  | None => (st, handleZodError)
  | Some workshopData =>
      created st (Crud.createWorkshop (fst st) (snd st) now workshopData)
  end.

Definition delete_workshop (db : Db) (id : Z) : Db * response :=
  match Crud.deleteWorkshop db id with
  | Ok (db', result) =>
      if negb result
      then (db', mkResponse 404
                   (BError "Workshop not found or could not be deleted"))
      else (db', mkResponse 200 BSuccess)
  | Throw e => (db, handleErrors e)
  end.

(** *** /api/equipment-types and /api/equipment *)

Definition post_equipment_types (st : Store) (now : Z) (body : obj)
  : Store * response :=
  match insertEquipmentTypeSchema_parse body with
  | None => (st, handleZodError)
  | Some typeData =>
      created st (Crud.createEquipmentType (fst st) (snd st) now typeData)
  end.

Definition post_equipment (st : Store) (now : Z) (body : obj)
  : Store * response :=
  match insertEquipmentSchema_parse body with
  | None => (st, handleZodError)
  | Some equipmentData =>
      created st (Crud.createEquipment (fst st) (snd st) now equipmentData)
  end.

(** *** /api/spare-parts *)

(** [isCustom] is the raw text of the query parameter. *)
Definition get_spare_parts (db : Db) (search : option string)
           (isCustom : option string) : response :=
  mkResponse 200
    (BArray (Crud.getSpareParts db search
               (option_map (fun s => String.eqb s "true") isCustom))).

Definition get_spare_part (db : Db) (id : Z) : response :=
  match Storage.getSparePart db id with
  | None => mkResponse 404 (BError "Spare part not found")
  | Some sparePart => mkResponse 200 (BObject sparePart)
  end.

(** [existing && existing.sparePartId !== id] *)
Definition taken_by_other (existing : option obj) (id : Z) : bool :=
  match existing with
  | Some o => negb (jsval_eqb (prop o "sparePartId") (JNum id))
  | None => false
  end.

Definition put_spare_part (db : Db) (id : Z) (body : obj) : Db * response :=
  match Routes.insertSparePartSchema_parse body with
  | None => (db, handleZodError)
  | Some sparePartData =>
      if taken_by_other
           (Storage.getSparePartByMaterialCode db
              (InsertSparePart.materialCode sparePartData)) id
      then (db, mkResponse 400 (BError "Material code already exists"))
      else
        match Crud.updateSparePart db id sparePartData with
        | Ok (db', Some updatedSparePart) =>
            (db', mkResponse 200 (BObject updatedSparePart))
        | Ok (db', None) =>
            (db', mkResponse 404 (BError "Spare part not found"))
        | Throw e => (db, handleErrors e)
        end
  end.

End Handlers.

(* ================================================================== *)
(** ** Vocabulary of the properties *)

(** The leaf the base hierarchy makes of one equipment row. *)
Definition equipmentLeaf (equipment : obj) : TreeNode :=
  Node (prop equipment "equipmentId") (prop equipment "equipmentName")
       "设备" equipment None.

(** The sort fields of the equipment listing. *)
Definition sortable : list string :=
  ["equipmentId"; "equipmentName"; "workshopName"; "typeName"; "baseName";
   "createdAt"].

(** [x] comes no later than [y] when rows are listed by field [f] in
    ascending order (text bytewise, missing timestamps last). *)
Definition column_le (f : string) (x y : Storage.EquipmentRow) : Prop :=
  let '(e1, w1, t1, b1) := x in
  let '(e2, w2, t2, b2) := y in
  if String.eqb f "equipmentId" then
    Equipment.equipmentId e1 <= Equipment.equipmentId e2
  else if String.eqb f "equipmentName" then
    String.leb (Equipment.equipmentName e1) (Equipment.equipmentName e2) = true
  else if String.eqb f "workshopName" then
    String.leb (Workshop.workshopName w1) (Workshop.workshopName w2) = true
  else if String.eqb f "typeName" then
    String.leb (EquipmentType.typeName t1) (EquipmentType.typeName t2) = true
  else if String.eqb f "baseName" then
    String.leb (Base.baseName b1) (Base.baseName b2) = true
  else if String.eqb f "createdAt" then
    match Equipment.createdAt e1, Equipment.createdAt e2 with
    | Some a, Some b => a <= b
    | _, None => True
    | None, Some _ => False
    end
  else True.

Definition descending (q : EquipmentQuery.t) : bool :=
  match EquipmentQuery.sortOrder q with
  | Some s => String.eqb s "desc"
  | None => false
  end.

(** The parts of a joined association row. *)
Definition rowAssoc (r : Storage.AssociationRow) : Assoc.t :=
  let '(a, _, _, _, _) := r in a.
Definition rowEquipment (r : Storage.AssociationRow) : Equipment.t :=
  let '(_, e, _, _, _) := r in e.
Definition rowComponent (r : Storage.AssociationRow) : Component.t :=
  let '(_, _, c, _, _) := r in c.
Definition rowSparePart (r : Storage.AssociationRow) : SparePart.t :=
  let '(_, _, _, s, _) := r in s.
Definition rowSupplier (r : Storage.AssociationRow) : option SparePartSupplier.t :=
  let '(_, _, _, _, u) := r in u.

(** [k] occurs in [s] as a run of consecutive characters. *)
Definition occurs (k s : string) : Prop :=
  exists pre post, s = (pre ++ k ++ post)%string.

Definition occurs_in (k : string) (col : option string) : Prop :=
  exists s, col = Some s /\ occurs k s.

(** The keyword occurs in one of the five searched fields of the row. *)
Definition keyword_occurs (k : string) (r : Storage.AssociationRow) : Prop :=
  occurs k (SparePart.materialCode (rowSparePart r))
  \/ occurs_in k (SparePart.description (rowSparePart r))
  \/ occurs_in k (SparePart.specification (rowSparePart r))
  \/ occurs k (Equipment.equipmentName (rowEquipment r))
  \/ occurs k (Component.componentName (rowComponent r)).

Fixpoint prefixb (k s : string) : bool :=
  match k, s with
  | EmptyString, _ => true
  | String a k', String b s' => Ascii.eqb a b && prefixb k' s'
  | String _ _, EmptyString => false
  end.

Fixpoint occursb (k s : string) : bool :=
  prefixb k s
  || match s with
     | EmptyString => false
     | String _ s' => occursb k s'
     end.

(** A keyword without the characters a LIKE pattern gives a meaning to. *)
Fixpoint plain (k : string) : bool :=
  match k with
  | EmptyString => true
  | String c k' =>
      negb (Ascii.eqb c "%") && negb (Ascii.eqb c "_") && negb (Ascii.eqb c "\")
      && plain k'
  end.

Definition without_keyword (p : AssociationParams.t) : AssociationParams.t :=
  AssociationParams.mk
    (AssociationParams.equipmentId p) (AssociationParams.componentId p)
    (AssociationParams.sparePartId p) (AssociationParams.importanceLevel p)
    (AssociationParams.supplyCycleRange p) (AssociationParams.isCustom p) None.

(** The constraints the schema declares on the tables behind an
    association: serial primary keys identify rows, and every association
    references an existing equipment, component and spare part. *)
Fixpoint distinct (l : list Z) : bool :=
  match l with
  | [] => true
  | x :: l' => negb (existsb (Z.eqb x) l') && distinct l'
  end.

Definition refers {A : Type} (key : A -> Z) (l : list A) (k : Z) : bool :=
  existsb (fun x => k =? key x) l.

Definition integrity (db : Db) : bool :=
  distinct (map Equipment.equipmentId (equipment db))
  && distinct (map Component.componentId (components db))
  && distinct (map SparePart.sparePartId (spareParts db))
  && distinct (map Assoc.id (equipmentComponentSpareParts db))
  && forallb (fun a =>
                refers Equipment.equipmentId (equipment db) (Assoc.equipmentId a)
                && refers Component.componentId (components db) (Assoc.componentId a)
                && refers SparePart.sparePartId (spareParts db) (Assoc.sparePartId a))
             (equipmentComponentSpareParts db).

(** The supplier rows recorded for a spare part. *)
Definition suppliersOf (db : Db) (sparePartId : Z) : list SparePartSupplier.t :=
  filter (fun u => sparePartId =? SparePartSupplier.sparePartId u)
         (sparePartSuppliers db).

(** The rows of a listing that carry a given association id. *)
Definition rowsWithId (id : Z) (rows : list obj) : list obj :=
  filter (fun r => jsval_eqb (prop r "id") (JNum id)) rows.

(** The joined rows one association gives rise to. *)
Definition rowsOf (db : Db) (a : Assoc.t) : list Storage.AssociationRow :=
  leftJoin
    (innerJoin
       (innerJoin
          (innerJoin [a] (equipment db)
             (fun a e => Assoc.equipmentId a =? Equipment.equipmentId e))
          (components db)
          (fun '(a, _) c => Assoc.componentId a =? Component.componentId c))
       (spareParts db)
       (fun '(a, _, _) s => Assoc.sparePartId a =? SparePart.sparePartId s))
    (sparePartSuppliers db)
    (fun '(_, _, _, s) u => SparePart.sparePartId s =? SparePartSupplier.sparePartId u).

(** The associations of one equipment. *)
Definition associationsOf (db : Db) (equipmentId : Z) : list Assoc.t :=
  filter (fun a => Assoc.equipmentId a =? equipmentId)
         (equipmentComponentSpareParts db).

(** The equipment has exactly two distinct components, each tied to exactly
    two distinct spare parts: its association rows are four, [(c1, s11)],
    [(c1, s12)], [(c2, s21)] and [(c2, s22)]. *)
Definition tie (a : Assoc.t) : Z * Z :=
  (Assoc.componentId a, Assoc.sparePartId a).

Definition two_by_two (db : Db) (equipmentId : Z) : Prop :=
  exists c1 c2 s11 s12 s21 s22,
    c1 <> c2 /\ s11 <> s12 /\ s21 <> s22
    /\ Permutation (map tie (associationsOf db equipmentId))
                   [(c1, s11); (c1, s12); (c2, s21); (c2, s22)].

(** No spare part of the equipment has more than one supplier row. *)
Definition single_supplier (db : Db) (equipmentId : Z) : Prop :=
  forall a, In a (associationsOf db equipmentId) ->
            (List.length (suppliersOf db (Assoc.sparePartId a)) <= 1)%nat.

(** The grouping the hierarchy handler computes, in closed form. *)
Definition cidOf (r : Storage.AssociationRow) : Z :=
  Assoc.componentId (rowAssoc r).
Arguments cidOf : simpl never.

Definition entryOf (r : Storage.AssociationRow) : Routes.Entry :=
  (obj_of_sparePart (rowSparePart r), Storage.associationSelect r).

Definition componentOf (db : Db) (k : Z) : obj :=
  match Storage.getComponent db k with Some o => o | None => [] end.

Definition groupOf (db : Db) (rows : list Storage.AssociationRow) (k : Z)
  : jsval * (obj * list Routes.Entry) :=
  (JNum k,
   (componentOf db k, map entryOf (filter (fun r => cidOf r =? k) rows))).

(** The lookups of the handler find the component and the spare part that
    the joined row carries. *)
Definition resolved (db : Db) (r : Storage.AssociationRow) : Prop :=
  Storage.getComponent db (cidOf r) = Some (obj_of_component (rowComponent r))
  /\ Storage.getSparePart db (Assoc.sparePartId (rowAssoc r))
     = Some (obj_of_sparePart (rowSparePart r)).

(** The pattern tokens of a text that is matched literally. *)
Fixpoint literals (k : string) : list tok :=
  match k with
  | EmptyString => []
  | String c k' => PChar c :: literals k'
  end.

(** [integrity], one constraint at a time. *)
Record Integrity (db : Db) : Prop := {
  equipment_key : distinct (map Equipment.equipmentId (equipment db)) = true;
  component_key : distinct (map Component.componentId (components db)) = true;
  sparePart_key : distinct (map SparePart.sparePartId (spareParts db)) = true;
  association_key :
    distinct (map Assoc.id (equipmentComponentSpareParts db)) = true;
  association_refs :
    forall a, In a (equipmentComponentSpareParts db) ->
      refers Equipment.equipmentId (equipment db) (Assoc.equipmentId a) = true
      /\ refers Component.componentId (components db) (Assoc.componentId a) = true
      /\ refers SparePart.sparePartId (spareParts db) (Assoc.sparePartId a) = true }.

(** An entry of [componentsMap] pairs a [spare_part] row with a row of the
    association listing. *)
Definition from_tables (e : Routes.Entry) : Prop :=
  exists s r, e = (obj_of_sparePart s, Storage.associationSelect r).

Definition entries_from_tables (m : Routes.ComponentsMap) : Prop :=
  forall k component spareParts,
    In (k, (component, spareParts)) m -> Forall from_tables spareParts.

(** The keys of [componentsMap] after one more row: a component seen for
    the first time goes last. *)
Definition keysAfter (ks : list Z) (r : Storage.AssociationRow) : list Z :=
  if existsb (Z.eqb (cidOf r)) ks then ks else ks ++ [cidOf r].

(** A condition that does not look at the supplier of a joined row. *)
Definition supplier_blind (c : Storage.AssociationRow -> tri) : Prop :=
  forall a e c0 s u u', c (a, e, c0, s, u) = c (a, e, c0, s, u').

(* ================================================================== *)
(** ** Sample data *)

Module Sample.

Definition base1 : Base.t := Base.mk 1 "North plant" (Some 1000) (Some 1000).
Definition workshop1 : Workshop.t :=
  Workshop.mk 1 1 "Assembly" Busy2 (Some 1000) (Some 1000).
Definition type1 : EquipmentType.t :=
  EquipmentType.mk 1 "Press" (Some 10) (Some 1000) (Some 1000).
Definition press : Equipment.t :=
  Equipment.mk 1 1 1 "Press-1" (Some 1001) (Some 1001).
Definition lathe : Equipment.t :=
  Equipment.mk 2 1 1 "Lathe-7" (Some 1002) (Some 1002).
Definition drill : Equipment.t :=
  Equipment.mk 3 1 1 "Drill-3" None None.

Definition pump : Component.t :=
  Component.mk 10 1 "Pump" LevelA None (Some 5) (Some 1000) (Some 1000).
Definition valve : Component.t :=
  Component.mk 11 1 "Valve" LevelC None None (Some 1000) (Some 1000).

Definition seal : SparePart.t :=
  SparePart.mk 100 "M-100" "Acme" None (Some "40mm") (Some "Seal ring")
               (Some false) (Some 1000) (Some 1000).
Definition rotor : SparePart.t :=
  SparePart.mk 101 "M-101" "Acme" None None (Some "Rotor") (Some false)
               (Some 1000) (Some 1000).
Definition spring : SparePart.t :=
  SparePart.mk 102 "M-102" "Bolt" None None None (Some true)
               (Some 1000) (Some 1000).
Definition gasket : SparePart.t :=
  SparePart.mk 103 "M-103" "Bolt" None (Some "A4") (Some "Gasket") (Some false)
               (Some 1000) (Some 1000).

Definition sealSupplier : SparePartSupplier.t :=
  SparePartSupplier.mk 1 100 "Fast" 2 (Some 1000) (Some 1000).
Definition sealSupplier2 : SparePartSupplier.t :=
  SparePartSupplier.mk 2 100 "Slow" 8 (Some 1000) (Some 1000).
Definition rotorSupplier : SparePartSupplier.t :=
  SparePartSupplier.mk 3 101 "Fast" 6 (Some 1000) (Some 1000).

Definition link1 : Assoc.t := Assoc.mk 1 1 10 100 (Some 2) (Some 1000) (Some 1000).
Definition link2 : Assoc.t := Assoc.mk 2 1 10 101 (Some 1) (Some 1000) (Some 1000).
Definition link3 : Assoc.t := Assoc.mk 3 1 11 102 (Some 4) (Some 1000) (Some 1000).
Definition link4 : Assoc.t := Assoc.mk 4 1 11 103 None (Some 1000) (Some 1000).

(** One equipment, two components, two spare parts each; every spare part
    has at most one supplier. *)
Definition plant : Db :=
  mkDb [base1] [workshop1] [type1] [press; lathe; drill] [pump; valve]
       [seal; rotor; spring; gasket] [sealSupplier; rotorSupplier]
       [link1; link2; link3; link4] 104.

(** The same plant after a second supplier of the seal was recorded. *)
Definition plant2 : Db :=
  mkDb [base1] [workshop1] [type1] [press; lathe; drill] [pump; valve]
       [seal; rotor; spring; gasket] [sealSupplier; sealSupplier2; rotorSupplier]
       [link1; link2; link3; link4] 104.

Definition emptyDb : Db := mkDb [] [] [] [] [] [] [] [] 1.

(** The hierarchy of the press in [plant]. *)
Definition springNode : TreeNode :=
  Routes.sparePartNode
    (obj_of_sparePart spring,
     Storage.associationSelect (link3, press, valve, spring, None)).
Definition gasketNode : TreeNode :=
  Routes.sparePartNode
    (obj_of_sparePart gasket,
     Storage.associationSelect (link4, press, valve, gasket, None)).
Definition sealNode : TreeNode :=
  Routes.sparePartNode
    (obj_of_sparePart seal,
     Storage.associationSelect (link1, press, pump, seal, Some sealSupplier)).
Definition rotorNode : TreeNode :=
  Routes.sparePartNode
    (obj_of_sparePart rotor,
     Storage.associationSelect (link2, press, pump, rotor, Some rotorSupplier)).
Definition pumpNode : TreeNode :=
  Node (JNum 10) (JStr "Pump") "部件" (obj_of_component pump)
       (Some [sealNode; rotorNode]).
Definition valveNode : TreeNode :=
  Node (JNum 11) (JStr "Valve") "部件" (obj_of_component valve)
       (Some [springNode; gasketNode]).
Definition pressTree : TreeNode :=
  Node (JNum 1) (JStr "Press-1") "设备" (obj_of_equipment press)
       (Some [pumpNode; valveNode]).

(** A workshop that holds 101 machines. *)
Definition crowded : Db :=
  mkDb [base1] [workshop1] [type1]
       (map (fun i => Equipment.mk (Z.of_nat i) 1 1 "Unit" None None)
            (seq 1 101))
       [] [] [] [] 1.

Definition noFilter : AssociationParams.t :=
  AssociationParams.mk None None None None None None None.

Definition noQuery : AssociationQuery.t :=
  AssociationQuery.mk IdMissing IdMissing IdMissing None None None None.

(** [?importanceLevel=A,B&supplyCycleRange=2,6] *)
Definition queryAB : AssociationQuery.t :=
  AssociationQuery.mk IdMissing IdMissing IdMissing
                      (Some "A,B") (Some [2; 6]) None None.

(** The joined row that ties the valve of the press to the spring. *)
Definition springRow : Storage.AssociationRow :=
  (link3, press, valve, spring, None).

End Sample.

(* ================================================================== *)
(** ** More vocabulary *)

(** The row [createSparePart] stores for an accepted insert. *)
Definition createdSparePart (db : Db) (now : Z) (data : InsertSparePart.t)
  : SparePart.t :=
  SparePart.mk (sparePartSeq db)
    (InsertSparePart.materialCode data) (InsertSparePart.manufacturer data)
    (Storage.stored (InsertSparePart.manufacturerMaterialCode data))
    (Storage.stored (InsertSparePart.specification data))
    (Storage.stored (InsertSparePart.description data))
    (Storage.stored_isCustom (InsertSparePart.isCustom data))
    (Some now) (Some now).

(** The search text occurs in one of the four searched fields of a spare
    part. *)
Definition search_occurs (k : string) (s : SparePart.t) : Prop :=
  occurs k (SparePart.materialCode s)
  \/ occurs k (SparePart.manufacturer s)
  \/ occurs_in k (SparePart.specification s)
  \/ occurs_in k (SparePart.description s).

(** The same listing request for another page. *)
Definition setPage (p : EquipmentParams.t) (page limit : Z) : EquipmentParams.t :=
  EquipmentParams.mk
    (EquipmentParams.workshopId p) (EquipmentParams.typeId p)
    (EquipmentParams.baseId p) (EquipmentParams.search p)
    (Some page) (Some limit)
    (EquipmentParams.sortBy p) (EquipmentParams.sortOrder p).

(** The same query string with another [sortOrder]. *)
Definition setQueryOrder (q : EquipmentQuery.t) (o : option string)
  : EquipmentQuery.t :=
  EquipmentQuery.mk
    (EquipmentQuery.workshopId q) (EquipmentQuery.typeId q)
    (EquipmentQuery.baseId q) (EquipmentQuery.search q)
    (EquipmentQuery.page q) (EquipmentQuery.limit q)
    (EquipmentQuery.sortBy q) o.

(** The same listing request with another search text. *)
Definition setSearch (p : EquipmentParams.t) (s : option string) : EquipmentParams.t :=
  EquipmentParams.mk
    (EquipmentParams.workshopId p) (EquipmentParams.typeId p)
    (EquipmentParams.baseId p) s
    (EquipmentParams.page p) (EquipmentParams.limit p)
    (EquipmentParams.sortBy p) (EquipmentParams.sortOrder p).

(** The rows a listing request selects, in result order, before LIMIT and
    OFFSET cut a page out of them. *)
Definition equipmentListing (db : Db) (p : EquipmentParams.t) : list obj :=
  map Storage.equipmentSelect
      (Storage.equipmentSort
         (Routes.orDefault (EquipmentParams.sortBy p) "equipment_id")
         (Routes.orDefault (EquipmentParams.sortOrder p) "asc")
         (where_all (Storage.equipmentConditions p) (Storage.equipmentJoin db))).

(** The rows of one page, as a client that pages through the listing
    receives them. *)
Definition pageData (db : Db) (p : EquipmentParams.t) (limit : Z) (page : nat)
  : list obj :=
  match Storage.getEquipments db (setPage p (Z.of_nat page) limit) with
  | Ok (data, _) => data
  | Throw _ => []
  end.

(** The equipment of a joined listing row. *)
Definition listedEquipment (r : Storage.EquipmentRow) : Equipment.t :=
  let '(e, _, _, _) := r in e.

(** A search text made of percent signs only. *)
Fixpoint percents (s : string) : bool :=
  match s with
  | EmptyString => true
  | String c s' => Ascii.eqb c "%" && percents s'
  end.

Definition wild (s : string) : bool :=
  negb (String.eqb s "") && percents s.

(** Requests and rows over the sample plant. *)
Module Cases.

Definition noParams : EquipmentParams.t :=
  EquipmentParams.mk None None None None None None None None.

Definition byIdAsc : EquipmentParams.t :=
  EquipmentParams.mk None None None None None None
                     (Some "equipmentId") (Some "asc").

Definition noQuery : EquipmentQuery.t :=
  EquipmentQuery.mk None None None None None None None None.

Definition pressRow : Storage.EquipmentRow :=
  (Sample.press, Sample.workshop1, Sample.type1, Sample.base1).

End Cases.

(** The workshops [getWorkshops] selects before it orders them: a base id
    that is missing or 0 selects every workshop. *)
Definition workshopsSelected (db : Db) (baseId : option Z) : list Workshop.t :=
  match baseId with
  | Some id =>
      if id =? 0 then workshops db
      else filter (fun w => Workshop.baseId w =? id) (workshops db)
  | None => workshops db
  end.

(** A workshop node of the base hierarchy carries the workshop it stands
    for. *)
Definition workshopNode_of (workshop : obj) (n : TreeNode) : Prop :=
  node_id n = prop workshop "workshopId"
  /\ node_name n = prop workshop "workshopName"
  /\ node_type n = "车间"
  /\ node_data n = workshop.

(** The request [getAssociations({ equipmentId })] of the equipment
    hierarchy. *)
Definition ofEquipment (id : Z) : AssociationParams.t :=
  AssociationParams.mk (Some id) None None None None None None.

(** The order of the association listing: by equipment name, rows of the
    same equipment name by component name (text bytewise). *)
Definition association_le (x y : Storage.AssociationRow) : Prop :=
  String.leb (Equipment.equipmentName (rowEquipment x))
             (Equipment.equipmentName (rowEquipment y)) = true
  /\ (String.leb (Equipment.equipmentName (rowEquipment y))
                 (Equipment.equipmentName (rowEquipment x)) = true ->
      String.leb (Component.componentName (rowComponent x))
                 (Component.componentName (rowComponent y)) = true).

(** The same query string with another [supplyCycleRange]. *)
Definition setRange (q : AssociationQuery.t) (r : option (list Z))
  : AssociationQuery.t :=
  AssociationQuery.mk
    (AssociationQuery.equipmentId q) (AssociationQuery.componentId q)
    (AssociationQuery.sparePartId q) (AssociationQuery.importanceLevel q)
    r (AssociationQuery.isCustom q) (AssociationQuery.keyword q).

Module Queries.

(** [?importanceLevel=A,D] *)
Definition levelAD : AssociationQuery.t :=
  AssociationQuery.mk IdMissing IdMissing IdMissing (Some "A,D") None None None.

(** [?supplyCycleRange=5] *)
Definition oneBound : AssociationQuery.t :=
  AssociationQuery.mk IdMissing IdMissing IdMissing None (Some [5]) None None.

(** [?supplyCycleRange=6,2] *)
Definition upsideDown : AssociationQuery.t :=
  AssociationQuery.mk IdMissing IdMissing IdMissing None (Some [6; 2]) None None.

End Queries.

(** The sequences are ahead of the keys in use, start above 0 and are in
    the range of the integer type, and no workshop or equipment points at a
    base or workshop that is yet to be created. *)
Definition ahead (st : Store) : bool :=
  let db := fst st in
  let seqs := snd st in
  (0 <? baseSeq seqs) && (0 <? workshopSeq seqs)
  && int4 (baseSeq seqs) && int4 (workshopSeq seqs)
  && int4 (equipmentTypeSeq seqs) && int4 (equipmentSeq seqs)
  && forallb (fun b => Base.baseId b <? baseSeq seqs) (bases db)
  && forallb (fun w => (Workshop.workshopId w <? workshopSeq seqs)
                       && (Workshop.baseId w <? baseSeq seqs))
             (workshops db)
  && forallb (fun t => EquipmentType.typeId t <? equipmentTypeSeq seqs)
             (equipmentTypes db)
  && forallb (fun e => (Equipment.equipmentId e <? equipmentSeq seqs)
                       && (Equipment.workshopId e <? workshopSeq seqs))
             (equipment db).

(** Request bodies that create a base, a workshop in it, an equipment type
    and an equipment of that type in that workshop. *)
Definition baseBody (baseName : string) : obj :=
  [ ("baseName", JStr baseName) ].

Definition workshopBody (baseId : Z) (workshopName : string) (busy : busy_level)
  : obj :=
  [ ("baseId", JNum baseId);
    ("workshopName", JStr workshopName);
    ("busyLevel", JStr (busy_label busy)) ].

Definition typeBody (typeName : string) : obj :=
  [ ("typeName", JStr typeName) ].

Definition equipmentBody (workshopId typeId : Z) (equipmentName : string) : obj :=
  [ ("workshopId", JNum workshopId);
    ("typeId", JNum typeId);
    ("equipmentName", JStr equipmentName) ].

(** The times at which the database serves the four inserts. *)
Record Times : Type := mkTimes {
  atBase : Z;
  atWorkshop : Z;
  atType : Z;
  atEquipment : Z }.

(** The hierarchy of the new base, field by field: the base, its one
    workshop, the one equipment of the workshop. *)
Definition chainTree (st : Store) (at_ : Times)
           (baseName workshopName : string) (busy : busy_level)
           (typeName equipmentName : string) : TreeNode :=
  Node (JNum (baseSeq (snd st))) (JStr baseName) "基地"
       [ ("baseId", JNum (baseSeq (snd st)));
         ("baseName", JStr baseName);
         ("createdAt", JDate (atBase at_));
         ("updatedAt", JDate (atBase at_)) ]
       (Some
          [ Node (JNum (workshopSeq (snd st))) (JStr workshopName) "车间"
                 [ ("workshopId", JNum (workshopSeq (snd st)));
                   ("baseId", JNum (baseSeq (snd st)));
                   ("workshopName", JStr workshopName);
                   ("busyLevel", JStr (busy_label busy));
                   ("createdAt", JDate (atWorkshop at_));
                   ("updatedAt", JDate (atWorkshop at_)) ]
                 (Some
                    [ Node (JNum (equipmentSeq (snd st))) (JStr equipmentName)
                           "设备"
                           [ ("equipmentId", JNum (equipmentSeq (snd st)));
                             ("workshopId", JNum (workshopSeq (snd st)));
                             ("typeId", JNum (equipmentTypeSeq (snd st)));
                             ("equipmentName", JStr equipmentName);
                             ("createdAt", JDate (atEquipment at_));
                             ("updatedAt", JDate (atEquipment at_));
                             ("workshopName", JStr workshopName);
                             ("typeName", JStr typeName);
                             ("baseId", JNum (baseSeq (snd st)));
                             ("baseName", JStr baseName) ]
                           None ]) ]).

Module Stores.

Definition plantStore : Store := (Sample.plant, mkSerials 2 2 2 4).

Definition fourTimes : Times := mkTimes 2000 2001 2002 2003.

End Stores.

Module Bodies.

(** A workshop with a busy level that is not in the enum. *)
Definition badBusy : obj :=
  [ ("baseId", JNum 1); ("workshopName", JStr "Foundry");
    ("busyLevel", JStr "5") ].

(** A workshop of a base that does not exist. *)
Definition noBase : obj := workshopBody 9 "Foundry" Busy3.

(** A workshop whose base id is outside the range of the integer type. *)
Definition farBase : obj := workshopBody 99999999999 "Foundry" Busy3.

End Bodies.

(* ================================================================== *)
(** ** Requests in the range of the integer type; what a listing is asked for *)

Definition int4_opt (o : option Z) : bool :=
  match o with Some n => int4 n | None => true end.

(** The numbers of an equipment listing request are in the range of the
    integer type. *)
Definition equipment_query_in_range (q : EquipmentQuery.t) : bool :=
  int4_opt (EquipmentQuery.workshopId q)
  && int4_opt (EquipmentQuery.typeId q)
  && int4_opt (EquipmentQuery.baseId q)
  && int4_opt (EquipmentQuery.page q)
  && int4_opt (EquipmentQuery.limit q).

Definition equipment_params_in_range (p : EquipmentParams.t) : bool :=
  int4_opt (EquipmentParams.workshopId p)
  && int4_opt (EquipmentParams.typeId p)
  && int4_opt (EquipmentParams.baseId p).

Definition id_in_range (f : idFilter) : bool :=
  match f with IdNumber n => int4 n | _ => true end.

(** The ids and the supply cycle bounds of an association listing request
    are in the range of the integer type. *)
Definition association_query_in_range (q : AssociationQuery.t) : bool :=
  id_in_range (AssociationQuery.equipmentId q)
  && id_in_range (AssociationQuery.componentId q)
  && id_in_range (AssociationQuery.sparePartId q)
  && match AssociationQuery.supplyCycleRange q with
     | Some bounds => forallb int4 bounds
     | None => true
     end.

(** An equipment with its workshop, its type and the base of its workshop. *)
Definition joined (db : Db) (r : Storage.EquipmentRow) : Prop :=
  let '(e, w, t, b) := r in
  In e (equipment db) /\ In w (workshops db)
  /\ In t (equipmentTypes db) /\ In b (bases db)
  /\ Equipment.workshopId e = Workshop.workshopId w
  /\ Equipment.typeId e = EquipmentType.typeId t
  /\ Workshop.baseId w = Base.baseId b.

(** What an id filter asks of a column: nothing when it is left out or 0. *)
Definition id_filter (v : option Z) (x : Z) : Prop :=
  match v with
  | Some n => n = 0 \/ x = n
  | None => True
  end.

(** What the search text asks of the equipment name: nothing when it is
    left out or empty, else that the name matches the pattern [%text%]. *)
Definition search_filter (s : option string) (name : string) : Prop :=
  match s with
  | Some k => k = "" \/ like_match (like_tokens (contains_pattern k)) name = true
  | None => True
  end.

(** The row passes the filters of the request. *)
Definition equipment_matches (q : EquipmentQuery.t) (r : Storage.EquipmentRow)
  : Prop :=
  let '(e, w, _, _) := r in
  id_filter (EquipmentQuery.workshopId q) (Equipment.workshopId e)
  /\ id_filter (EquipmentQuery.typeId q) (Equipment.typeId e)
  /\ id_filter (EquipmentQuery.baseId q) (Workshop.baseId w)
  /\ search_filter (EquipmentQuery.search q) (Equipment.equipmentName e).

(** The object lists the ten fields of the joined row. *)
Definition lists_equipment (r : Storage.EquipmentRow) (o : obj) : Prop :=
  let '(e, w, t, b) := r in
  prop o "equipmentId" = JNum (Equipment.equipmentId e)
  /\ prop o "workshopId" = JNum (Equipment.workshopId e)
  /\ prop o "typeId" = JNum (Equipment.typeId e)
  /\ prop o "equipmentName" = JStr (Equipment.equipmentName e)
  /\ prop o "createdAt" = jdate_opt (Equipment.createdAt e)
  /\ prop o "updatedAt" = jdate_opt (Equipment.updatedAt e)
  /\ prop o "workshopName" = JStr (Workshop.workshopName w)
  /\ prop o "typeName" = JStr (EquipmentType.typeName t)
  /\ prop o "baseId" = JNum (Workshop.baseId w)
  /\ prop o "baseName" = JStr (Base.baseName b).

Module Requests.

(** [?workshopId=1&search=-&page=2&limit=2&sortBy=equipmentName&sortOrder=desc] *)
Definition secondPage : EquipmentQuery.t :=
  EquipmentQuery.mk (Some 1) None None (Some "-") (Some 2) (Some 2)
                    (Some "equipmentName") (Some "desc").

End Requests.

(** The row is asked for by the equipment query of a workshop node.  (A
    workshop with id 0, which the sequence never hands out, would ask for
    every equipment.) *)
Definition of_workshop (wk : Workshop.t) (r : Storage.EquipmentRow) : bool :=
  let '(e, _, _, _) := r in
  (Workshop.workshopId wk =? 0)
  || (Equipment.workshopId e =? Workshop.workshopId wk).



(** No two of the rows compare equal on the sort field. *)
Definition tie_free (f : string) (rows : list Storage.EquipmentRow) : Prop :=
  forall x y, In x rows -> In y rows ->
              column_le f x y -> column_le f y x -> x = y.

(** The direction a listing request asks for. *)
Definition descendingParams (p : EquipmentParams.t) : bool :=
  match EquipmentParams.sortOrder p with
  | Some s => String.eqb s "desc"
  | None => false
  end.

(** The node stands for the workshop. *)
Definition stands_for_workshop (wk : Workshop.t) (n : TreeNode) : Prop :=
  node_id n = JNum (Workshop.workshopId wk)
  /\ node_name n = JStr (Workshop.workshopName wk)
  /\ node_type n = "车间"
  /\ prop (node_data n) "workshopId" = JNum (Workshop.workshopId wk)
  /\ prop (node_data n) "baseId" = JNum (Workshop.baseId wk)
  /\ prop (node_data n) "workshopName" = JStr (Workshop.workshopName wk).

(** An id filter and a search filter of the storage layer, read as what
    they ask of the row. *)
Ltac when_num :=
  unfold Storage.whenNum, id_filter;
  match goal with
  | |- context [match ?v with Some _ => _ | None => _ end] =>
      let n := fresh "n" in
      let E := fresh "E" in
      let H := fresh "H" in
      let c := fresh "c" in
      destruct v as [n|]; [|simpl; tauto];
      destruct (Z.eqb_spec n 0) as [E|E];
      [ split; [auto|intros _ c []]
      | split;
        [ intros H; right; specialize (H _ (or_introl eq_refl)); simpl in H;
          injection H as H; now apply Z.eqb_eq
        | intros [H|H] c [<-|[]]; [contradiction|];
          simpl; f_equal; now apply Z.eqb_eq ] ]
  end.

Ltac when_str :=
  unfold Storage.whenStr, search_filter;
  match goal with
  | |- context [match ?v with Some _ => _ | None => _ end] =>
      let k := fresh "k" in
      let E := fresh "E" in
      let H := fresh "H" in
      let c := fresh "c" in
      destruct v as [k|]; [|simpl; tauto];
      destruct (String.eqb_spec k "") as [E|E];
      [ split; [auto|intros _ c []]
      | split;
        [ intros H; right; specialize (H _ (or_introl eq_refl)); unfold like in H;
          now injection H as H
        | intros [H|H] c [<-|[]]; [contradiction|];
          unfold like; now f_equal ] ]
  end.

(* ================================================================== *)
(** ** Facts about the SQL operators *)

Section OrderBy.

Context {A : Type}.
Variable leb : A -> A -> bool.

Lemma insert_by_Permutation (x : A) (l : list A) :
  Permutation (insert_by leb x l) (x :: l).
Proof.
  induction l as [|y l IH]; simpl; [reflexivity|].
  destruct (leb x y); [reflexivity|].
  rewrite IH. apply perm_swap.
Qed.

Lemma orderBy_Permutation (l : list A) : Permutation (orderBy leb l) l.
Proof.
  induction l as [|x l IH]; simpl; [constructor|].
  unfold orderBy in *. simpl.
  rewrite insert_by_Permutation. now constructor.
Qed.

Lemma orderBy_In (l : list A) (x : A) : In x (orderBy leb l) <-> In x l.
Proof.
  split; apply Permutation_in;
    [apply orderBy_Permutation | symmetry; apply orderBy_Permutation].
Qed.


Hypothesis leb_total : forall x y, leb x y = true \/ leb y x = true.
Hypothesis leb_trans :
  forall x y z, leb x y = true -> leb y z = true -> leb x z = true.

Lemma insert_by_sorted (x : A) (l : list A) :
  StronglySorted (fun a b => leb a b = true) l ->
  StronglySorted (fun a b => leb a b = true) (insert_by leb x l).
Proof.
  induction 1 as [|y l Hs IH Hall]; simpl.
  - repeat constructor.
  - destruct (leb x y) eqn:Hxy.
    + constructor; [now constructor|].
      constructor; [exact Hxy|].
      rewrite Forall_forall in *. intros z Hz.
      apply leb_trans with y; [exact Hxy|apply (Hall z Hz)].
    + constructor; [exact IH|].
      rewrite Forall_forall in *. intros z Hz.
      apply (Permutation_in _ (insert_by_Permutation x l)) in Hz.
      destruct Hz as [<-|Hz]; [|apply (Hall z Hz)].
      destruct (leb_total x y) as [H|H]; [congruence|exact H].
Qed.

Lemma orderBy_sorted (l : list A) :
  StronglySorted (fun a b => leb a b = true) (orderBy leb l).
Proof.
  induction l as [|x l IH]; [constructor|].
  apply insert_by_sorted, IH.
Qed.

End OrderBy.

Section FilterFacts.

Context {A : Type}.

Lemma filter_Permutation (f : A -> bool) (l l' : list A) :
  Permutation l l' -> Permutation (filter f l) (filter f l').
Proof.
  induction 1 as [|x l l' _ IH|x y l|l l' l'' _ IH1 _ IH2]; simpl.
  - constructor.
  - destruct (f x); [now constructor|exact IH].
  - destruct (f x), (f y); try reflexivity. apply perm_swap.
  - now transitivity (filter f l').
Qed.

Lemma filter_flat_map {B : Type} (f : B -> bool) (g : A -> list B) (l : list A) :
  filter f (flat_map g l) = flat_map (fun a => filter f (g a)) l.
Proof.
  induction l as [|a l IH]; simpl; [reflexivity|].
  now rewrite filter_app, IH.
Qed.

Lemma flat_map_filter_source {B : Type} (p : A -> bool) (g : A -> list B)
      (l : list A) :
  flat_map g (filter p l) = flat_map (fun a => if p a then g a else []) l.
Proof.
  induction l as [|a l IH]; simpl; [reflexivity|].
  destruct (p a); simpl; now rewrite IH.
Qed.

Lemma filter_all (f : A -> bool) (l : list A) :
  (forall x, In x l -> f x = true) -> filter f l = l.
Proof.
  induction l as [|a l IH]; simpl; intros H; [reflexivity|].
  rewrite (H a (or_introl eq_refl)). f_equal. apply IH. intros; apply H; now right.
Qed.

Lemma filter_none (f : A -> bool) (l : list A) :
  (forall x, In x l -> f x = false) -> filter f l = [].
Proof.
  induction l as [|a l IH]; simpl; intros H; [reflexivity|].
  rewrite (H a (or_introl eq_refl)). apply IH. intros; apply H; now right.
Qed.

(** A key that identifies rows selects exactly the row that carries it. *)
Lemma filter_key (key : A -> Z) (l : list A) (x : A) :
  NoDup (map key l) -> In x l ->
  filter (fun y => key x =? key y) l = [x].
Proof.
  induction l as [|a l IH]; simpl; intros Hnd Hin; [contradiction|].
  inversion Hnd as [|? ? Hnotin Hnd']; subst.
  destruct Hin as [->|Hin].
  - rewrite Z.eqb_refl. f_equal.
    apply filter_none. intros y Hy.
    apply Z.eqb_neq. intros E. apply Hnotin. rewrite E. now apply in_map.
  - assert (key x <> key a) as Hne.
    { intros E. apply Hnotin. rewrite <- E. now apply in_map. }
    apply Z.eqb_neq in Hne. rewrite Hne. now apply IH.
Qed.

End FilterFacts.

Lemma holds_and_all (cs : list tri) :
  holds (and_all cs) = true <-> forall c, In c cs -> c = Some true.
Proof.
  induction cs as [|c cs IH]; simpl.
  - split; [intros _ ? []|reflexivity].
  - split.
    + intros H x [<-|Hx].
      * destruct c as [[|]|], (and_all cs) as [[|]|]; simpl in H; congruence.
      * apply IH; [|exact Hx].
        destruct c as [[|]|], (and_all cs) as [[|]|]; simpl in H; simpl; congruence.
    + intros H. rewrite (H c (or_introl eq_refl)).
      assert (holds (and_all cs) = true) as H' by (apply IH; intros; apply H; now right).
      destruct (and_all cs) as [[|]|]; simpl in *; congruence.
Qed.

Lemma holds_or_any (cs : list tri) :
  holds (or_any cs) = true <-> exists c, In c cs /\ c = Some true.
Proof.
  induction cs as [|c cs IH]; simpl.
  - split; [discriminate|intros (? & [] & _)].
  - split.
    + intros H. destruct c as [[|]|].
      * exists (Some true). auto.
      * destruct (or_any cs) as [[|]|]; simpl in *; try discriminate.
        destruct (proj1 IH eq_refl) as (x & Hx & E). exists x. auto.
      * destruct (or_any cs) as [[|]|]; simpl in *; try discriminate.
        destruct (proj1 IH eq_refl) as (x & Hx & E). exists x. auto.
    + intros (x & [<-|Hx] & E).
      * subst. now destruct (or_any cs) as [[|]|].
      * assert (holds (or_any cs) = true) as H' by (apply IH; eauto).
        destruct c as [[|]|], (or_any cs) as [[|]|]; simpl in *; congruence.
Qed.

Lemma where_all_filter {R : Type} (conds : list (R -> tri)) (rows : list R) :
  where_all conds rows =
  filter (fun r => holds (and_all (map (fun c => c r) conds))) rows.
Proof.
  destruct conds; [|reflexivity].
  simpl. symmetry. now apply filter_all.
Qed.

(** What [where_all] keeps, whether or not there are conditions. *)
Lemma where_all_In {R : Type} (conds : list (R -> tri)) (rows : list R) (r : R) :
  In r (where_all conds rows) <->
  In r rows /\ forall c, In c conds -> c r = Some true.
Proof.
  rewrite where_all_filter, filter_In, holds_and_all.
  split; intros [H1 H2]; split; auto.
  - intros c Hc. apply H2. now apply (in_map (fun c : R -> tri => c r)).
  - intros t Ht. apply in_map_iff in Ht as (c & <- & Hc). now apply H2.
Qed.

(* ================================================================== *)
(** ** Tables with a key *)

Section KeyedTables.

Context {A : Type}.

Lemma filter_snoc (p : A -> bool) (l : list A) (x : A) :
  filter p (l ++ [x]) = filter p l ++ (if p x then [x] else []).
Proof. rewrite filter_app. simpl. now destruct (p x). Qed.

Lemma existsb_false_filter (p : A -> bool) (l : list A) :
  existsb p l = false -> filter p l = [].
Proof.
  induction l as [|a l IH]; simpl; [reflexivity|].
  rewrite orb_false_iff. intros [-> H]. now apply IH.
Qed.

Lemma fresh_existsb (key : A -> Z) (l : list A) (k : Z) :
  (forall x, In x l -> key x <> k) -> existsb (fun x => key x =? k) l = false.
Proof.
  induction l as [|a l IH]; simpl; intros H; [reflexivity|].
  rewrite IH by (intros; apply H; now right).
  rewrite orb_false_r. apply Z.eqb_neq, H. now left.
Qed.

Lemma filter_by_key (key : A -> Z) (l : list A) (x : A) :
  NoDup (map key l) -> In x l ->
  filter (fun y => key y =? key x) l = [x].
Proof.
  intros Hnd Hin. rewrite <- (filter_key key l x Hnd Hin).
  apply filter_ext. intros y. apply Z.eqb_sym.
Qed.

(** Rewriting the rows that carry key [k], keys untouched, leaves every
    other lookup as it was. *)
Lemma filter_map_other (key : A -> Z) (f : A -> A) (k k' : Z) (l : list A) :
  (forall y, key (f y) = key y) -> k' <> k ->
  filter (fun y => key y =? k')
         (map (fun y => if key y =? k then f y else y) l)
  = filter (fun y => key y =? k') l.
Proof.
  intros Hkey Hne. induction l as [|a l IH]; simpl; [reflexivity|].
  destruct (Z.eqb_spec (key a) k) as [E|E].
  - rewrite Hkey. destruct (Z.eqb_spec (key a) k') as [E'|E']; [congruence|].
    exact IH.
  - destruct (key a =? k'); simpl; now rewrite IH.
Qed.

Lemma filter_map_same (key : A -> Z) (f : A -> A) (k : Z) (l : list A) :
  (forall y, key (f y) = key y) ->
  filter (fun y => key y =? k)
         (map (fun y => if key y =? k then f y else y) l)
  = map f (filter (fun y => key y =? k) l).
Proof.
  intros Hkey. induction l as [|a l IH]; simpl; [reflexivity|].
  destruct (Z.eqb_spec (key a) k) as [E|E].
  - rewrite Hkey. destruct (Z.eqb_spec (key a) k); [|contradiction].
    simpl. now rewrite IH.
  - destruct (Z.eqb_spec (key a) k); [contradiction|]. exact IH.
Qed.

Lemma map_untouched (key : A -> Z) (f : A -> A) (k : Z) (l : list A) :
  (forall x, In x l -> key x <> k) ->
  map (fun y => if key y =? k then f y else y) l = l.
Proof.
  induction l as [|a l IH]; simpl; intros H; [reflexivity|].
  destruct (Z.eqb_spec (key a) k) as [E|E].
  - exfalso. apply (H a); auto.
  - f_equal. apply IH. intros; apply H; now right.
Qed.

End KeyedTables.

(* ================================================================== *)
(** ** Deleting by id *)

Lemma deleteBase_result (db db' : Db) (id : Z) (r : bool) :
  Storage.deleteBase db id = Ok (db', r) -> r = true.
Proof.
  unfold Storage.deleteBase.
  destruct (existsb _ _); [discriminate|].
  now intros [= _ <-].
Qed.

Lemma delete_base_status (db : Db) (id : Z) :
  status (snd (Routes.delete_base db id)) = 200 \/
  status (snd (Routes.delete_base db id)) = 500.
Proof.
  unfold Routes.delete_base.
  destruct (Storage.deleteBase db id) as [[db' r]|e] eqn:E; [|now right].
  apply deleteBase_result in E. subst r. now left.
Qed.

(** C3: a DELETE whose id matches no row is answered 200 with
    [{success: true}]: in the sample plant no base has id 999, the table is
    left as it was, and the handler still reports success instead of 404. *)
Theorem delete_base_without_row_answers_200 :
  Storage.getBase Sample.plant 999 = None /\
  Routes.delete_base Sample.plant 999
  = (Sample.plant, mkResponse 200 BSuccess).
Proof. split; reflexivity. Qed.

(* ================================================================== *)
(** ** Creating a spare part *)

Lemma parse_materialCode (body : obj) (data : InsertSparePart.t) :
  Routes.insertSparePartSchema_parse body = Some data ->
  prop body "materialCode" = JStr (InsertSparePart.materialCode data).
Proof.
  unfold Routes.insertSparePartSchema_parse.
  destruct (prop body "materialCode"); simpl; try discriminate.
  destruct (Routes.requiredString _); try discriminate.
  repeat (destruct (Routes.optionalString _); try discriminate).
  destruct (Routes.optionalBoolean _); try discriminate.
  now intros [= <-].
Qed.

Lemma byMaterialCode_found (db : Db) (code : string) :
  In code (map SparePart.materialCode (spareParts db)) ->
  exists o, Storage.getSparePartByMaterialCode db code = Some o.
Proof.
  unfold Storage.getSparePartByMaterialCode.
  induction (spareParts db) as [|s l IH]; simpl; [contradiction|].
  intros [E|H].
  - rewrite E, String.eqb_refl. simpl. eauto.
  - destruct (String.eqb _ _); simpl; eauto.
Qed.

Lemma byMaterialCode_missing (db : Db) (code : string) :
  ~ In code (map SparePart.materialCode (spareParts db)) ->
  Storage.getSparePartByMaterialCode db code = None
  /\ existsb (fun s => String.eqb (SparePart.materialCode s) code) (spareParts db)
     = false.
Proof.
  unfold Storage.getSparePartByMaterialCode.
  induction (spareParts db) as [|s l IH]; simpl; [auto|].
  intros H.
  destruct (String.eqb_spec (SparePart.materialCode s) code) as [E|E].
  - exfalso. apply H. now left.
  - simpl. apply IH. intros H'. apply H. now right.
Qed.

(** C6: a POST whose material code is already that of a stored spare part
    is answered 400 and leaves the table as it was; a valid body whose code
    is not in the table is answered 201, and the table gains exactly one
    row, which carries that code.  The key the sequence hands out is not in
    use, as it is when every key came from the sequence. *)
Theorem post_spare_part_by_material_code
        (db : Db) (now : Z) (body : obj) (code : string) :
  prop body "materialCode" = JStr code ->
  (In code (map SparePart.materialCode (spareParts db)) ->
   exists b, Routes.post_spare_parts db now body = (db, mkResponse 400 b))
  /\ (~ In code (map SparePart.materialCode (spareParts db)) ->
      (forall s, In s (spareParts db) ->
                 SparePart.sparePartId s <> sparePartSeq db) ->
      forall data, Routes.insertSparePartSchema_parse body = Some data ->
      exists row,
        Routes.post_spare_parts db now body
        = (with_spareParts db (spareParts db ++ [row]) (sparePartSeq db + 1),
           mkResponse 201 (BObject (obj_of_sparePart row)))
        /\ SparePart.materialCode row = code).
Proof.
  intros Hcode. split.
  - intros Hin. unfold Routes.post_spare_parts.
    destruct (Routes.insertSparePartSchema_parse body) as [data|] eqn:P.
    + apply parse_materialCode in P. rewrite Hcode in P. injection P as <-.
      destruct (byMaterialCode_found db _ Hin) as [o ->]. eauto.
    + unfold handleZodError. eauto.
  - intros Hout Hkey data P. unfold Routes.post_spare_parts. rewrite P.
    apply parse_materialCode in P. rewrite Hcode in P. injection P as Hc.
    unfold Storage.createSparePart. cbv zeta. rewrite <- Hc.
    destruct (byMaterialCode_missing db _ Hout) as [-> ->].
    rewrite (fresh_existsb SparePart.sparePartId _ _ Hkey). cbn [orb].
    eexists. split; reflexivity.
Qed.

Lemma post_spare_part_by_material_code_witness :
  (exists b,
      Routes.post_spare_parts Sample.plant 2000
        [("materialCode", JStr "M-100"); ("manufacturer", JStr "Acme")]
      = (Sample.plant, mkResponse 400 b))
  /\ (exists row,
         Routes.post_spare_parts Sample.plant 2000
           [("materialCode", JStr "M-900"); ("manufacturer", JStr "Acme")]
         = (with_spareParts Sample.plant (spareParts Sample.plant ++ [row]) 105,
            mkResponse 201 (BObject (obj_of_sparePart row)))
         /\ SparePart.materialCode row = "M-900").
Proof.
  split.
  - apply (post_spare_part_by_material_code Sample.plant 2000
             [("materialCode", JStr "M-100"); ("manufacturer", JStr "Acme")]
             "M-100" eq_refl).
    simpl. auto.
  - apply (post_spare_part_by_material_code Sample.plant 2000
             [("materialCode", JStr "M-900"); ("manufacturer", JStr "Acme")]
             "M-900" eq_refl)
      with (data := InsertSparePart.mk "M-900" "Acme" Absent Absent Absent Absent).
    + simpl. intros H. repeat (destruct H as [H|H]; [discriminate|]). exact H.
    + simpl. intros s H.
      repeat (destruct H as [<-|H]; [discriminate|]). contradiction.
    + reflexivity.
Defined.

(* ================================================================== *)
(** ** Filters of the association listing *)

Lemma associationRows_In (db : Db) (p : AssociationParams.t)
      (level : list (Storage.AssociationRow -> tri))
      (rows : list Storage.AssociationRow) :
  Storage.levelCondition (AssociationParams.importanceLevel p) = Ok level ->
  Storage.associationRows db p = Ok rows ->
  forall r, In r rows <->
            In r (Storage.associationJoin db)
            /\ forall c, In c (Storage.associationConditions p level) -> c r = Some true.
Proof.
  unfold Storage.associationRows. intros -> [= <-] r. simpl.
  now rewrite orderBy_In, where_all_In.
Qed.

Lemma get_associations_rows (db : Db) (q : AssociationQuery.t)
      (rows : list Storage.AssociationRow) :
  Storage.associationRows db (Routes.associationParams q) = Ok rows ->
  Routes.get_associations db q
  = mkResponse 200 (BArray (map Storage.associationSelect rows)).
Proof.
  unfold Routes.get_associations, Storage.getAssociations. now intros ->.
Qed.

(** C2: for a request whose ids and supply cycle bounds are in the range
    of the integer type: with [importanceLevel=A,B] the listing answers 200
    and every row comes from a joined row whose component has level A or B;
    with [supplyCycleRange=2,6] every row of a listing comes from a joined
    row that has a supplier whose supply cycle [w] satisfies
    [2 <= w <= 6]. *)
Theorem association_level_and_cycle_filters (db : Db) (q : AssociationQuery.t) :
  association_query_in_range q = true ->
  (AssociationQuery.importanceLevel q = Some "A,B" ->
   exists rows,
     Storage.associationRows db (Routes.associationParams q) = Ok rows
     /\ Routes.get_associations db q
        = mkResponse 200 (BArray (map Storage.associationSelect rows))
     /\ forall r, In r rows ->
          In r (Storage.associationJoin db)
          /\ (Component.importanceLevel (rowComponent r) = LevelA
              \/ Component.importanceLevel (rowComponent r) = LevelB)
          /\ (prop (Storage.associationSelect r) "importanceLevel" = JStr "A"
              \/ prop (Storage.associationSelect r) "importanceLevel" = JStr "B"))
  /\ (AssociationQuery.supplyCycleRange q = Some [2; 6] ->
      forall rows,
        Storage.associationRows db (Routes.associationParams q) = Ok rows ->
        Routes.get_associations db q
        = mkResponse 200 (BArray (map Storage.associationSelect rows))
        /\ forall r, In r rows ->
             In r (Storage.associationJoin db)
             /\ exists u, rowSupplier r = Some u
                          /\ 2 <= SparePartSupplier.supplyCycleWeeks u <= 6).
Proof.
  intros _. split.
  - intros HL.
    assert (exists level,
               Storage.levelCondition
                 (AssociationParams.importanceLevel (Routes.associationParams q))
               = Ok [level]
               /\ forall r, level r = Some true ->
                    Component.importanceLevel (rowComponent r) = LevelA
                    \/ Component.importanceLevel (rowComponent r) = LevelB)
      as (level & Hlevel & Hmeans).
    { unfold Routes.associationParams. rewrite HL. simpl.
      eexists. split; [reflexivity|].
      intros [[[[a e] c] s] u]. simpl.
      destruct (Component.importanceLevel c); simpl; auto; discriminate. }
    destruct (Storage.associationRows db (Routes.associationParams q))
      as [rows|] eqn:E.
    2:{ unfold Storage.associationRows in E. rewrite Hlevel in E. discriminate. }
    exists rows. split; [reflexivity|].
    split; [now apply get_associations_rows|].
    intros r Hr.
    destruct (proj1 (associationRows_In db _ _ rows Hlevel E r) Hr) as [Hj Hc].
    split; [exact Hj|].
    assert (Component.importanceLevel (rowComponent r) = LevelA
            \/ Component.importanceLevel (rowComponent r) = LevelB) as Hab.
    { apply Hmeans, Hc. unfold Storage.associationConditions.
      rewrite !in_app_iff. simpl. auto 10. }
    split; [exact Hab|].
    destruct r as [[[[a e] c] s] u]. simpl in *.
    destruct Hab as [-> | ->]; auto.
  - intros HR rows E. split; [now apply get_associations_rows|].
    intros r Hr.
    destruct (Storage.levelCondition
                (AssociationParams.importanceLevel (Routes.associationParams q)))
      as [level|] eqn:Hlevel.
    2:{ unfold Storage.associationRows in E. rewrite Hlevel in E. discriminate. }
    destruct (proj1 (associationRows_In db _ _ rows Hlevel E r) Hr) as [Hj Hc].
    split; [exact Hj|].
    specialize (Hc (fun r => and_all [ge_int (Storage.supplierWeeks r) (Some 2);
                                      le_int (Storage.supplierWeeks r) (Some 6)])).
    assert (and_all [ge_int (Storage.supplierWeeks r) (Some 2);
                     le_int (Storage.supplierWeeks r) (Some 6)] = Some true) as H.
    { apply Hc. unfold Storage.associationConditions, Routes.associationParams.
      cbn [AssociationParams.supplyCycleRange]. rewrite HR.
      rewrite !in_app_iff. simpl. auto 10. }
    destruct r as [[[[a e] c] s] [u|]]; simpl in *; [|discriminate].
    exists u. split; [reflexivity|].
    destruct (Z.leb_spec 2 (SparePartSupplier.supplyCycleWeeks u));
      destruct (Z.leb_spec (SparePartSupplier.supplyCycleWeeks u) 6);
      simpl in H; try discriminate. lia.
Qed.

Lemma association_level_and_cycle_filters_witness :
  exists rows,
    Storage.associationRows Sample.plant2
      (Routes.associationParams Sample.queryAB) = Ok rows
    /\ List.length rows = 2%nat
    /\ (forall r, In r rows ->
          Component.importanceLevel (rowComponent r) = LevelA
          \/ Component.importanceLevel (rowComponent r) = LevelB)
    /\ (forall r, In r rows ->
          exists u, rowSupplier r = Some u
                    /\ 2 <= SparePartSupplier.supplyCycleWeeks u <= 6).
Proof.
  destruct (association_level_and_cycle_filters Sample.plant2 Sample.queryAB
              eq_refl)
    as [HA HB].
  destruct (HA eq_refl) as (rows & E & _ & Hlevel).
  exists rows. split; [exact E|].
  split; [vm_compute in E; injection E as <-; reflexivity|].
  split.
  - intros r Hr. apply (Hlevel r Hr).
  - intros r Hr. apply (proj2 (HB eq_refl rows E) r Hr).
Defined.

(* ================================================================== *)
(** ** The keyword filter and LIKE *)

Section Like.

Lemma like_tokens_plain (k rest : string) :
  plain k = true ->
  like_tokens (k ++ rest) = literals k ++ like_tokens rest.
Proof.
  induction k as [|c k IH]; simpl; [reflexivity|].
  rewrite !andb_true_iff, !negb_true_iff. intros [[[-> ->] ->] Hk].
  now rewrite IH.
Qed.

Lemma like_match_any (p : list tok) (s : string) :
  like_match (PAny :: p) s
  = like_match p s
    || match s with
       | EmptyString => false
       | String _ s' => like_match (PAny :: p) s'
       end.
Proof. destruct s; reflexivity. Qed.

Lemma like_match_any_iff (p : list tok) (s : string) :
  like_match (PAny :: p) s = true <->
  exists pre suf, s = (pre ++ suf)%string /\ like_match p suf = true.
Proof.
  induction s as [|c s IH]; rewrite like_match_any, orb_true_iff.
  - split.
    + intros [H|H]; [|discriminate]. now exists "", "".
    + intros (pre & suf & E & H). left.
      destruct pre; simpl in E; [now subst|discriminate].
  - rewrite IH. split.
    + intros [H|(pre & suf & -> & H)].
      * now exists "", (String c s).
      * now exists (String c pre), suf.
    + intros (pre & suf & E & H).
      destruct pre as [|d pre]; simpl in E.
      * left. now subst.
      * right. injection E as -> ->. now exists pre, suf.
Qed.

Lemma like_match_literals (k : string) (p : list tok) (s : string) :
  like_match (literals k ++ p) s = true <->
  exists suf, s = (k ++ suf)%string /\ like_match p suf = true.
Proof.
  revert s. induction k as [|c k IH]; intros s; simpl.
  - split; [intros H; now exists s|now intros (suf & -> & H)].
  - destruct s as [|d s].
    + split; [discriminate|intros (suf & E & _); discriminate].
    + rewrite andb_true_iff, IH. split.
      * intros [Hc (suf & -> & H)]. apply Ascii.eqb_eq in Hc. subst.
        now exists suf.
      * intros (suf & E & H). injection E as -> ->.
        split; [apply Ascii.eqb_refl|now exists suf].
Qed.

Lemma like_match_any_end (s : string) : like_match [PAny] s = true.
Proof.
  induction s as [|c s IH]; rewrite like_match_any; [reflexivity|].
  rewrite IH. apply orb_true_r.
Qed.

(** For a plain keyword the pattern [%k%] matches exactly the strings in
    which the keyword occurs. *)
Lemma like_contains_plain (k s : string) :
  plain k = true ->
  like_match (like_tokens (contains_pattern k)) s = true <-> occurs k s.
Proof.
  intros Hk. unfold contains_pattern, occurs.
  change ("%" ++ k ++ "%")%string with (String "%" (k ++ "%")).
  change (like_tokens (String "%" (k ++ "%")))
    with (PAny :: like_tokens (k ++ "%")).
  rewrite (like_tokens_plain k "%" Hk).
  change (like_tokens "%") with [PAny].
  split.
  - intros H. apply like_match_any_iff in H as (pre & suf & -> & H).
    apply like_match_literals in H as (post & -> & _). now exists pre, post.
  - intros (pre & post & ->). apply like_match_any_iff.
    exists pre, (k ++ post)%string.
    split; [reflexivity|]. apply like_match_literals.
    exists post. split; [reflexivity|apply like_match_any_end].
Qed.

Lemma prefixb_spec (k s : string) :
  prefixb k s = true <-> exists post, s = (k ++ post)%string.
Proof.
  revert s. induction k as [|a k IH]; intros s; simpl.
  - split; [now exists s|reflexivity].
  - destruct s as [|b s].
    + split; [discriminate|intros (? & E); discriminate].
    + rewrite andb_true_iff, IH, Ascii.eqb_eq. split.
      * intros [-> (post & ->)]. now exists post.
      * intros (post & E). injection E as -> ->. split; [reflexivity|now exists post].
Qed.

Lemma occursb_spec (k s : string) : occursb k s = true <-> occurs k s.
Proof.
  unfold occurs. induction s as [|c s IH]; simpl; rewrite orb_true_iff, prefixb_spec.
  - split.
    + intros [(post & E)|H]; [|discriminate]. now exists "", post.
    + intros (pre & post & E). left.
      destruct pre; simpl in E; [now exists post|discriminate].
  - rewrite IH. split.
    + intros [(post & E)|(pre & post & ->)].
      * now exists "", post.
      * now exists (String c pre), post.
    + intros (pre & post & E). destruct pre as [|d pre]; simpl in E.
      * left. now exists post.
      * right. injection E as -> ->. now exists pre, post.
Qed.

End Like.

Lemma holds_true (t : tri) : holds t = true <-> t = Some true.
Proof. destruct t as [[|]|]; simpl; split; congruence. Qed.

Lemma keywordCondition_plain (k : string) (r : Storage.AssociationRow) :
  plain k = true ->
  Storage.keywordCondition k r = Some true <-> keyword_occurs k r.
Proof.
  intros Hk.
  assert (forall s, like (Some s) (contains_pattern k) = Some true <-> occurs k s)
    as Hsome.
  { intros s. unfold like. split.
    - intros [= H]. now apply like_contains_plain.
    - intros H. f_equal. now apply like_contains_plain. }
  assert (forall col, like col (contains_pattern k) = Some true <-> occurs_in k col)
    as Hcol.
  { intros [s|].
    - rewrite Hsome. unfold occurs_in. split.
      + intros H. now exists s.
      + now intros (s' & [= <-] & H).
    - unfold occurs_in. simpl. split; [discriminate|intros (? & E & _); discriminate]. }
  destruct r as [[[[a e] c] s] u].
  unfold Storage.keywordCondition, keyword_occurs.
  cbn [rowSparePart rowEquipment rowComponent].
  rewrite <- holds_true, holds_or_any. split.
  - intros (t & Ht & ->). simpl in Ht.
    destruct Ht as [H|[H|[H|[H|[H|[]]]]]].
    + left. now apply Hsome.
    + right; left. now apply Hcol.
    + right; right; left. now apply Hcol.
    + right; right; right; left. now apply Hsome.
    + right; right; right; right. now apply Hsome.
  - intros H. exists (Some true). split; [|reflexivity]. simpl.
    destruct H as [H|[H|[H|[H|H]]]].
    + apply Hsome in H. auto.
    + apply Hcol in H. auto.
    + apply Hcol in H. auto 6.
    + apply Hsome in H. auto 6.
    + apply Hsome in H. auto 6.
Qed.

Lemma associationConditions_keyword
      (p : AssociationParams.t) (level : list (Storage.AssociationRow -> tri))
      (c : Storage.AssociationRow -> tri) :
  In c (Storage.associationConditions p level) <->
  In c (Storage.associationConditions (without_keyword p) level)
  \/ In c (Storage.whenStr (AssociationParams.keyword p) Storage.keywordCondition).
Proof.
  unfold Storage.associationConditions, without_keyword. simpl.
  rewrite !in_app_iff. simpl. tauto.
Qed.

(** C7, as the code has it: for a non-empty keyword [k] without the
    characters [%], [_] and backslash, the listing keeps a row exactly when
    the listing without the keyword keeps it and [k] occurs in the material
    code, the description, the specification, the equipment name or the
    component name. *)
Theorem keyword_filter_plain
        (db : Db) (p : AssociationParams.t) (k : string)
        (rows : list Storage.AssociationRow) :
  AssociationParams.keyword p = Some k -> k <> "" -> plain k = true ->
  Storage.associationRows db p = Ok rows ->
  exists others,
    Storage.associationRows db (without_keyword p) = Ok others
    /\ forall r, In r rows <-> In r others /\ keyword_occurs k r.
Proof.
  intros Hk Hne Hplain E.
  destruct (Storage.levelCondition (AssociationParams.importanceLevel p))
    as [level|] eqn:Hlevel.
  2:{ unfold Storage.associationRows in E. rewrite Hlevel in E. discriminate. }
  destruct (Storage.associationRows db (without_keyword p)) as [others|] eqn:E'.
  2:{ unfold Storage.associationRows, without_keyword in E'. simpl in E'.
      rewrite Hlevel in E'. discriminate. }
  exists others. split; [reflexivity|]. intros r.
  rewrite (associationRows_In db p level rows Hlevel E r).
  rewrite (associationRows_In db (without_keyword p) level others Hlevel E' r).
  rewrite <- (keywordCondition_plain k r Hplain).
  assert (Storage.whenStr (AssociationParams.keyword p) Storage.keywordCondition
          = [Storage.keywordCondition k]) as Hw.
  { rewrite Hk. simpl. destruct (String.eqb_spec k ""); [contradiction|reflexivity]. }
  split.
  - intros [Hj Hc]. split; [split; [exact Hj|]|].
    + intros c Hin. apply Hc, associationConditions_keyword. now left.
    + apply (Hc (Storage.keywordCondition k)), associationConditions_keyword.
      right. rewrite Hw. now left.
  - intros [[Hj Hc] Hkw]. split; [exact Hj|].
    intros c Hin. apply associationConditions_keyword in Hin as [Hin|Hin].
    + now apply Hc.
    + rewrite Hw in Hin. destruct Hin as [<-|[]]. exact Hkw.
Qed.

Lemma keyword_filter_plain_witness :
  exists rows others,
    Storage.associationRows Sample.plant
      (AssociationParams.mk (Some 1) None None None None None (Some "Gask"))
    = Ok rows
    /\ List.length rows = 1%nat
    /\ Storage.associationRows Sample.plant
         (AssociationParams.mk (Some 1) None None None None None None)
       = Ok others
    /\ forall r, In r rows <-> In r others /\ keyword_occurs "Gask" r.
Proof.
  destruct (Storage.associationRows Sample.plant
              (AssociationParams.mk (Some 1) None None None None None (Some "Gask")))
    as [rows|] eqn:E; [|vm_compute in E; discriminate].
  destruct (keyword_filter_plain Sample.plant
              (AssociationParams.mk (Some 1) None None None None None (Some "Gask"))
              "Gask" rows eq_refl ltac:(discriminate) eq_refl E)
    as (others & E' & H).
  exists rows, others. split; [reflexivity|].
  split; [vm_compute in E; injection E as <-; reflexivity|].
  split; [exact E'|exact H].
Defined.

(** C7 as stated fails: the keyword [_] occurs in none of the five fields
    of the row that links the valve to the spring, and the listing keeps
    that row all the same, since [%_%] matches every non-empty text. *)
Lemma keyword_wildcard_counterexample :
  exists rows,
    Storage.associationRows Sample.plant
      (AssociationParams.mk None None None None None None (Some "_"))
    = Ok rows
    /\ In Sample.springRow rows
    /\ ~ keyword_occurs "_" Sample.springRow.
Proof.
  eexists. split; [vm_compute; reflexivity|].
  split; [simpl; auto 10|].
  unfold keyword_occurs, occurs_in. simpl.
  intros [H|[(s & E & _)|[(s & E & _)|[H|H]]]]; try discriminate;
    apply occursb_spec in H; vm_compute in H; discriminate.
Qed.

(* ================================================================== *)
(** ** The association join, one association at a time *)

Lemma flat_map_flat_map {A B C : Type} (f : B -> list C) (g : A -> list B)
      (l : list A) :
  flat_map f (flat_map g l) = flat_map (fun a => flat_map f (g a)) l.
Proof.
  induction l as [|a l IH]; simpl; [reflexivity|].
  now rewrite flat_map_app, IH.
Qed.

Lemma flat_map_singleton {A : Type} (l : list A) :
  flat_map (fun a => [a]) l = l.
Proof. induction l as [|a l IH]; simpl; [reflexivity|now rewrite IH]. Qed.

Section Joins.

Context {A B : Type}.

Lemma innerJoin_flat_map {S : Type} (g : S -> list A) (src : list S)
      (r : list B) (on : A -> B -> bool) :
  innerJoin (flat_map g src) r on
  = flat_map (fun x => innerJoin (g x) r on) src.
Proof. unfold innerJoin. apply flat_map_flat_map. Qed.

Lemma leftJoin_flat_map {S : Type} (g : S -> list A) (src : list S)
      (r : list B) (on : A -> B -> bool) :
  leftJoin (flat_map g src) r on
  = flat_map (fun x => leftJoin (g x) r on) src.
Proof. unfold leftJoin. apply flat_map_flat_map. Qed.

Lemma innerJoin_one (a : A) (b : B) (r : list B) (on : A -> B -> bool) :
  filter (on a) r = [b] -> innerJoin [a] r on = [(a, b)].
Proof. unfold innerJoin. simpl. now intros ->. Qed.

Lemma innerJoin_In (l : list A) (r : list B) (on : A -> B -> bool) (a : A) (b : B) :
  In (a, b) (innerJoin l r on) <-> In a l /\ In b r /\ on a b = true.
Proof.
  unfold innerJoin. rewrite in_flat_map. split.
  - intros (x & Hx & H). apply in_map_iff in H as (y & [= <- <-] & Hy).
    apply filter_In in Hy. tauto.
  - intros (Ha & Hb & Hon). exists a. split; [exact Ha|].
    apply in_map_iff. exists b. split; [reflexivity|]. apply filter_In. tauto.
Qed.

Lemma leftJoin_In (l : list A) (r : list B) (on : A -> B -> bool)
      (a : A) (ob : option B) :
  In (a, ob) (leftJoin l r on) -> In a l.
Proof.
  unfold leftJoin. rewrite in_flat_map. intros (x & Hx & H).
  destruct (filter (on x) r) as [|b m].
  - destruct H as [[= <- _]|[]]. exact Hx.
  - apply in_map_iff in H as (y & [= <- _] & _). exact Hx.
Qed.

End Joins.

Lemma associationJoin_rowsOf (db : Db) :
  Storage.associationJoin db
  = flat_map (rowsOf db) (equipmentComponentSpareParts db).
Proof.
  unfold Storage.associationJoin, rowsOf.
  rewrite <- (flat_map_singleton (equipmentComponentSpareParts db)) at 1.
  now rewrite !innerJoin_flat_map, leftJoin_flat_map.
Qed.

Lemma distinct_NoDup (l : list Z) : distinct l = true -> NoDup l.
Proof.
  induction l as [|x l IH]; simpl; [constructor|].
  rewrite andb_true_iff, negb_true_iff. intros [Hx Hl].
  constructor; [|now apply IH].
  intros Hin. assert (existsb (Z.eqb x) l = true) as E; [|congruence].
  apply existsb_exists. exists x. split; [exact Hin|apply Z.eqb_refl].
Qed.

(** A reference to a key that identifies rows selects exactly one row. *)
Lemma refers_one {A : Type} (key : A -> Z) (l : list A) (k : Z) :
  distinct (map key l) = true -> refers key l k = true ->
  exists x, In x l /\ key x = k /\ filter (fun y => k =? key y) l = [x].
Proof.
  intros Hd Hr. apply existsb_exists in Hr as (x & Hx & E).
  apply Z.eqb_eq in E. subst k. exists x. split; [exact Hx|].
  split; [reflexivity|]. apply filter_key; [now apply distinct_NoDup|exact Hx].
Qed.

Lemma integrity_Integrity (db : Db) : integrity db = true -> Integrity db.
Proof.
  unfold integrity. rewrite !andb_true_iff, forallb_forall.
  intros [[[[H1 H2] H3] H4] H5]. constructor; auto.
  intros a Ha. specialize (H5 a Ha). rewrite !andb_true_iff in H5. tauto.
Qed.

(** The joined rows of one association: its equipment, component and
    spare part, once per supplier of the spare part, or once without
    supplier when there is none. *)
Lemma rowsOf_suppliers (db : Db) (a : Assoc.t) :
  Integrity db -> In a (equipmentComponentSpareParts db) ->
  exists e c s,
    In e (equipment db) /\ In c (components db) /\ In s (spareParts db)
    /\ Component.componentId c = Assoc.componentId a
    /\ SparePart.sparePartId s = Assoc.sparePartId a
    /\ Storage.getComponent db (Assoc.componentId a) = Some (obj_of_component c)
    /\ Storage.getSparePart db (Assoc.sparePartId a) = Some (obj_of_sparePart s)
    /\ rowsOf db a
       = match suppliersOf db (Assoc.sparePartId a) with
         | [] => [(a, e, c, s, None)]
         | m => map (fun u => (a, e, c, s, Some u)) m
         end.
Proof.
  intros I Ha. destruct (association_refs db I a Ha) as (He & Hc & Hs).
  destruct (refers_one _ _ _ (equipment_key db I) He) as (e & Ine & Ke & Fe).
  destruct (refers_one _ _ _ (component_key db I) Hc) as (c & Inc & Kc & Fc).
  destruct (refers_one _ _ _ (sparePart_key db I) Hs) as (s & Ins & Ks & Fs).
  exists e, c, s. repeat (split; [assumption|]).
  split; [|split].
  - unfold Storage.getComponent.
    rewrite (filter_ext _ (fun y => Assoc.componentId a =? Component.componentId y)),
      Fc; [reflexivity|]. intros y. apply Z.eqb_sym.
  - unfold Storage.getSparePart.
    rewrite (filter_ext _ (fun y => Assoc.sparePartId a =? SparePart.sparePartId y)),
      Fs; [reflexivity|]. intros y. apply Z.eqb_sym.
  - unfold rowsOf.
    rewrite (innerJoin_one a e _ _ Fe).
    rewrite (innerJoin_one (a, e) c (components db)
               (fun '(a, _) c => Assoc.componentId a =? Component.componentId c) Fc).
    rewrite (innerJoin_one (a, e, c) s (spareParts db)
               (fun '(a, _, _) s => Assoc.sparePartId a =? SparePart.sparePartId s) Fs).
    unfold leftJoin, suppliersOf. simpl. rewrite Ks, app_nil_r. reflexivity.
Qed.

Lemma rowsOf_assoc (db : Db) (a : Assoc.t) (r : Storage.AssociationRow) :
  In r (rowsOf db a) -> rowAssoc r = a.
Proof.
  destruct r as [[[[a' e] c] s] u]. unfold rowsOf. intros H.
  apply leftJoin_In in H.
  apply innerJoin_In in H as (H & _ & _).
  apply innerJoin_In in H as (H & _ & _).
  apply innerJoin_In in H as (H & _ & _).
  destruct H as [<-|[]]. reflexivity.
Qed.

(* ================================================================== *)
(** ** The equipment listing *)

Section Orders.

Lemma ascii_compare_refl (c : ascii) : Ascii.compare c c = Eq.
Proof. unfold Ascii.compare. apply N.compare_refl. Qed.

Lemma ascii_compare_lt_trans (x y z : ascii) :
  Ascii.compare x y = Lt -> Ascii.compare y z = Lt -> Ascii.compare x z = Lt.
Proof.
  unfold Ascii.compare. rewrite !N.compare_lt_iff. apply N.lt_trans.
Qed.

Lemma text_leb_trans (a b c : string) :
  text_leb a b = true -> text_leb b c = true -> text_leb a c = true.
Proof.
  unfold text_leb, String.leb. revert b c.
  induction a as [|x a IH]; intros [|y b] [|z c]; simpl; try easy.
  specialize (IH b c).
  destruct (Ascii.compare x y) eqn:Exy; try easy;
    destruct (Ascii.compare y z) eqn:Eyz; try easy.
  - apply Ascii.compare_eq_iff in Exy, Eyz. subst.
    now rewrite ascii_compare_refl.
  - apply Ascii.compare_eq_iff in Exy. subst. now rewrite Eyz.
  - apply Ascii.compare_eq_iff in Eyz. subst. now rewrite Exy.
  - now rewrite (ascii_compare_lt_trans x y z).
Qed.

Lemma text_leb_total (a b : string) : text_leb a b = true \/ text_leb b a = true.
Proof. apply String.leb_total. Qed.

Lemma time_leb_total (a b : option Z) : time_leb a b = true \/ time_leb b a = true.
Proof. destruct a, b; simpl; auto. lia. Qed.

Lemma time_leb_trans (a b c : option Z) :
  time_leb a b = true -> time_leb b c = true -> time_leb a c = true.
Proof. destruct a, b, c; simpl; try easy. lia. Qed.

End Orders.

(** Each sortable field names a column; its comparison is a total preorder
    and is the order [column_le] describes. *)
Lemma orderColumn_sortable (f : string) :
  In f sortable ->
  exists le,
    Storage.orderColumn f = Some le
    /\ (forall x y, le x y = true \/ le y x = true)
    /\ (forall x y z, le x y = true -> le y z = true -> le x z = true)
    /\ (forall x y, le x y = true <-> column_le f x y).
Proof.
  unfold sortable. intros H.
  repeat (destruct H as [<-|H]); try contradiction;
    (eexists; split; [reflexivity|]; split; [|split]); intros;
    repeat match goal with
           | x : Storage.EquipmentRow |- _ => destruct x as [[[? ?] ?] ?]
           end;
    simpl in *.
  all: try apply text_leb_total; try (eapply text_leb_trans; eassumption).
  all: try apply time_leb_total; try (eapply time_leb_trans; eassumption).
  all: try (unfold text_leb; tauto).
  all: try (rewrite ?Z.leb_le in *; lia).
  all: match goal with
       | |- time_leb ?a ?b = true <-> _ =>
           destruct a, b; simpl; rewrite ?Z.leb_le; intuition discriminate
       end.
Qed.

Lemma ceil_div_pages (total l : Z) :
  0 <= total -> 1 <= l ->
  exists pages, ceil_div total l = JNum pages
                /\ (pages - 1) * l < total <= pages * l.
Proof.
  intros Ht Hl. unfold ceil_div.
  destruct (Z.eqb_spec l 0) as [->|_]; [lia|].
  eexists. split; [reflexivity|].
  pose proof (Z.mul_div_le (- total) l ltac:(lia)).
  pose proof (Z.mul_succ_div_gt (- total) l ltac:(lia)).
  nia.
Qed.

Lemma StronglySorted_impl {A : Type} (R S : A -> A -> Prop) (l : list A) :
  (forall x y, R x y -> S x y) -> StronglySorted R l -> StronglySorted S l.
Proof.
  intros HRS. induction 1 as [|x l _ IH Hall]; constructor; auto.
  rewrite Forall_forall in *. auto.
Qed.

(** A statement about every condition of two lists is one about each
    list. *)
Lemma all_true_app {R : Type} (l1 l2 : list (R -> tri)) (r : R) :
  (forall c, In c (l1 ++ l2) -> c r = Some true)
  <-> (forall c, In c l1 -> c r = Some true)
      /\ (forall c, In c l2 -> c r = Some true).
Proof.
  split.
  - intros H. split; intros c Hc; apply H, in_app_iff; auto.
  - intros [H1 H2] c Hc. apply in_app_iff in Hc as [Hc|Hc]; auto.
Qed.

Lemma equipmentJoin_joined (db : Db) (r : Storage.EquipmentRow) :
  In r (Storage.equipmentJoin db) <-> joined db r.
Proof.
  destruct r as [[[e w] t] b]. unfold Storage.equipmentJoin, joined.
  rewrite (innerJoin_In _ (bases db) _ (e, w, t) b).
  rewrite (innerJoin_In _ (equipmentTypes db) _ (e, w) t).
  rewrite (innerJoin_In (equipment db) (workshops db) _ e w).
  rewrite !Z.eqb_eq. tauto.
Qed.

(** The conditions of the storage layer keep the rows the request asks
    for. *)
Lemma equipmentConditions_matches (q : EquipmentQuery.t) (r : Storage.EquipmentRow) :
  (forall c, In c (Storage.equipmentConditions (Routes.equipmentParams q)) ->
             c r = Some true)
  <-> equipment_matches q r.
Proof.
  unfold Storage.equipmentConditions, Routes.equipmentParams, equipment_matches.
  cbn [EquipmentParams.workshopId EquipmentParams.typeId EquipmentParams.baseId
       EquipmentParams.search].
  destruct r as [[[e w] t] b].
  rewrite !all_true_app.
  match goal with
  | |- ?A1 /\ ?A2 /\ ?A3 /\ ?A4 <-> ?B1 /\ ?B2 /\ ?B3 /\ ?B4 =>
      assert (A1 <-> B1) as H1 by when_num;
      assert (A2 <-> B2) as H2 by when_num;
      assert (A3 <-> B4) as H3 by when_str;
      assert (A4 <-> B3) as H4 by when_num
  end.
  tauto.
Qed.

Lemma select_lists_equipment (r : Storage.EquipmentRow) :
  lists_equipment r (Storage.equipmentSelect r).
Proof. destruct r as [[[e w] t] b]. repeat split. Qed.

(** C1: with page [p >= 1], limit [l >= 1], the numbers of the request in
    the range of the integer type, one of the six sort fields and a
    direction, GET /api/equipment answers 200 with the rows at offset
    [(p-1)*l], at most [l] of them, of a listing [ordered].  The listing
    holds exactly the equipment, joined with its workshop, type and base,
    that passes the filters of the request, and is sorted by the field in
    the requested direction; every row is listed with its ten fields;
    [total] is the number of matching rows and [totalPages] is the least
    number of pages of [l] rows that hold them. *)
Theorem equipment_listing_page (db : Db) (q : EquipmentQuery.t) (f : string) :
  let p := Routes.orDefault (EquipmentQuery.page q) 1 in
  let l := Routes.orDefault (EquipmentQuery.limit q) 10 in
  let matching :=
    where_all (Storage.equipmentConditions (Routes.equipmentParams q))
              (Storage.equipmentJoin db) in
  1 <= p -> 1 <= l ->
  equipment_query_in_range q = true ->
  EquipmentQuery.sortBy q = Some f -> In f sortable ->
  In (EquipmentQuery.sortOrder q) [None; Some "asc"; Some "desc"] ->
  exists ordered pages,
    Permutation ordered matching
    /\ (forall r, In r ordered <-> joined db r /\ equipment_matches q r)
    /\ StronglySorted
         (fun x y => if descending q then column_le f y x else column_le f x y)
         ordered
    /\ Routes.get_equipment db q
       = mkResponse 200
           (BPage (map Storage.equipmentSelect
                       (firstn (Z.to_nat l)
                               (skipn (Z.to_nat ((p - 1) * l)) ordered)))
                  (mkPagination p l (Z.of_nat (List.length matching))
                                (JNum pages)))
    /\ (forall r, In r ordered -> lists_equipment r (Storage.equipmentSelect r))
    /\ (pages - 1) * l < Z.of_nat (List.length matching) <= pages * l.
Proof.
  intros p l matching Hp Hl _ Hf Hin Hdir.
  destruct (orderColumn_sortable f Hin) as (le & Hcol & Htot & Htrans & Hle).
  destruct (ceil_div_pages (Z.of_nat (List.length matching)) l ltac:(lia) Hl)
    as (pages & Hpages & Hbound).
  assert (String.eqb f "" = false) as Hne.
  { unfold sortable in Hin.
    repeat (destruct Hin as [<-|Hin]; [reflexivity|]). contradiction. }
  set (dir := descending q).
  exists (if dir then orderBy (fun x y => le y x) matching else orderBy le matching),
         pages.
  assert (Permutation
            (if dir then orderBy (fun x y => le y x) matching
             else orderBy le matching) matching) as Hperm
      by (destruct dir; apply orderBy_Permutation).
  split; [exact Hperm|].
  split.
  { intros r. split.
    - intros Hr. apply (Permutation_in _ Hperm) in Hr.
      apply where_all_In in Hr as [Hj Hc].
      split; [now apply equipmentJoin_joined|now apply equipmentConditions_matches].
    - intros [Hj Hc]. apply (Permutation_in _ (Permutation_sym Hperm)).
      apply where_all_In.
      split; [now apply equipmentJoin_joined|now apply equipmentConditions_matches]. }
  split.
  { destruct dir.
    - apply StronglySorted_impl with (R := fun x y => le y x = true).
      + intros x y. apply Hle.
      + apply orderBy_sorted; [intros x y; apply Htot|].
        intros x y z Hxy Hyz. now apply Htrans with y.
    - apply StronglySorted_impl with (R := fun x y => le x y = true).
      + intros x y. apply Hle.
      + now apply orderBy_sorted. }
  split; [|split; [intros r _; apply select_lists_equipment|exact Hbound]].
  unfold Routes.get_equipment, Storage.getEquipments.
  cbn [Routes.equipmentParams EquipmentParams.page EquipmentParams.limit
       EquipmentParams.sortBy EquipmentParams.sortOrder Routes.orDefault].
  rewrite Hf. fold p l. fold matching.
  unfold limit_offset.
  destruct (Z.ltb_spec ((p - 1) * l) 0) as [Hneg|_]; [nia|].
  destruct (Z.leb_spec 0 l) as [_|Hneg]; [|lia].
  unfold bind. rewrite Hpages. cbn [json_number].
  unfold Storage.equipmentSort. rewrite Hne, Hcol.
  subst dir. unfold descending.
  simpl in Hdir. destruct Hdir as [<-|[<-|[<-|[]]]]; reflexivity.
Qed.

Lemma equipment_listing_page_witness :
  exists ordered pages,
    (forall r, In r ordered <->
               joined Sample.plant r /\ equipment_matches Requests.secondPage r)
    /\ StronglySorted (fun x y => column_le "equipmentName" y x) ordered
    /\ Routes.get_equipment Sample.plant Requests.secondPage
       = mkResponse 200
           (BPage (map Storage.equipmentSelect (firstn 2 (skipn 2 ordered)))
                  (mkPagination 2 2 3 (JNum pages)))
    /\ (pages - 1) * 2 < 3 <= pages * 2.
Proof.
  destruct (equipment_listing_page Sample.plant Requests.secondPage "equipmentName")
    as (ordered & pages & _ & Hin & Hs & E & _ & Hb).
  - simpl. lia.
  - simpl. lia.
  - reflexivity.
  - reflexivity.
  - simpl. auto.
  - simpl. auto.
  - exists ordered, pages. split; [exact Hin|]. split; [exact Hs|].
    split; [exact E|exact Hb].
Defined.

(* ================================================================== *)
(** ** Filters whose value is 0 *)




(* ================================================================== *)
(** ** The base hierarchy *)

Lemma all_In {A B : Type} (f : A -> outcome B) (xs : list A) (ys : list B) :
  all f xs = Ok ys -> forall y, In y ys -> exists x, In x xs /\ f x = Ok y.
Proof.
  revert ys. induction xs as [|x xs IH]; simpl; intros ys H y Hy.
  - injection H as <-. contradiction.
  - destruct (f x) as [y0|] eqn:Fx; simpl in H; [|discriminate].
    destruct (all f xs) as [ys0|]; simpl in H; [|discriminate].
    injection H as <-. destruct Hy as [<-|Hy].
    + exists x. auto.
    + destruct (IH ys0 eq_refl y Hy) as (x' & Hx' & E). exists x'. auto.
Qed.

Lemma workshopNode_children (db : Db) (workshop : obj) (n : TreeNode) :
  Routes.workshopNode db workshop = Ok n ->
  node_children n
  = map equipmentLeaf
      (map Storage.equipmentSelect
         (firstn 100
            (where_all
               (Storage.equipmentConditions
                  (EquipmentParams.mk (as_num (prop workshop "workshopId"))
                                      None None None None (Some 100) None None))
               (Storage.equipmentJoin db)))).
Proof.
  unfold Routes.workshopNode, Storage.getEquipments. simpl.
  now intros [= <-].
Qed.

(** The rows the equipment query of a workshop node selects. *)
Lemma workshop_rows (db : Db) (wk : Workshop.t) :
  where_all
    (Storage.equipmentConditions
       (EquipmentParams.mk (Some (Workshop.workshopId wk))
                           None None None None (Some 100) None None))
    (Storage.equipmentJoin db)
  = filter (of_workshop wk) (Storage.equipmentJoin db).
Proof.
  unfold Storage.equipmentConditions.
  cbn [EquipmentParams.workshopId EquipmentParams.typeId EquipmentParams.baseId
       EquipmentParams.search Storage.whenNum Storage.whenStr].
  destruct (Z.eqb_spec (Workshop.workshopId wk) 0) as [E|E]; cbn [app where_all].
  - symmetry. apply filter_all. intros [[[e w] t] b] _. simpl.
    rewrite E. reflexivity.
  - apply filter_ext. intros [[[e w] t] b]. simpl.
    destruct (Z.eqb_spec (Workshop.workshopId wk) 0) as [E'|_]; [contradiction|].
    now destruct (Equipment.workshopId e =? Workshop.workshopId wk).
Qed.

(** C10: in the answer of GET /api/hierarchy/base/:id every workshop node
    has at most 100 equipment children.  The node stands for a workshop of
    the base; its children are the leaves of the first 100 rows of a listing
    [listed] that holds, in the order the database returns them, exactly
    the equipment of that workshop, joined with its workshop, type and
    base; what the listing holds beyond its first 100 rows is not in the
    tree. *)
Theorem base_hierarchy_at_most_100 (db : Db) (id : Z) (root w : TreeNode) :
  Routes.GET_hierarchy_base db id = mkResponse 200 (BTree root) ->
  In w (node_children root) ->
  (List.length (node_children w) <= 100)%nat
  /\ exists wk listed,
      In wk (workshops db)
      /\ (id <> 0 -> Workshop.baseId wk = id)
      /\ node_id w = JNum (Workshop.workshopId wk)
      /\ Permutation listed (filter (of_workshop wk) (Storage.equipmentJoin db))
      /\ (forall r, In r listed <-> joined db r /\ of_workshop wk r = true)
      /\ node_children w
         = map equipmentLeaf (map Storage.equipmentSelect (firstn 100 listed))
      /\ (forall r, In r listed -> lists_equipment r (Storage.equipmentSelect r))
      /\ List.length (node_children w) = Nat.min 100 (List.length listed).
Proof.
  unfold Routes.GET_hierarchy_base, Routes.dispatch, Routes.hierarchy_base.
  destruct (Storage.getBase db id) as [base|]; [|discriminate].
  destruct (all _ _) as [children|] eqn:E; [|discriminate].
  intros [= <-] Hw. simpl in Hw.
  destruct (all_In _ _ _ E w Hw) as (x & Hx & Hnode).
  assert (exists wk, x = obj_of_workshop wk /\ In wk (workshops db)
                     /\ (id <> 0 -> Workshop.baseId wk = id))
    as (wk & -> & Hwk & Hbase).
  { unfold Storage.getWorkshops in Hx. apply in_map_iff in Hx as (wk & <- & Hin).
    apply orderBy_In in Hin. exists wk. split; [reflexivity|].
    unfold truthy_num in Hin. destruct (Z.eqb_spec id 0) as [E0|E0]; simpl in Hin.
    - split; [exact Hin|]. intros H. contradiction.
    - apply filter_In in Hin as [Hin Hb]. split; [exact Hin|]. intros _.
      simpl in Hb. destruct (Z.eqb_spec (Workshop.baseId wk) id); [auto|discriminate]. }
  pose proof (workshopNode_children db _ w Hnode) as Hc.
  change (as_num (prop (obj_of_workshop wk) "workshopId"))
    with (Some (Workshop.workshopId wk)) in Hc.
  rewrite workshop_rows in Hc.
  split.
  { rewrite Hc, !length_map, length_firstn. apply Nat.le_min_l. }
  exists wk, (filter (of_workshop wk) (Storage.equipmentJoin db)).
  split; [exact Hwk|]. split; [exact Hbase|].
  split.
  { unfold Routes.workshopNode in Hnode.
    destruct (Storage.getEquipments db _); [|discriminate].
    now injection Hnode as <-. }
  split; [reflexivity|].
  split.
  { intros r. rewrite filter_In, equipmentJoin_joined. tauto. }
  split; [exact Hc|].
  split; [intros r _; apply select_lists_equipment|].
  now rewrite Hc, !length_map, length_firstn.
Qed.

Lemma base_hierarchy_at_most_100_witness :
  exists root w,
    Routes.GET_hierarchy_base Sample.crowded 1 = mkResponse 200 (BTree root)
    /\ In w (node_children root)
    /\ List.length (Storage.equipmentJoin Sample.crowded) = 101%nat
    /\ (List.length (node_children w) <= 100)%nat.
Proof.
  destruct (Routes.GET_hierarchy_base Sample.crowded 1) as [st [| | |root| | | |]] eqn:E;
    try (vm_compute in E; discriminate).
  assert (st = 200) as -> by (vm_compute in E; congruence).
  destruct (node_children root) as [|w rest] eqn:C.
  - exfalso. vm_compute in E. injection E as <-. discriminate.
  - exists root, w. split; [reflexivity|]. rewrite C. split; [now left|].
    split; [vm_compute; reflexivity|].
    apply (base_hierarchy_at_most_100 Sample.crowded 1 root w E).
    rewrite C. now left.
Defined.

(* ================================================================== *)
(** ** The equipment hierarchy: what its spare-part nodes are made of *)

Section Grouping.

Variable db : Db.

Lemma map_set_In (m : Routes.ComponentsMap) (k : jsval)
      (v : obj * list Routes.Entry) (x : jsval * (obj * list Routes.Entry)) :
  In x (Routes.map_set m k v) -> In x m \/ snd x = v.
Proof.
  induction m as [|[k' v'] m IH]; simpl.
  - intros [<-|[]]. now right.
  - destruct (jsval_eqb k k'); simpl.
    + intros [<-|H]; [now right|now left; right].
    + intros [<-|H]; [now left; left|]. destruct (IH H); auto.
Qed.

Lemma map_push_In (m : Routes.ComponentsMap) (k : jsval) (e : Routes.Entry)
      (k' : jsval) (c : obj) (es : list Routes.Entry) :
  In (k', (c, es)) (Routes.map_push m k e) ->
  In (k', (c, es)) m \/ exists es0, In (k', (c, es0)) m /\ es = es0 ++ [e].
Proof.
  induction m as [|[k0 [c0 es0]] m IH]; simpl; [tauto|].
  destruct (jsval_eqb k k0); simpl.
  - intros [[= <- <- <-]|H]; [right; exists es0; auto|auto].
  - intros [[= <- <- <-]|H]; [auto|].
    destruct (IH H) as [H'|(es1 & H' & ->)]; [auto|].
    right. exists es1. auto.
Qed.

Lemma group_step_from_tables (m : Routes.ComponentsMap)
      (r : Storage.AssociationRow) :
  entries_from_tables m ->
  entries_from_tables (Routes.group_step db m (Storage.associationSelect r)).
Proof.
  intros Hm. unfold Routes.group_step.
  set (key := prop (Storage.associationSelect r) "componentId").
  set (m1 := if negb (Routes.map_has m key) then _ else m).
  assert (entries_from_tables m1) as Hm1.
  { subst m1. destruct (negb _); [|exact Hm].
    destruct (Routes.getComponent_of db key) as [component|]; [|exact Hm].
    intros k c es Hin. apply map_set_In in Hin as [Hin|E].
    - now apply (Hm k c es).
    - simpl in E. injection E as _ ->. constructor. }
  destruct (Routes.map_has m1 key); [|exact Hm1].
  destruct (Routes.getSparePart_of db _) as [sparePart|] eqn:G; [|exact Hm1].
  assert (exists s, sparePart = obj_of_sparePart s) as [s ->].
  { unfold Routes.getSparePart_of, Storage.getSparePart in G.
    destruct (as_num _); [|discriminate].
    destruct (hd_error _) as [s|]; [|discriminate].
    injection G as <-. now exists s. }
  intros k c es Hin. apply map_push_In in Hin as [Hin|(es0 & Hin & ->)].
  - now apply (Hm1 k c es).
  - apply Forall_app. split; [now apply (Hm1 k c es0)|].
    constructor; [|constructor]. now exists s, r.
Qed.

Lemma group_fold_from_tables (rows : list Storage.AssociationRow)
      (m : Routes.ComponentsMap) :
  entries_from_tables m ->
  entries_from_tables
    (fold_left (Routes.group_step db) (map Storage.associationSelect rows) m).
Proof.
  revert m. induction rows as [|r rows IH]; simpl; intros m Hm; [exact Hm|].
  apply IH. now apply group_step_from_tables.
Qed.

End Grouping.

(** What the handler reads from an entry that comes from the tables. *)
Lemma sparePartNode_from_tables (e : Routes.Entry) :
  from_tables e ->
  node_name (Routes.sparePartNode e) = JUndefined
  /\ prop (node_data (Routes.sparePartNode e)) "supplyCycle" = JUndefined.
Proof.
  intros (s & [[[[a eq] c] sp] u] & ->). split; reflexivity.
Qed.

(** C5: in every answer of GET /api/hierarchy/equipment/:id each spare-part
    node has an undefined [name] and an undefined [data.supplyCycle]: a
    [spare_part] row has no [sparePartName] and a row of the association
    listing has no [supplyCycle]. *)
Theorem spare_part_nodes_lack_name_and_cycle
        (db : Db) (id : Z) (root c n : TreeNode) :
  Routes.hierarchy_equipment db id = mkResponse 200 (BTree root) ->
  In c (node_children root) -> In n (node_children c) ->
  node_name n = JUndefined
  /\ prop (node_data n) "supplyCycle" = JUndefined
  /\ (forall s, prop (obj_of_sparePart s) "sparePartName" = JUndefined)
  /\ (forall r, prop (Storage.associationSelect r) "supplyCycle" = JUndefined).
Proof.
  unfold Routes.hierarchy_equipment.
  destruct (Storage.getEquipment db id) as [equipment|]; [|discriminate].
  destruct (Storage.getAssociations db _) as [associations|] eqn:E; [|discriminate].
  unfold Storage.getAssociations in E.
  destruct (Storage.associationRows db _) as [rows|]; [|discriminate].
  simpl in E. injection E as <-.
  intros [= <-] Hc Hn. simpl in Hc.
  apply in_map_iff in Hc as ([k [component spareParts]] & <- & Hin).
  simpl in Hn. apply in_map_iff in Hn as (e & <- & He).
  assert (from_tables e) as Hfrom.
  { assert (entries_from_tables
              (fold_left (Routes.group_step db)
                         (map Storage.associationSelect rows) [])) as H.
    { apply group_fold_from_tables. intros ? ? ? []. }
    specialize (H k component spareParts Hin).
    rewrite Forall_forall in H. now apply H. }
  destruct (sparePartNode_from_tables e Hfrom) as [H1 H2].
  repeat split; auto.
  intros [[[[a eq] c] sp] u]. reflexivity.
Qed.

Lemma spare_part_nodes_lack_name_and_cycle_witness :
  Routes.hierarchy_equipment Sample.plant 1
  = mkResponse 200 (BTree Sample.pressTree)
  /\ In Sample.valveNode (node_children Sample.pressTree)
  /\ In Sample.gasketNode (node_children Sample.valveNode)
  /\ node_name Sample.gasketNode = JUndefined
  /\ prop (node_data Sample.gasketNode) "supplyCycle" = JUndefined.
Proof.
  assert (Routes.hierarchy_equipment Sample.plant 1
          = mkResponse 200 (BTree Sample.pressTree)) as E by reflexivity.
  assert (In Sample.valveNode (node_children Sample.pressTree)) as Hc
      by (simpl; auto).
  assert (In Sample.gasketNode (node_children Sample.valveNode)) as Hn
      by (simpl; auto).
  destruct (spare_part_nodes_lack_name_and_cycle
              Sample.plant 1 Sample.pressTree Sample.valveNode Sample.gasketNode
              E Hc Hn) as (H1 & H2 & _).
  auto.
Defined.

(* ================================================================== *)
(** ** One listed row per supplier *)

(** A filter that only looks at the association of a joined row can be
    applied to the association table before joining. *)
Lemma filter_join_by_assoc (db : Db) (p : Assoc.t -> bool) :
  filter (fun r => p (rowAssoc r)) (Storage.associationJoin db)
  = flat_map (rowsOf db) (filter p (equipmentComponentSpareParts db)).
Proof.
  rewrite associationJoin_rowsOf, filter_flat_map, flat_map_filter_source.
  apply flat_map_ext. intros a.
  destruct (p a) eqn:E.
  - apply filter_all. intros r Hr. now rewrite (rowsOf_assoc db a r Hr).
  - apply filter_none. intros r Hr. now rewrite (rowsOf_assoc db a r Hr).
Qed.

Lemma rowsOf_by_id (db : Db) (a : Assoc.t) :
  Integrity db -> In a (equipmentComponentSpareParts db) ->
  filter (fun r => Assoc.id (rowAssoc r) =? Assoc.id a) (Storage.associationJoin db)
  = rowsOf db a.
Proof.
  intros I Ha.
  rewrite (filter_join_by_assoc db (fun x => Assoc.id x =? Assoc.id a)).
  rewrite (filter_ext _ (fun y => Assoc.id a =? Assoc.id y))
    by (intros y; apply Z.eqb_sym).
  rewrite (filter_key Assoc.id _ a); [simpl; apply app_nil_r| |exact Ha].
  apply distinct_NoDup, (association_key db I).
Qed.

Lemma rowsWithId_select (id : Z) (rows : list Storage.AssociationRow) :
  rowsWithId id (map Storage.associationSelect rows)
  = map Storage.associationSelect
        (filter (fun r => Assoc.id (rowAssoc r) =? id) rows).
Proof.
  unfold rowsWithId. rewrite filter_map_swap. f_equal.
  apply filter_ext. now intros [[[[a e] c] s] u].
Qed.

Lemma getAssociations_unfiltered (db : Db) :
  Storage.getAssociations db
    (AssociationParams.mk None None None None None None None)
  = Ok (map Storage.associationSelect
            (orderBy Storage.associationOrder (Storage.associationJoin db))).
Proof. reflexivity. Qed.

Lemma filter_filter_swap {A : Type} (f g : A -> bool) (l : list A) :
  filter f (filter g l) = filter g (filter f l).
Proof.
  induction l as [|x l IH]; simpl; [reflexivity|].
  destruct (f x) eqn:Ef, (g x) eqn:Eg; simpl; rewrite ?Ef, ?Eg, IH; reflexivity.
Qed.

(** Without a supply-cycle range no condition looks at the supplier. *)
Lemma conditions_supplier_blind (p : AssociationParams.t)
      (level : list (Storage.AssociationRow -> tri)) :
  Storage.levelCondition (AssociationParams.importanceLevel p) = Ok level ->
  AssociationParams.supplyCycleRange p = None ->
  forall c, In c (Storage.associationConditions p level) -> supplier_blind c.
Proof.
  intros Hlevel Hrange c. unfold Storage.associationConditions.
  rewrite Hrange, !in_app_iff. simpl.
  assert (forall (v : option Z) (f : Z -> Storage.AssociationRow -> tri),
             (forall n, supplier_blind (f n)) ->
             In c (Storage.whenNum v f) -> supplier_blind c) as Hnum.
  { intros [n|] f Hf; simpl; [|contradiction].
    destruct (n =? 0); simpl; [contradiction|]. intros [<-|[]]. apply Hf. }
  intros [H|[H|[H|[H|[[]|[H|H]]]]]].
  - revert H. apply Hnum. intros n; unfold supplier_blind; intros; reflexivity.
  - revert H. apply Hnum. intros n; unfold supplier_blind; intros; reflexivity.
  - revert H. apply Hnum. intros n; unfold supplier_blind; intros; reflexivity.
  - unfold Storage.levelCondition in Hlevel.
    destruct (AssociationParams.importanceLevel p) as [[|l ls]|].
    + injection Hlevel as <-. destruct H.
    + destruct (Storage.bind_levels (l :: ls)); simpl in Hlevel; [|discriminate].
      injection Hlevel as <-. destruct H as [<-|[]]. unfold supplier_blind; intros; reflexivity.
    + injection Hlevel as <-. destruct H.
  - unfold Storage.customCondition in H.
    destruct (AssociationParams.isCustom p); [|destruct H].
    destruct H as [<-|[]]. unfold supplier_blind; intros; reflexivity.
  - unfold Storage.whenStr in H.
    destruct (AssociationParams.keyword p) as [k|]; [|destruct H].
    destruct (String.eqb k ""); [destruct H|].
    destruct H as [<-|[]]. unfold supplier_blind; intros; reflexivity.
Qed.

(** Conditions that do not look at the supplier keep the rows of one
    association all together or drop them all together. *)
Lemma kept_all_or_none (conds : list (Storage.AssociationRow -> tri))
      (a : Assoc.t) (e : Equipment.t) (c : Component.t) (s : SparePart.t)
      (m : list SparePartSupplier.t) :
  (forall x, In x conds -> supplier_blind x) ->
  let rows := map (fun u => (a, e, c, s, Some u)) m in
  where_all conds rows = rows \/ where_all conds rows = [].
Proof.
  intros Hblind rows. rewrite where_all_filter.
  set (Q := fun r : Storage.AssociationRow =>
              holds (and_all (map (fun x => x r) conds))).
  assert (forall u, Q (a, e, c, s, Some u) = Q (a, e, c, s, None)) as HQ.
  { intros u. unfold Q. f_equal. f_equal. apply map_ext_in.
    intros x Hx. apply (Hblind x Hx). }
  destruct (Q (a, e, c, s, None)) eqn:E.
  - left. apply filter_all. intros r Hr.
    apply in_map_iff in Hr as (u & <- & _). now rewrite HQ.
  - right. apply filter_none. intros r Hr.
    apply in_map_iff in Hr as (u & <- & _). now rewrite HQ.
Qed.

(** C8: when the spare part of an association has more than one supplier
    row, the unfiltered listing holds that association once per supplier;
    and indeed GET /api/associations and the spare-part children of the
    equipment hierarchy do show repeated entries (in the sample plant with
    two suppliers of the seal).  A listing without a supply-cycle range
    holds such an association once per supplier or not at all. *)
Theorem one_listed_row_per_supplier :
  (forall db p a rows,
      integrity db = true ->
      In a (equipmentComponentSpareParts db) ->
      (1 < List.length (suppliersOf db (Assoc.sparePartId a)))%nat ->
      AssociationParams.supplyCycleRange p = None ->
      Storage.getAssociations db p = Ok rows ->
      List.length (rowsWithId (Assoc.id a) rows)
      = List.length (suppliersOf db (Assoc.sparePartId a))
      \/ List.length (rowsWithId (Assoc.id a) rows) = 0%nat)
  /\ (forall db a,
      integrity db = true ->
      In a (equipmentComponentSpareParts db) ->
      (1 < List.length (suppliersOf db (Assoc.sparePartId a)))%nat ->
      exists rows,
        Storage.getAssociations db
          (AssociationParams.mk None None None None None None None) = Ok rows
        /\ List.length (rowsWithId (Assoc.id a) rows)
           = List.length (suppliersOf db (Assoc.sparePartId a)))
  /\ (exists row rest,
         Routes.get_associations Sample.plant2
           (AssociationQuery.mk IdMissing IdMissing IdMissing None None None None)
         = mkResponse 200 (BArray (row :: row :: rest)))
  /\ (exists root c n rest,
         Routes.hierarchy_equipment Sample.plant2 1 = mkResponse 200 (BTree root)
         /\ In c (node_children root)
         /\ node_children c = n :: n :: rest).
Proof.
  split; [|split; [|split]].
  - intros db p a rows Hi Ha Hn Hrange E. apply integrity_Integrity in Hi.
    unfold Storage.getAssociations, Storage.associationRows in E.
    destruct (Storage.levelCondition (AssociationParams.importanceLevel p))
      as [level|] eqn:Hlevel; [|discriminate].
    simpl in E. injection E as <-.
    rewrite rowsWithId_select, length_map.
    rewrite (Permutation_length
               (filter_Permutation _ _ _ (orderBy_Permutation _ _))).
    rewrite where_all_filter, filter_filter_swap, (rowsOf_by_id db a Hi Ha).
    rewrite <- where_all_filter.
    destruct (rowsOf_suppliers db a Hi Ha)
      as (e & c & s & _ & _ & _ & _ & _ & _ & _ & ->).
    destruct (suppliersOf db (Assoc.sparePartId a)) as [|u m] eqn:Em;
      [simpl in Hn; lia|].
    destruct (kept_all_or_none (Storage.associationConditions p level)
                a e c s (u :: m)
                (conditions_supplier_blind p level Hlevel Hrange)) as [->| ->].
    + left. now rewrite length_map.
    + now right.
  - intros db a Hi Ha Hn. apply integrity_Integrity in Hi.
    eexists. split; [apply getAssociations_unfiltered|].
    rewrite rowsWithId_select, length_map.
    rewrite (Permutation_length
               (filter_Permutation _ _ _ (orderBy_Permutation _ _))).
    rewrite (rowsOf_by_id db a Hi Ha).
    destruct (rowsOf_suppliers db a Hi Ha) as (e & c & s & _ & _ & _ & _ & _ & _ & _ & ->).
    destruct (suppliersOf db (Assoc.sparePartId a)) as [|u m]; simpl in *; [lia|].
    now rewrite length_map.
  - do 2 eexists. vm_compute. reflexivity.
  - do 4 eexists. split; [vm_compute; reflexivity|].
    split; [left; reflexivity|]. reflexivity.
Qed.

Lemma one_listed_row_per_supplier_witness :
  exists rows,
    Storage.getAssociations Sample.plant2
      (AssociationParams.mk None None None None None None None) = Ok rows
    /\ List.length (rowsWithId 1 rows) = 2%nat.
Proof.
  destruct one_listed_row_per_supplier as [_ [H _]].
  destruct (H Sample.plant2 Sample.link1 eq_refl) as (rows & E & L).
  - simpl. auto.
  - vm_compute. lia.
  - exists rows. split; [exact E|exact L].
Defined.

(* ================================================================== *)
(** ** The equipment hierarchy: grouping by component *)

Section GroupingSpec.

Variable db : Db.

Lemma map_has_groupOf (rows : list Storage.AssociationRow) (ks : list Z) (k : Z) :
  Routes.map_has (map (groupOf db rows) ks) (JNum k) = existsb (Z.eqb k) ks.
Proof.
  induction ks as [|kz ks IH]; simpl; [reflexivity|]. now rewrite IH.
Qed.

Lemma map_set_fresh (m : Routes.ComponentsMap) (key : jsval)
      (v : obj * list Routes.Entry) :
  Routes.map_has m key = false -> Routes.map_set m key v = m ++ [(key, v)].
Proof.
  induction m as [|[k' v'] m IH]; simpl; [reflexivity|].
  rewrite orb_false_iff. intros [-> H]. now rewrite IH.
Qed.

Lemma groupOf_other (rows : list Storage.AssociationRow)
      (r : Storage.AssociationRow) (k : Z) :
  cidOf r <> k -> groupOf db (rows ++ [r]) k = groupOf db rows k.
Proof.
  intros H. unfold groupOf. rewrite filter_app. simpl.
  apply Z.eqb_neq in H. rewrite H. now rewrite app_nil_r.
Qed.

Lemma groupOf_same (rows : list Storage.AssociationRow)
      (r : Storage.AssociationRow) :
  groupOf db (rows ++ [r]) (cidOf r)
  = (JNum (cidOf r),
     (componentOf db (cidOf r),
      map entryOf (filter (fun x => cidOf x =? cidOf r) rows) ++ [entryOf r])).
Proof.
  unfold groupOf. rewrite filter_app. simpl.
  now rewrite Z.eqb_refl, map_app.
Qed.

Lemma map_push_groupOf (rows : list Storage.AssociationRow)
      (r : Storage.AssociationRow) (ks : list Z) :
  NoDup ks -> In (cidOf r) ks ->
  Routes.map_push (map (groupOf db rows) ks) (JNum (cidOf r)) (entryOf r)
  = map (groupOf db (rows ++ [r])) ks.
Proof.
  induction ks as [|kz ks IH]; simpl; [contradiction|].
  intros Hnd Hin. inversion Hnd as [|? ? Hnot Hnd']; subst.
  destruct (Z.eqb_spec (cidOf r) kz) as [E|E].
  - rewrite <- E. rewrite groupOf_same. f_equal.
    apply map_ext_in. intros k Hk. symmetry. apply groupOf_other.
    intros Ek. apply Hnot. now rewrite <- E, Ek.
  - rewrite groupOf_other by exact E. f_equal. apply IH; [exact Hnd'|].
    destruct Hin as [->|Hin]; [contradiction|exact Hin].
Qed.

Lemma existsb_eqb_In (k : Z) (ks : list Z) :
  existsb (Z.eqb k) ks = true <-> In k ks.
Proof.
  rewrite existsb_exists. split.
  - intros (x & Hx & E). apply Z.eqb_eq in E. now subst.
  - intros H. exists k. split; [exact H|apply Z.eqb_refl].
Qed.

Lemma keysAfter_NoDup (ks : list Z) (r : Storage.AssociationRow) :
  NoDup ks -> NoDup (keysAfter ks r).
Proof.
  intros H. unfold keysAfter.
  destruct (existsb _ ks) eqn:E; [exact H|].
  apply NoDup_app; [exact H|repeat constructor; auto|].
  intros k Hk [<-|[]]. apply existsb_eqb_In in Hk. congruence.
Qed.

Lemma keysAfter_In (ks : list Z) (r : Storage.AssociationRow) (k : Z) :
  In k (keysAfter ks r) <-> In k ks \/ cidOf r = k.
Proof.
  unfold keysAfter. destruct (existsb _ ks) eqn:E.
  - apply existsb_eqb_In in E. split; [auto|]. intros [H|<-]; assumption.
  - rewrite in_app_iff. simpl. tauto.
Qed.

(** One turn of the loop, on a map that is the grouping of [rows]. *)
Lemma group_step_groupOf (rows : list Storage.AssociationRow)
      (r : Storage.AssociationRow) (ks : list Z) :
  resolved db r -> NoDup ks ->
  (forall x, In x rows -> In (cidOf x) ks) ->
  Routes.group_step db (map (groupOf db rows) ks) (Storage.associationSelect r)
  = map (groupOf db (rows ++ [r])) (keysAfter ks r).
Proof.
  intros [Hc Hs] Hnd Hcover.
  assert (prop (Storage.associationSelect r) "componentId" = JNum (cidOf r))
    as Hkey by (now destruct r as [[[[a e] c] s] u]).
  assert (prop (Storage.associationSelect r) "sparePartId"
          = JNum (Assoc.sparePartId (rowAssoc r)))
    as Hpart by (now destruct r as [[[[a e] c] s] u]).
  unfold Routes.group_step. cbv zeta. rewrite Hkey, Hpart.
  unfold Routes.getComponent_of, Routes.getSparePart_of. simpl as_num. cbv iota.
  rewrite Hc, Hs, map_has_groupOf. unfold keysAfter.
  destruct (existsb (Z.eqb (cidOf r)) ks) eqn:E; simpl negb; cbv iota.
  - rewrite map_has_groupOf, E.
    apply map_push_groupOf; [exact Hnd|now apply existsb_eqb_In].
  - rewrite map_set_fresh by (now rewrite map_has_groupOf).
    assert (map (groupOf db rows) ks
              ++ [(JNum (cidOf r), (obj_of_component (rowComponent r), []))]
            = map (groupOf db rows) (ks ++ [cidOf r])) as ->.
    { rewrite map_app. simpl. f_equal. unfold groupOf, componentOf.
      rewrite Hc. rewrite filter_none; [reflexivity|].
      intros x Hx. apply Z.eqb_neq. intros Ex.
      apply Hcover in Hx. rewrite Ex in Hx.
      apply existsb_eqb_In in Hx. congruence. }
    rewrite map_has_groupOf, existsb_app. simpl. rewrite Z.eqb_refl, orb_true_r.
    apply map_push_groupOf.
    + apply NoDup_app; [exact Hnd|repeat constructor; auto|].
      intros k Hk [<-|[]]. apply existsb_eqb_In in Hk. congruence.
    + rewrite in_app_iff. right. now left.
Qed.

(** The whole loop. *)
Lemma group_fold_groupOf (rest : list Storage.AssociationRow) :
  forall (rows : list Storage.AssociationRow) (ks : list Z),
    (forall r, In r rest -> resolved db r) ->
    NoDup ks ->
    (forall x, In x rows -> In (cidOf x) ks) ->
    exists ks',
      NoDup ks'
      /\ (forall k, In k ks' <-> In k ks \/ exists r, In r rest /\ cidOf r = k)
      /\ fold_left (Routes.group_step db)
                   (map Storage.associationSelect rest)
                   (map (groupOf db rows) ks)
         = map (groupOf db (rows ++ rest)) ks'.
Proof.
  induction rest as [|r rest IH]; intros rows ks Hres Hnd Hcover.
  - exists ks. split; [exact Hnd|]. split.
    + intros k. split; [auto|]. intros [H|(r & [] & _)]. exact H.
    + simpl. now rewrite app_nil_r.
  - simpl. rewrite group_step_groupOf; auto; [|apply Hres; now left].
    destruct (IH (rows ++ [r]) (keysAfter ks r)) as (ks' & Hnd' & Hin' & Hfold).
    + intros x Hx. apply Hres. now right.
    + now apply keysAfter_NoDup.
    + intros x Hx. apply keysAfter_In. apply in_app_iff in Hx as [Hx|[<-|[]]]; auto.
    + exists ks'. split; [exact Hnd'|]. split.
      * intros k. rewrite Hin', keysAfter_In. split.
        -- intros [[H|H]|(x & Hx & E)].
           ++ now left.
           ++ right. exists r. split; [now left|exact H].
           ++ right. exists x. split; [now right|exact E].
        -- intros [H|(x & [<-|Hx] & E)].
           ++ now left; left.
           ++ now left; right.
           ++ right. now exists x.
      * rewrite Hfold. now rewrite <- app_assoc.
Qed.

End GroupingSpec.

(* ================================================================== *)
(** ** The equipment hierarchy of a two-by-two equipment *)

Lemma associationRows_of_equipment (db : Db) (id : Z) :
  id <> 0 ->
  Storage.associationRows db
    (AssociationParams.mk (Some id) None None None None None None)
  = Ok (orderBy Storage.associationOrder
          (flat_map (rowsOf db) (associationsOf db id))).
Proof.
  intros Hid. unfold Storage.associationRows, Storage.associationConditions.
  simpl. destruct (Z.eqb_spec id 0) as [E|_]; [contradiction|].
  simpl. f_equal. f_equal.
  unfold associationsOf.
  rewrite <- (filter_join_by_assoc db (fun a => Assoc.equipmentId a =? id)).
  apply filter_ext. intros [[[[a e] c] s] u]. simpl.
  now destruct (Assoc.equipmentId a =? id).
Qed.

Lemma rowsOf_single (db : Db) (a : Assoc.t) :
  Integrity db -> In a (equipmentComponentSpareParts db) ->
  (List.length (suppliersOf db (Assoc.sparePartId a)) <= 1)%nat ->
  exists r,
    rowsOf db a = [r] /\ rowAssoc r = a /\ resolved db r
    /\ In (rowComponent r) (components db)
    /\ Component.componentId (rowComponent r) = Assoc.componentId a
    /\ SparePart.sparePartId (rowSparePart r) = Assoc.sparePartId a.
Proof.
  intros I Ha Hone.
  destruct (rowsOf_suppliers db a I Ha)
    as (e & c & s & _ & Hc & _ & Kc & Ks & Gc & Gs & ->).
  destruct (suppliersOf db (Assoc.sparePartId a)) as [|u [|u' m]];
    simpl in Hone; [| |lia].
  - exists (a, e, c, s, None). unfold resolved, cidOf. simpl. auto 10.
  - exists (a, e, c, s, Some u). unfold resolved, cidOf. simpl. auto 10.
Qed.

Lemma flat_map_single {A B : Type} (f : A -> list B) (g : B -> A) (l : list A) :
  (forall a, In a l -> exists r, f a = [r] /\ g r = a) ->
  map g (flat_map f l) = l.
Proof.
  induction l as [|a l IH]; simpl; intros H; [reflexivity|].
  destruct (H a (or_introl eq_refl)) as (r & -> & <-). simpl.
  f_equal. apply IH. intros; apply H; now right.
Qed.

Lemma count_by_assoc (q : Assoc.t -> bool)
      (rows : list Storage.AssociationRow) (A : list Assoc.t) :
  Permutation (map rowAssoc rows) A ->
  List.length (filter (fun r => q (rowAssoc r)) rows) = List.length (filter q A).
Proof.
  intros HP.
  rewrite <- (Permutation_length (filter_Permutation q _ _ HP)).
  now rewrite filter_map_swap, length_map.
Qed.

Lemma two_by_two_counts (db : Db) (id : Z) :
  two_by_two db id ->
  exists c1 c2,
    c1 <> c2
    /\ (forall k, (exists a, In a (associationsOf db id) /\ Assoc.componentId a = k)
                  <-> In k [c1; c2])
    /\ forall k, In k [c1; c2] ->
         List.length (filter (fun a => Assoc.componentId a =? k)
                             (associationsOf db id)) = 2%nat
         /\ NoDup (map Assoc.sparePartId
                       (filter (fun a => Assoc.componentId a =? k)
                               (associationsOf db id))).
Proof.
  intros (c1 & c2 & s11 & s12 & s21 & s22 & Hc & H1 & H2 & HP).
  exists c1, c2. split; [exact Hc|]. split.
  - intros k. split.
    + intros (a & Ha & <-).
      apply (in_map tie) in Ha. apply (Permutation_in _ HP) in Ha.
      simpl in Ha. unfold tie in Ha. simpl.
      intuition congruence.
    + intros Hk.
      assert (exists s, In (k, s) (map tie (associationsOf db id))) as (s & Hs).
      { destruct Hk as [<-|[<-|[]]].
        - exists s11. apply (Permutation_in _ (Permutation_sym HP)). now left.
        - exists s21. apply (Permutation_in _ (Permutation_sym HP)). simpl. auto. }
      apply in_map_iff in Hs as (a & E & Ha). exists a. split; [exact Ha|].
      unfold tie in E. congruence.
  - intros k Hk.
    assert (exists s1 s2,
               s1 <> s2
               /\ Permutation
                    (map tie (filter (fun a => Assoc.componentId a =? k)
                                     (associationsOf db id)))
                    [(k, s1); (k, s2)]) as (s1 & s2 & Hs & HPk).
    { assert ((c1 =? c2) = false) as E12 by now apply Z.eqb_neq.
      assert ((c2 =? c1) = false) as E21 by (apply Z.eqb_neq; congruence).
      pose proof (filter_Permutation (fun t => fst t =? k) _ _ HP) as HF.
      rewrite filter_map_swap in HF. simpl in HF.
      destruct Hk as [<-|[<-|[]]]; rewrite ?Z.eqb_refl, ?E12, ?E21 in HF; eauto. }
    split.
    + rewrite <- (length_map tie). now rewrite (Permutation_length HPk).
    + apply (Permutation_map snd) in HPk. rewrite map_map in HPk. simpl in HPk.
      apply (Permutation_NoDup (Permutation_sym HPk)).
      repeat constructor; simpl; intuition.
Qed.

Lemma NoDup_map_JNum (l : list Z) : NoDup l -> NoDup (map JNum l).
Proof.
  induction 1 as [|x l Hx _ IH]; simpl; constructor; [|exact IH].
  intros H. apply in_map_iff in H as (y & [= ->] & Hy). contradiction.
Qed.

Lemma getEquipment_referenced (db : Db) (a : Assoc.t) :
  Integrity db -> In a (equipmentComponentSpareParts db) ->
  exists e, Storage.getEquipment db (Assoc.equipmentId a)
            = Some (obj_of_equipment e).
Proof.
  intros I Ha. destruct (association_refs db I a Ha) as (He & _).
  destruct (refers_one _ _ _ (equipment_key db I) He) as (e & _ & _ & Fe).
  exists e. unfold Storage.getEquipment.
  rewrite (filter_ext _ (fun y => Assoc.equipmentId a =? Equipment.equipmentId y)),
    Fe; [reflexivity|]. intros y. apply Z.eqb_sym.
Qed.

(** C4, as the code has it: for an equipment with exactly two distinct
    components, each tied to exactly two distinct spare parts, whose
    association rows are exactly four, one for each of the four ties, and
    none of whose spare parts has more than one supplier row, the hierarchy
    has exactly two component children with exactly two spare-part children
    each, and every spare-part node stands for one association row of the
    equipment: it carries that row's quantity and the importance level of
    the row's component; the nodes of one level have different ids. *)
Theorem hierarchy_two_by_two (db : Db) (id : Z) :
  integrity db = true -> id <> 0 ->
  two_by_two db id -> single_supplier db id ->
  exists root,
    Routes.hierarchy_equipment db id = mkResponse 200 (BTree root)
    /\ List.length (node_children root) = 2%nat
    /\ NoDup (map node_id (node_children root))
    /\ forall c, In c (node_children root) ->
         List.length (node_children c) = 2%nat
         /\ NoDup (map node_id (node_children c))
         /\ forall n, In n (node_children c) ->
              exists a component,
                In a (associationsOf db id)
                /\ In component (components db)
                /\ Component.componentId component = Assoc.componentId a
                /\ node_id c = JNum (Assoc.componentId a)
                /\ node_id n = JNum (Assoc.sparePartId a)
                /\ prop (node_data n) "quantity" = jnum_opt (Assoc.quantity a)
                /\ prop (node_data n) "importanceLevel"
                   = JStr (importance_label (Component.importanceLevel component)).
Proof.
  intros Hi Hid Htwo Hsingle. apply integrity_Integrity in Hi.
  set (A := associationsOf db id) in *.
  assert (forall a, In a A -> In a (equipmentComponentSpareParts db)
                               /\ Assoc.equipmentId a = id) as HA.
  { intros a Ha. apply filter_In in Ha as [Ha E]. apply Z.eqb_eq in E. auto. }
  set (rows := orderBy Storage.associationOrder (flat_map (rowsOf db) A)).
  assert (forall r, In r rows ->
            In (rowAssoc r) A /\ resolved db r
            /\ In (rowComponent r) (components db)
            /\ Component.componentId (rowComponent r) = cidOf r
            /\ SparePart.sparePartId (rowSparePart r)
               = Assoc.sparePartId (rowAssoc r)) as Hrows.
  { intros r Hr. apply orderBy_In in Hr. apply in_flat_map in Hr as (a & Ha & Hr).
    destruct (rowsOf_single db a Hi (proj1 (HA a Ha)) (Hsingle a Ha))
      as (r0 & E & <- & Hres & Hc & Kc & Ks).
    rewrite E in Hr. destruct Hr as [<-|[]]. auto. }
  assert (Permutation (map rowAssoc rows) A) as Hperm.
  { transitivity (map rowAssoc (flat_map (rowsOf db) A)).
    - apply Permutation_map, orderBy_Permutation.
    - rewrite (flat_map_single (rowsOf db) rowAssoc A); [reflexivity|].
      intros a Ha.
      destruct (rowsOf_single db a Hi (proj1 (HA a Ha)) (Hsingle a Ha))
        as (r0 & E & Er & _). eauto. }
  destruct (two_by_two_counts db id Htwo) as (c1 & c2 & Hc12 & Hkeys & Hcount).
  fold A in Hkeys, Hcount.
  destruct (group_fold_groupOf db rows [] []) as (ks & Hnd & Hks & Hfold).
  { intros r Hr. apply (Hrows r Hr). }
  { constructor. }
  { intros x []. }
  simpl in Hfold.
  assert (forall k, In k ks <-> In k [c1; c2]) as Hks'.
  { intros k. rewrite Hks, <- Hkeys. split.
    - intros [[]|(r & Hr & E)]. exists (rowAssoc r). split; [|exact E].
      apply (Hrows r Hr).
    - intros (a & Ha & E). right.
      apply (Permutation_in _ (Permutation_sym Hperm)) in Ha.
      apply in_map_iff in Ha as (r & <- & Hr). now exists r. }
  assert (List.length ks = 2%nat) as Hlen.
  { apply (Permutation_length (l' := [c1; c2])).
    apply NoDup_Permutation; [exact Hnd| |exact Hks'].
    repeat constructor; simpl; intuition. }
  assert (exists a0, In a0 A) as (a0 & Ha0).
  { destruct (proj2 (Hkeys c1) (or_introl eq_refl)) as (a & Ha & _). eauto. }
  destruct (getEquipment_referenced db a0 Hi (proj1 (HA a0 Ha0))) as (e & He).
  rewrite (proj2 (HA a0 Ha0)) in He.
  eexists. split.
  { unfold Routes.hierarchy_equipment, Storage.getAssociations.
    rewrite He, (associationRows_of_equipment db id Hid). fold A. fold rows.
    unfold bind. rewrite Hfold. reflexivity. }
  split; [simpl; now rewrite !length_map|].
  split.
  { simpl. rewrite !map_map. simpl. rewrite <- (map_map (fun k => k) JNum).
    rewrite map_id. now apply NoDup_map_JNum. }
  intros c Hc. simpl in Hc.
  apply in_map_iff in Hc as (g & <- & Hg).
  apply in_map_iff in Hg as (k & <- & Hk).
  unfold groupOf, Routes.componentNode. simpl node_children.
  split; [|split].
  - rewrite !length_map. unfold cidOf.
    rewrite (count_by_assoc (fun a => Assoc.componentId a =? k) rows A Hperm).
    apply (Hcount k), Hks', Hk.
  - rewrite !map_map.
    rewrite (map_ext_in _ (fun r => JNum (Assoc.sparePartId (rowAssoc r)))).
    2:{ intros r Hr. apply filter_In in Hr as [Hr _].
        destruct (Hrows r Hr) as (_ & _ & _ & _ & Ks).
        destruct r as [[[[a e'] c] s] u]. simpl in *. now rewrite Ks. }
    rewrite <- (map_map rowAssoc (fun a => JNum (Assoc.sparePartId a))).
    rewrite <- (map_map Assoc.sparePartId JNum).
    apply NoDup_map_JNum.
    apply (Permutation_NoDup (l := map Assoc.sparePartId
                                     (filter (fun a => Assoc.componentId a =? k) A))).
    + apply Permutation_map. unfold cidOf.
      rewrite <- (filter_map_swap (fun a => Assoc.componentId a =? k) rowAssoc).
      apply Permutation_sym, filter_Permutation, Hperm.
    + apply (Hcount k), Hks', Hk.
  - intros n Hn. apply in_map_iff in Hn as (en & <- & Hn).
    apply in_map_iff in Hn as (r & <- & Hr).
    apply filter_In in Hr as [Hr Ek]. apply Z.eqb_eq in Ek.
    destruct (Hrows r Hr) as (Ha & _ & Hcomp & Kc & Ks).
    exists (rowAssoc r), (rowComponent r).
    split; [exact Ha|]. split; [exact Hcomp|]. split; [exact Kc|].
    split; [simpl; now rewrite <- Ek|].
    destruct r as [[[[a e'] c] s] u]. simpl in *.
    split; [now rewrite Ks|]. split; reflexivity.
Qed.

Lemma two_by_two_plant : two_by_two Sample.plant 1.
Proof.
  exists 10, 11, 100, 101, 102, 103. repeat split; try discriminate.
  apply Permutation_refl.
Qed.

Lemma hierarchy_two_by_two_witness :
  exists root,
    Routes.hierarchy_equipment Sample.plant 1 = mkResponse 200 (BTree root)
    /\ List.length (node_children root) = 2%nat
    /\ forall c, In c (node_children root) ->
         List.length (node_children c) = 2%nat.
Proof.
  destruct (hierarchy_two_by_two Sample.plant 1 eq_refl ltac:(discriminate)
              two_by_two_plant) as (root & E & L & _ & H).
  - intros a Ha. simpl in Ha.
    repeat (destruct Ha as [<-|Ha]; [vm_compute; lia|]). contradiction.
  - exists root. split; [exact E|]. split; [exact L|].
    intros c Hc. apply (H c Hc).
Defined.

(** C4 as stated fails: in the plant where the seal has two suppliers the
    equipment still has two components with two spare parts each, and the
    pump node of its hierarchy has three spare-part children. *)
Lemma hierarchy_two_by_two_counterexample :
  integrity Sample.plant2 = true
  /\ two_by_two Sample.plant2 1
  /\ exists root c,
      Routes.hierarchy_equipment Sample.plant2 1 = mkResponse 200 (BTree root)
      /\ In c (node_children root)
      /\ node_id c = JNum 10
      /\ List.length (node_children c) = 3%nat.
Proof.
  split; [reflexivity|]. split.
  - exists 10, 11, 100, 101, 102, 103. repeat split; try discriminate.
    apply Permutation_refl.
  - do 2 eexists. split; [vm_compute; reflexivity|].
    split; [left; reflexivity|]. split; reflexivity.
Qed.

(* ================================================================== *)
(** ** Bases: create, update, delete, look up *)

Lemma with_bases_same (db : Db) : with_bases db (bases db) = db.
Proof. now destruct db. Qed.

Lemma getBase_found (db : Db) (b : Base.t) :
  NoDup (map Base.baseId (bases db)) -> In b (bases db) ->
  Storage.getBase db (Base.baseId b) = Some (obj_of_base b).
Proof.
  intros Hnd Hin. unfold Storage.getBase.
  now rewrite (filter_by_key Base.baseId _ b Hnd Hin).
Qed.

Lemma getBase_missing (db : Db) (id : Z) :
  (forall b, In b (bases db) -> Base.baseId b <> id) ->
  Storage.getBase db id = None.
Proof.
  intros H. unfold Storage.getBase.
  now rewrite (existsb_false_filter _ _ (fresh_existsb Base.baseId _ id H)).
Qed.

(** X1: POST /api/bases.  A body without a text [baseName] is answered 400
    and changes nothing.  A valid body, when the next key of the sequence is
    not in use, is answered 201 with the new row, which GET /api/bases/:id
    then returns under that key; every other id answers as before. *)
Theorem post_base_then_get (st : Store) (now : Z) (body : obj) :
  (Handlers.insertBaseSchema_parse body = None ->
   Handlers.post_bases st now body = (st, handleZodError))
  /\ (forall name,
        prop body "baseName" = JStr name ->
        (forall b, In b (bases (fst st)) -> Base.baseId b <> baseSeq (snd st)) ->
        exists st' o,
          Handlers.post_bases st now body = (st', mkResponse 201 (BObject o))
          /\ prop o "baseId" = JNum (baseSeq (snd st))
          /\ prop o "baseName" = JStr name
          /\ Handlers.get_base (fst st') (baseSeq (snd st))
             = mkResponse 200 (BObject o)
          /\ forall id, id <> baseSeq (snd st) ->
               Handlers.get_base (fst st') id = Handlers.get_base (fst st) id).
Proof.
  split.
  - intros H. unfold Handlers.post_bases. now rewrite H.
  - intros name Hname Hfresh. destruct st as [db seqs]. simpl in *.
    unfold Handlers.post_bases, Handlers.insertBaseSchema_parse.
    rewrite Hname. simpl. unfold Crud.createBase.
    rewrite (fresh_existsb Base.baseId _ _ Hfresh). simpl.
    do 2 eexists. split; [reflexivity|].
    split; [reflexivity|]. split; [reflexivity|]. split.
    + unfold Handlers.get_base, Storage.getBase. simpl.
      rewrite filter_snoc. simpl. rewrite Z.eqb_refl.
      now rewrite (existsb_false_filter _ _ (fresh_existsb Base.baseId _ _ Hfresh)).
    + intros id Hid. unfold Handlers.get_base, Storage.getBase. simpl.
      rewrite filter_snoc. simpl.
      destruct (Z.eqb_spec (baseSeq seqs) id) as [E|_]; [congruence|].
      now rewrite app_nil_r.
Qed.

Lemma post_base_then_get_witness :
  exists st' o,
    Handlers.post_bases (Sample.plant, mkSerials 2 2 2 4) 3000
      [("baseName", JStr "South plant")]
    = (st', mkResponse 201 (BObject o))
    /\ prop o "baseId" = JNum 2
    /\ Handlers.get_base (fst st') 2 = mkResponse 200 (BObject o).
Proof.
  destruct (proj2 (post_base_then_get (Sample.plant, mkSerials 2 2 2 4) 3000
                     [("baseName", JStr "South plant")])
                  "South plant" eq_refl)
    as (st' & o & E & Hid & _ & Hget & _).
  - simpl. intros b [<-|[]]. discriminate.
  - exists st', o. auto.
Defined.

(** X2: PUT /api/bases/:id with a valid body.  When no base has the id,
    an id in the range of the integer type, the answer is 404 and the table
    is unchanged; when one has (keys being distinct) the answer is 200 with
    that row under its new name, its key and timestamps untouched, GET
    returns the same object afterwards, and every other id answers as
    before. *)
Theorem put_base_updates (db : Db) (id : Z) (body : obj) (name : string) :
  prop body "baseName" = JStr name ->
  (int4 id = true ->
   (forall b, In b (bases db) -> Base.baseId b <> id) ->
   Handlers.put_base db id body = (db, mkResponse 404 (BError "Base not found")))
  /\ (forall b,
        NoDup (map Base.baseId (bases db)) -> In b (bases db) ->
        Base.baseId b = id ->
        let updated := Base.mk id name (Base.createdAt b) (Base.updatedAt b) in
        exists db',
          Handlers.put_base db id body
          = (db', mkResponse 200 (BObject (obj_of_base updated)))
          /\ Handlers.get_base db' id
             = mkResponse 200 (BObject (obj_of_base updated))
          /\ forall id', id' <> id ->
               Handlers.get_base db' id' = Handlers.get_base db id').
Proof.
  intros Hname.
  unfold Handlers.put_base, Handlers.insertBaseSchema_parse.
  rewrite Hname. simpl. split.
  - intros _ Hmiss. unfold Crud.updateBase.
    rewrite (map_untouched Base.baseId _ id (bases db) Hmiss).
    rewrite (existsb_false_filter _ _ (fresh_existsb Base.baseId _ id Hmiss)).
    simpl. now rewrite with_bases_same.
  - intros b Hnd Hin Hid. subst id.
    set (id := Base.baseId b).
    set (updated := Base.mk id name (Base.createdAt b) (Base.updatedAt b)).
    unfold Crud.updateBase.
    set (f := fun y : Base.t =>
                Base.mk (Base.baseId y) name (Base.createdAt y) (Base.updatedAt y)).
    assert (forall y, Base.baseId (f y) = Base.baseId y) as Hkey by reflexivity.
    assert (filter (fun y => Base.baseId y =? id)
                   (map (fun y => if Base.baseId y =? id then f y else y) (bases db))
            = [updated]) as Hhit.
    { rewrite (filter_map_same Base.baseId f id _ Hkey).
      unfold id. rewrite (filter_by_key Base.baseId _ b Hnd Hin).
      reflexivity. }
    eexists. split; [|split].
    + change (fun b0 : Base.t =>
                if Base.baseId b0 =? id
                then Base.mk (Base.baseId b0) name (Base.createdAt b0)
                             (Base.updatedAt b0)
                else b0)
        with (fun y : Base.t => if Base.baseId y =? id then f y else y).
      rewrite Hhit. reflexivity.
    + unfold Handlers.get_base, Storage.getBase. simpl.
      change (fun b0 : Base.t =>
                if Base.baseId b0 =? id
                then Base.mk (Base.baseId b0) name (Base.createdAt b0)
                             (Base.updatedAt b0)
                else b0)
        with (fun y : Base.t => if Base.baseId y =? id then f y else y).
      now rewrite Hhit.
    + intros id' Hne. unfold Handlers.get_base, Storage.getBase. simpl.
      change (fun b0 : Base.t =>
                if Base.baseId b0 =? id
                then Base.mk (Base.baseId b0) name (Base.createdAt b0)
                             (Base.updatedAt b0)
                else b0)
        with (fun y : Base.t => if Base.baseId y =? id then f y else y).
      now rewrite (filter_map_other Base.baseId f id id' _ Hkey Hne).
Qed.

Lemma put_base_updates_witness :
  Handlers.put_base Sample.plant 7 [("baseName", JStr "East plant")]
  = (Sample.plant, mkResponse 404 (BError "Base not found"))
  /\ exists db',
      Handlers.put_base Sample.plant 1 [("baseName", JStr "East plant")]
      = (db', mkResponse 200
                (BObject (obj_of_base (Base.mk 1 "East plant" (Some 1000) (Some 1000)))))
      /\ Handlers.get_base db' 1
         = mkResponse 200
             (BObject (obj_of_base (Base.mk 1 "East plant" (Some 1000) (Some 1000)))).
Proof.
  split.
  - apply (proj1 (put_base_updates Sample.plant 7
                    [("baseName", JStr "East plant")] "East plant" eq_refl)).
    + reflexivity.
    + simpl. intros b [<-|[]]. discriminate.
  - destruct (proj2 (put_base_updates Sample.plant 1
                       [("baseName", JStr "East plant")] "East plant" eq_refl)
                    Sample.base1) as (db' & E & G & _).
    + simpl. repeat constructor. simpl. tauto.
    + simpl. auto.
    + reflexivity.
    + exists db'. auto.
Defined.

Lemma delete_base_refused (db : Db) (id : Z) (b : Base.t) (w : Workshop.t) :
  In b (bases db) -> In w (workshops db) ->
  Base.baseId b = id -> Workshop.baseId w = id ->
  Routes.delete_base db id
  = (db, mkResponse 500 (BInternal "violates foreign key constraint")).
Proof.
  intros Hb Hw Eb Ew. unfold Routes.delete_base, Storage.deleteBase.
  assert (existsb
            (fun w0 =>
               existsb (fun b0 => Workshop.baseId w0 =? Base.baseId b0)
                       (filter (fun b0 => Base.baseId b0 =? id) (bases db)))
            (workshops db) = true) as ->; [|reflexivity].
  apply existsb_exists. exists w. split; [exact Hw|].
  apply existsb_exists. exists b. split.
  - apply filter_In. split; [exact Hb|]. now apply Z.eqb_eq.
  - apply Z.eqb_eq. congruence.
Qed.

Lemma delete_base_done (db : Db) (id : Z) :
  (forall w, In w (workshops db) -> Workshop.baseId w <> id) ->
  Routes.delete_base db id
  = (with_bases db (filter (fun b => negb (Base.baseId b =? id)) (bases db)),
     mkResponse 200 BSuccess).
Proof.
  intros H. unfold Routes.delete_base, Storage.deleteBase.
  assert (existsb
            (fun w0 =>
               existsb (fun b0 => Workshop.baseId w0 =? Base.baseId b0)
                       (filter (fun b0 => Base.baseId b0 =? id) (bases db)))
            (workshops db) = false) as ->; [|reflexivity].
  apply not_true_is_false. intros E.
  apply existsb_exists in E as (w & Hw & E).
  apply existsb_exists in E as (b & Hb & E).
  apply filter_In in Hb as [_ Hb]. apply Z.eqb_eq in Hb, E.
  apply (H w Hw). congruence.
Qed.

Lemma get_base_after_delete (db : Db) (id id' : Z) :
  Handlers.get_base
    (with_bases db (filter (fun b => negb (Base.baseId b =? id)) (bases db))) id'
  = if id' =? id then mkResponse 404 (BError "Base not found")
    else Handlers.get_base db id'.
Proof.
  unfold Handlers.get_base, Storage.getBase. simpl.
  destruct (Z.eqb_spec id' id) as [->|Hne].
  - rewrite filter_none; [reflexivity|].
    intros b Hb. apply filter_In in Hb as [_ Hb].
    now destruct (Base.baseId b =? id).
  - rewrite filter_filter_swap.
    rewrite (filter_all (fun b => negb (Base.baseId b =? id))); [reflexivity|].
    intros b Hb. apply filter_In in Hb as [_ Hb]. apply Z.eqb_eq in Hb.
    apply negb_true_iff, Z.eqb_neq. congruence.
Qed.

(** X3: DELETE /api/bases/:id.  While a workshop still references the base
    the request fails with 500 and nothing is deleted; when no workshop
    references the id, an id in the range of the integer type, the answer is
    200, GET /api/bases/:id then answers 404 for it, and every other base
    answers as before. *)
Theorem delete_base_guarded_by_workshops (db : Db) (id : Z) :
  (forall b w,
      In b (bases db) -> In w (workshops db) ->
      Base.baseId b = id -> Workshop.baseId w = id ->
      Routes.delete_base db id
      = (db, mkResponse 500 (BInternal "violates foreign key constraint")))
  /\ (int4 id = true ->
      (forall w, In w (workshops db) -> Workshop.baseId w <> id) ->
      exists db',
        Routes.delete_base db id = (db', mkResponse 200 BSuccess)
        /\ Handlers.get_base db' id = mkResponse 404 (BError "Base not found")
        /\ workshops db' = workshops db
        /\ forall id', id' <> id ->
             Handlers.get_base db' id' = Handlers.get_base db id').
Proof.
  split.
  - intros b w. apply delete_base_refused.
  - intros _ H. eexists. split; [now apply delete_base_done|].
    split; [|split].
    + now rewrite get_base_after_delete, Z.eqb_refl.
    + reflexivity.
    + intros id' Hne. rewrite get_base_after_delete.
      now destruct (Z.eqb_spec id' id).
Qed.

Lemma delete_base_guarded_by_workshops_witness :
  Routes.delete_base Sample.plant 1
  = (Sample.plant, mkResponse 500 (BInternal "violates foreign key constraint"))
  /\ exists db',
      Routes.delete_base (with_bases Sample.emptyDb [Sample.base1]) 1
      = (db', mkResponse 200 BSuccess)
      /\ Handlers.get_base db' 1 = mkResponse 404 (BError "Base not found").
Proof.
  split.
  - apply (proj1 (delete_base_guarded_by_workshops Sample.plant 1)
                 Sample.base1 Sample.workshop1); simpl; auto.
  - destruct (proj2 (delete_base_guarded_by_workshops
                       (with_bases Sample.emptyDb [Sample.base1]) 1))
      as (db' & E & G & _).
    + reflexivity.
    + intros w [].
    + exists db'. auto.
Defined.

Lemma delete_workshop_done (db : Db) (id : Z) :
  (forall e, In e (equipment db) -> Equipment.workshopId e <> id) ->
  Handlers.delete_workshop db id
  = (with_workshops db
       (filter (fun w => negb (Workshop.workshopId w =? id)) (workshops db)),
     mkResponse 200 BSuccess).
Proof.
  intros H. unfold Handlers.delete_workshop, Crud.deleteWorkshop.
  assert (existsb
            (fun e =>
               existsb (fun w => Equipment.workshopId e =? Workshop.workshopId w)
                       (filter (fun w => Workshop.workshopId w =? id) (workshops db)))
            (equipment db) = false) as ->; [|reflexivity].
  apply not_true_is_false. intros E.
  apply existsb_exists in E as (e & He & E).
  apply existsb_exists in E as (w & Hw & E).
  apply filter_In in Hw as [_ Hw]. apply Z.eqb_eq in Hw, E.
  apply (H e He). congruence.
Qed.

(** X4: a base whose only workshop [wid] holds no equipment cannot be
    deleted at first (500, nothing changes); after DELETE
    /api/workshops/wid, which answers 200, DELETE of the base answers 200
    and the base is gone. *)
Theorem delete_workshop_then_base
        (db : Db) (bid wid : Z) (b : Base.t) (w : Workshop.t) :
  In b (bases db) -> Base.baseId b = bid ->
  In w (workshops db) -> Workshop.workshopId w = wid -> Workshop.baseId w = bid ->
  (forall w', In w' (workshops db) -> Workshop.baseId w' = bid ->
              Workshop.workshopId w' = wid) ->
  (forall e, In e (equipment db) -> Equipment.workshopId e <> wid) ->
  Routes.delete_base db bid
  = (db, mkResponse 500 (BInternal "violates foreign key constraint"))
  /\ exists db1 db2,
      Handlers.delete_workshop db wid = (db1, mkResponse 200 BSuccess)
      /\ Routes.delete_base db1 bid = (db2, mkResponse 200 BSuccess)
      /\ Handlers.get_base db2 bid = mkResponse 404 (BError "Base not found").
Proof.
  intros Hb Eb Hw Ew Ewb Honly Hempty. split.
  - now apply (delete_base_refused db bid b w).
  - do 2 eexists. split; [now apply delete_workshop_done|].
    assert (forall w',
               In w' (filter (fun w0 => negb (Workshop.workshopId w0 =? wid))
                             (workshops db)) ->
               Workshop.baseId w' <> bid) as Hfree.
    { intros w' Hw' E. apply filter_In in Hw' as [Hin Hne].
      apply negb_true_iff, Z.eqb_neq in Hne. apply Hne. now apply Honly. }
    split; [apply delete_base_done; exact Hfree|].
    now rewrite get_base_after_delete, Z.eqb_refl.
Qed.

Lemma delete_workshop_then_base_witness :
  Routes.delete_base (with_equipment Sample.plant []) 1
  = (with_equipment Sample.plant [],
     mkResponse 500 (BInternal "violates foreign key constraint"))
  /\ exists db1 db2,
      Handlers.delete_workshop (with_equipment Sample.plant []) 1
      = (db1, mkResponse 200 BSuccess)
      /\ Routes.delete_base db1 1 = (db2, mkResponse 200 BSuccess)
      /\ Handlers.get_base db2 1 = mkResponse 404 (BError "Base not found").
Proof.
  apply (delete_workshop_then_base (with_equipment Sample.plant []) 1 1
           Sample.base1 Sample.workshop1); simpl; auto.
  intros w' [<-|[]] _. reflexivity.
Defined.

(* ================================================================== *)
(** ** Spare parts: create, update, look up *)

Lemma filter_by_text {A : Type} (key : A -> string) (l : list A) (x : A) :
  NoDup (map key l) -> In x l ->
  filter (fun y => String.eqb (key y) (key x)) l = [x].
Proof.
  induction l as [|a l IH]; simpl; intros Hnd Hin; [contradiction|].
  inversion Hnd as [|? ? Hnot Hnd']; subst.
  destruct Hin as [->|Hin].
  - rewrite String.eqb_refl. f_equal. apply filter_none.
    intros y Hy. apply String.eqb_neq. intros E. apply Hnot.
    rewrite <- E. now apply in_map.
  - destruct (String.eqb_spec (key a) (key x)) as [E|_]; [|now apply IH].
    exfalso. apply Hnot. rewrite E. now apply in_map.
Qed.

Lemma with_spareParts_same (db : Db) :
  with_spareParts db (spareParts db) (sparePartSeq db) = db.
Proof. now destruct db. Qed.

Lemma post_spare_part_fresh (db : Db) (now : Z) (body : obj)
      (data : InsertSparePart.t) :
  Routes.insertSparePartSchema_parse body = Some data ->
  ~ In (InsertSparePart.materialCode data)
       (map SparePart.materialCode (spareParts db)) ->
  (forall s, In s (spareParts db) -> SparePart.sparePartId s <> sparePartSeq db) ->
  Routes.post_spare_parts db now body
  = (with_spareParts db (spareParts db ++ [createdSparePart db now data])
                     (sparePartSeq db + 1),
     mkResponse 201 (BObject (obj_of_sparePart (createdSparePart db now data)))).
Proof.
  intros P Hout Hfresh. unfold Routes.post_spare_parts. rewrite P.
  destruct (byMaterialCode_missing db _ Hout) as [-> Hex].
  unfold Storage.createSparePart. cbv zeta.
  now rewrite Hex, (fresh_existsb SparePart.sparePartId _ _ Hfresh).
Qed.

(** X5: posting the same valid spare part twice.  When the material code is
    new and the key the sequence hands out is not in use, the first POST is
    answered 201 and the second 400; the second changes nothing, and the
    table holds exactly one row with that code. *)
Theorem post_spare_part_twice (db : Db) (now now' : Z) (body : obj)
        (data : InsertSparePart.t) :
  Routes.insertSparePartSchema_parse body = Some data ->
  ~ In (InsertSparePart.materialCode data)
       (map SparePart.materialCode (spareParts db)) ->
  (forall s, In s (spareParts db) -> SparePart.sparePartId s <> sparePartSeq db) ->
  exists db1 o,
    Routes.post_spare_parts db now body = (db1, mkResponse 201 (BObject o))
    /\ Routes.post_spare_parts db1 now' body
       = (db1, mkResponse 400 (BError "Material code already exists"))
    /\ List.length
         (filter (fun s => String.eqb (SparePart.materialCode s)
                                      (InsertSparePart.materialCode data))
                 (spareParts db1)) = 1%nat.
Proof.
  intros P Hout Hfresh. do 2 eexists.
  split; [apply (post_spare_part_fresh db now body data P Hout Hfresh)|]. split.
  - unfold Routes.post_spare_parts. rewrite P.
    destruct (byMaterialCode_found
                (with_spareParts db
                   (spareParts db ++ [createdSparePart db now data])
                   (sparePartSeq db + 1))
                (InsertSparePart.materialCode data)) as [o ->]; [|reflexivity].
    simpl. rewrite map_app, in_app_iff. right. now left.
  - simpl. rewrite filter_snoc. simpl. rewrite String.eqb_refl.
    destruct (byMaterialCode_missing db _ Hout) as [_ Hex].
    rewrite (existsb_false_filter _ _ Hex). reflexivity.
Qed.

Lemma post_spare_part_twice_witness :
  exists db1 o,
    Routes.post_spare_parts Sample.plant 2000
      [("materialCode", JStr "M-900"); ("manufacturer", JStr "Acme")]
    = (db1, mkResponse 201 (BObject o))
    /\ Routes.post_spare_parts db1 2001
         [("materialCode", JStr "M-900"); ("manufacturer", JStr "Acme")]
       = (db1, mkResponse 400 (BError "Material code already exists"))
    /\ List.length
         (filter (fun s => String.eqb (SparePart.materialCode s) "M-900")
                 (spareParts db1)) = 1%nat.
Proof.
  apply (post_spare_part_twice Sample.plant 2000 2001
           [("materialCode", JStr "M-900"); ("manufacturer", JStr "Acme")]
           (InsertSparePart.mk "M-900" "Acme" Absent Absent Absent Absent)
           eq_refl).
  - simpl. intros H. repeat (destruct H as [H|H]; [discriminate|]). exact H.
  - simpl. intros s H.
    repeat (destruct H as [<-|H]; [discriminate|]). contradiction.
Defined.

(** X6: a spare part just created is found again.  After a 201 answer, when
    the key taken from the sequence was not in use, GET /api/spare-parts/:id
    under that key and the lookup by material code both return the object of
    the answer; a body without [isCustom] is stored as not custom. *)
Theorem post_spare_part_then_get (db : Db) (now : Z) (body : obj)
        (data : InsertSparePart.t) :
  Routes.insertSparePartSchema_parse body = Some data ->
  ~ In (InsertSparePart.materialCode data)
       (map SparePart.materialCode (spareParts db)) ->
  (forall s, In s (spareParts db) -> SparePart.sparePartId s <> sparePartSeq db) ->
  exists db1 o,
    Routes.post_spare_parts db now body = (db1, mkResponse 201 (BObject o))
    /\ prop o "sparePartId" = JNum (sparePartSeq db)
    /\ Handlers.get_spare_part db1 (sparePartSeq db) = mkResponse 200 (BObject o)
    /\ Storage.getSparePartByMaterialCode db1 (InsertSparePart.materialCode data)
       = Some o
    /\ (InsertSparePart.isCustom data = Absent -> prop o "isCustom" = JBool false).
Proof.
  intros P Hout Hfresh. do 2 eexists.
  split; [apply (post_spare_part_fresh db now body data P Hout Hfresh)|].
  split; [reflexivity|]. split; [|split].
  - unfold Handlers.get_spare_part, Storage.getSparePart. simpl.
    rewrite filter_snoc. simpl. rewrite Z.eqb_refl.
    now rewrite (existsb_false_filter _ _
                   (fresh_existsb SparePart.sparePartId _ _ Hfresh)).
  - unfold Storage.getSparePartByMaterialCode. simpl.
    rewrite filter_snoc. simpl. rewrite String.eqb_refl.
    destruct (byMaterialCode_missing db _ Hout) as [_ Hex].
    now rewrite (existsb_false_filter _ _ Hex).
  - intros E. simpl. now rewrite E.
Qed.

Lemma post_spare_part_then_get_witness :
  exists db1 o,
    Routes.post_spare_parts Sample.plant 2000
      [("materialCode", JStr "M-900"); ("manufacturer", JStr "Acme")]
    = (db1, mkResponse 201 (BObject o))
    /\ prop o "sparePartId" = JNum 104
    /\ Handlers.get_spare_part db1 104 = mkResponse 200 (BObject o)
    /\ prop o "isCustom" = JBool false.
Proof.
  destruct (post_spare_part_then_get Sample.plant 2000
              [("materialCode", JStr "M-900"); ("manufacturer", JStr "Acme")]
              (InsertSparePart.mk "M-900" "Acme" Absent Absent Absent Absent)
              eq_refl) as (db1 & o & E & Hid & G & _ & C).
  - simpl. intros H. repeat (destruct H as [H|H]; [discriminate|]). exact H.
  - simpl. intros s H.
    repeat (destruct H as [<-|H]; [discriminate|]). contradiction.
  - exists db1, o. repeat split; auto.
Defined.

(** X7: PUT /api/spare-parts/:id with a valid body, in a table whose
    material codes and keys are distinct.  A code that belongs to a spare
    part with another id is refused with 400 and nothing changes.  For an
    existing id whose new code is its own or unused, the answer is 200 with
    the row rewritten from the body: key and timestamps are kept, and an
    optional field left out of the body keeps its stored value; GET then
    returns that object.  For an id that no row has, an id in the range of
    the integer type, with an unused code, the answer is 404 and nothing
    changes. *)
Theorem put_spare_part_cases (db : Db) (id : Z) (body : obj)
        (data : InsertSparePart.t) :
  Routes.insertSparePartSchema_parse body = Some data ->
  NoDup (map SparePart.materialCode (spareParts db)) ->
  NoDup (map SparePart.sparePartId (spareParts db)) ->
  (forall s, In s (spareParts db) ->
             SparePart.materialCode s = InsertSparePart.materialCode data ->
             SparePart.sparePartId s <> id ->
             Handlers.put_spare_part db id body
             = (db, mkResponse 400 (BError "Material code already exists")))
  /\ ((forall s, In s (spareParts db) ->
                 SparePart.materialCode s = InsertSparePart.materialCode data ->
                 SparePart.sparePartId s = id) ->
      (forall s, In s (spareParts db) -> SparePart.sparePartId s = id ->
         exists db',
           Handlers.put_spare_part db id body
           = (db', mkResponse 200
                     (BObject (obj_of_sparePart (Crud.setSparePart data s))))
           /\ Handlers.get_spare_part db' id
              = mkResponse 200
                  (BObject (obj_of_sparePart (Crud.setSparePart data s)))
           /\ SparePart.sparePartId (Crud.setSparePart data s) = id
           /\ SparePart.createdAt (Crud.setSparePart data s) = SparePart.createdAt s
           /\ SparePart.updatedAt (Crud.setSparePart data s) = SparePart.updatedAt s
           /\ (InsertSparePart.description data = Absent ->
               SparePart.description (Crud.setSparePart data s)
               = SparePart.description s))
      /\ (int4 id = true ->
          (forall s, In s (spareParts db) -> SparePart.sparePartId s <> id) ->
          Handlers.put_spare_part db id body
          = (db, mkResponse 404 (BError "Spare part not found")))).
Proof.
  intros P Hcodes Hids.
  set (code := InsertSparePart.materialCode data).
  assert (forall s, In s (spareParts db) -> SparePart.materialCode s = code ->
            Storage.getSparePartByMaterialCode db code = Some (obj_of_sparePart s))
    as Hfound.
  { intros s Hs E. unfold Storage.getSparePartByMaterialCode.
    rewrite <- E. now rewrite (filter_by_text SparePart.materialCode _ s Hcodes Hs). }
  assert ((forall s, In s (spareParts db) -> SparePart.materialCode s = code ->
                     SparePart.sparePartId s = id) ->
          Handlers.taken_by_other (Storage.getSparePartByMaterialCode db code) id
          = false
          /\ existsb (fun s => negb (SparePart.sparePartId s =? id)
                               && String.eqb (SparePart.materialCode s) code)
                     (spareParts db) = false) as Hfree.
  { intros Hown. split.
    - unfold Storage.getSparePartByMaterialCode.
      destruct (filter _ (spareParts db)) as [|s l] eqn:F; [reflexivity|].
      assert (In s (filter (fun s0 => String.eqb (SparePart.materialCode s0) code)
                           (spareParts db))) as Hs by (rewrite F; now left).
      apply filter_In in Hs as [Hs E]. apply String.eqb_eq in E.
      simpl. rewrite (Hown s Hs E). now rewrite Z.eqb_refl.
    - apply not_true_is_false. intros E.
      apply existsb_exists in E as (s & Hs & E).
      apply andb_true_iff in E as [E1 E2].
      apply negb_true_iff, Z.eqb_neq in E1. apply String.eqb_eq in E2.
      apply E1. now apply Hown. }
  split.
  - intros s Hs E Hne. unfold Handlers.put_spare_part. rewrite P.
    fold code. rewrite (Hfound s Hs E). simpl.
    apply Z.eqb_neq in Hne. now rewrite Hne.
  - intros Hown. destruct (Hfree Hown) as [Ht Hx]. split.
    + intros s Hs Eid.
      unfold Handlers.put_spare_part. rewrite P. fold code. rewrite Ht.
      unfold Crud.updateSparePart. fold code. rewrite Hx, andb_false_r.
      assert (filter (fun y => SparePart.sparePartId y =? id)
                     (map (fun y => if SparePart.sparePartId y =? id
                                    then Crud.setSparePart data y else y)
                          (spareParts db))
              = [Crud.setSparePart data s]) as Hhit.
      { rewrite (filter_map_same SparePart.sparePartId (Crud.setSparePart data) id)
          by reflexivity.
        rewrite <- Eid.
        now rewrite (filter_by_key SparePart.sparePartId _ s Hids Hs). }
      eexists. split; [now rewrite Hhit|]. split.
      * unfold Handlers.get_spare_part, Storage.getSparePart. simpl.
        now rewrite Hhit.
      * repeat split; try reflexivity; try exact Eid.
        intros E. simpl. now rewrite E.
    + intros _ Hmiss.
      unfold Handlers.put_spare_part. rewrite P. fold code. rewrite Ht.
      unfold Crud.updateSparePart. fold code. rewrite Hx, andb_false_r.
      rewrite (map_untouched SparePart.sparePartId _ id _ Hmiss).
      rewrite (existsb_false_filter _ _
                 (fresh_existsb SparePart.sparePartId _ id Hmiss)).
      simpl. now rewrite with_spareParts_same.
Qed.

Lemma put_spare_part_cases_witness :
  Handlers.put_spare_part Sample.plant 100
    [("materialCode", JStr "M-101"); ("manufacturer", JStr "Acme")]
  = (Sample.plant, mkResponse 400 (BError "Material code already exists"))
  /\ (exists db',
        Handlers.put_spare_part Sample.plant 100
          [("materialCode", JStr "M-100"); ("manufacturer", JStr "Apex")]
        = (db', mkResponse 200
                  (BObject (obj_of_sparePart
                              (SparePart.mk 100 "M-100" "Apex" None (Some "40mm")
                                 (Some "Seal ring") (Some false)
                                 (Some 1000) (Some 1000))))))
  /\ Handlers.put_spare_part Sample.plant 999
       [("materialCode", JStr "M-900"); ("manufacturer", JStr "Acme")]
     = (Sample.plant, mkResponse 404 (BError "Spare part not found")).
Proof.
  assert (NoDup (map SparePart.materialCode (spareParts Sample.plant))) as Hc.
  { simpl. repeat constructor; simpl; intuition discriminate. }
  assert (NoDup (map SparePart.sparePartId (spareParts Sample.plant))) as Hi.
  { simpl. repeat constructor; simpl; intuition discriminate. }
  split; [|split].
  - apply (proj1 (put_spare_part_cases Sample.plant 100
                    [("materialCode", JStr "M-101"); ("manufacturer", JStr "Acme")]
                    (InsertSparePart.mk "M-101" "Acme" Absent Absent Absent Absent)
                    eq_refl Hc Hi) Sample.rotor); simpl; auto. discriminate.
  - destruct (proj2 (put_spare_part_cases Sample.plant 100
                       [("materialCode", JStr "M-100"); ("manufacturer", JStr "Apex")]
                       (InsertSparePart.mk "M-100" "Apex" Absent Absent Absent Absent)
                       eq_refl Hc Hi)) as [H _].
    + simpl. intros s H E.
      repeat (destruct H as [<-|H]; [first [reflexivity|discriminate]|]).
      contradiction.
    + destruct (H Sample.seal) as (db' & E & _); simpl; auto.
      exists db'. exact E.
  - destruct (proj2 (put_spare_part_cases Sample.plant 999
                       [("materialCode", JStr "M-900"); ("manufacturer", JStr "Acme")]
                       (InsertSparePart.mk "M-900" "Acme" Absent Absent Absent Absent)
                       eq_refl Hc Hi)) as [_ H].
    + simpl. intros s H E.
      repeat (destruct H as [<-|H]; [discriminate|]). contradiction.
    + apply H; [reflexivity|]. simpl. intros s Hs.
      repeat (destruct Hs as [<-|Hs]; [discriminate|]). contradiction.
Defined.

(* ================================================================== *)
(** ** The spare part listing *)

Lemma like_plain_text (k s : string) :
  plain k = true ->
  like (Some s) (contains_pattern k) = Some true <-> occurs k s.
Proof.
  intros Hk. unfold like. split.
  - intros [= H]. now apply like_contains_plain.
  - intros H. f_equal. now apply like_contains_plain.
Qed.

Lemma like_plain_column (k : string) (col : option string) :
  plain k = true ->
  like col (contains_pattern k) = Some true <-> occurs_in k col.
Proof.
  intros Hk. destruct col as [s|].
  - rewrite (like_plain_text k s Hk). unfold occurs_in. split.
    + intros H. now exists s.
    + now intros (s' & [= <-] & H).
  - unfold occurs_in. simpl. split; [discriminate|intros (? & E & _); discriminate].
Qed.

Lemma searchCondition_plain (k : string) (s : SparePart.t) :
  plain k = true ->
  Crud.searchCondition k s = Some true <-> search_occurs k s.
Proof.
  intros Hk. unfold Crud.searchCondition, search_occurs.
  rewrite <- holds_true, holds_or_any.
  pose proof (like_plain_text k (SparePart.materialCode s) Hk) as H1.
  pose proof (like_plain_text k (SparePart.manufacturer s) Hk) as H2.
  pose proof (like_plain_column k (SparePart.specification s) Hk) as H3.
  pose proof (like_plain_column k (SparePart.description s) Hk) as H4.
  split.
  - intros (t & Ht & ->). cbn [In] in Ht.
    destruct Ht as [H|[H|[H|[H|[]]]]].
    + left. now apply H1.
    + right. left. now apply H2.
    + right. right. left. now apply H3.
    + right. right. right. now apply H4.
  - intros H. exists (Some true). split; [|reflexivity]. cbn [In].
    destruct H as [H|[H|[H|H]]].
    + left. now apply H1.
    + right. left. now apply H2.
    + right. right. left. now apply H3.
    + right. right. right. left. now apply H4.
Qed.

(** X8: the spare part listing with a search text without [%], [_] and
    backslash.  The answer lists, ordered by material code, exactly the
    spare parts in whose material code, manufacturer, specification or
    description the text occurs and, when [isCustom] is given, whose custom
    flag has that value. *)
Theorem spare_part_listing (db : Db) (search : string) (isCustom : option bool) :
  search <> "" -> plain search = true ->
  exists rows,
    Crud.getSpareParts db (Some search) isCustom = map obj_of_sparePart rows
    /\ StronglySorted
         (fun x y => String.leb (SparePart.materialCode x)
                                (SparePart.materialCode y) = true) rows
    /\ forall s, In s rows <->
                 In s (spareParts db) /\ search_occurs search s
                 /\ forall v, isCustom = Some v -> SparePart.isCustom s = Some v.
Proof.
  intros Hne Hplain. eexists. split; [reflexivity|]. split.
  - apply (orderBy_sorted
             (fun x y => text_leb (SparePart.materialCode x) (SparePart.materialCode y))).
    + intros x y. apply text_leb_total.
    + intros x y z. apply text_leb_trans.
  - intros s. rewrite orderBy_In, where_all_In.
    unfold Crud.sparePartConditions. simpl.
    destruct (String.eqb_spec search "") as [E|_]; [contradiction|].
    rewrite <- (searchCondition_plain search s Hplain). split.
    + intros [Hin Hc]. split; [exact Hin|]. split.
      * apply (Hc (Crud.searchCondition search)). now left.
      * intros v ->. simpl in Hc.
        specialize (Hc _ (or_intror (or_introl eq_refl))). simpl in Hc.
        destruct (SparePart.isCustom s) as [b|]; simpl in Hc; [|discriminate].
        injection Hc as Hc. apply eqb_prop in Hc. now subst.
    + intros (Hin & Hs & Hv). split; [exact Hin|].
      intros c [<-|Hc]; [exact Hs|].
      destruct isCustom as [v|]; [|destruct Hc].
      destruct Hc as [<-|[]]. rewrite (Hv v eq_refl). simpl.
      now rewrite eqb_reflx.
Qed.

Lemma spare_part_listing_witness :
  exists rows,
    Crud.getSpareParts Sample.plant (Some "Bolt") (Some false)
    = map obj_of_sparePart rows
    /\ (forall s, In s rows <->
                  In s (spareParts Sample.plant) /\ search_occurs "Bolt" s
                  /\ forall v, Some false = Some v -> SparePart.isCustom s = Some v)
    /\ rows = [Sample.gasket].
Proof.
  destruct (spare_part_listing Sample.plant "Bolt" (Some false)
              ltac:(discriminate) eq_refl) as (rows & E & _ & H).
  exists rows. split; [exact E|]. split; [exact H|].
  vm_compute in E.
  destruct rows as [|r [|r' rows]]; try discriminate.
  injection E as E. f_equal.
  assert (In r (spareParts Sample.plant)) as Hin by (apply H; now left).
  simpl in Hin.
  repeat (destruct Hin as [<-|Hin]; [first [reflexivity|discriminate]|]).
  contradiction.
Defined.

(** X9: the [isCustom] parameter of GET /api/spare-parts is compared with
    the text [true]: with any other text the listing holds only spare parts
    whose custom flag is false, with [true] only those whose flag is true;
    a spare part whose flag is NULL is listed in neither case. *)
Theorem spare_part_isCustom_text
        (db : Db) (search : option string) (text : string)
        (rows : list obj) (o : obj) :
  Handlers.get_spare_parts db search (Some text) = mkResponse 200 (BArray rows) ->
  In o rows ->
  prop o "isCustom" = JBool (String.eqb text "true").
Proof.
  unfold Handlers.get_spare_parts, Crud.getSpareParts. simpl.
  intros [= <-] Hin. apply in_map_iff in Hin as (s & <- & Hs).
  apply orderBy_In, where_all_In in Hs as [_ Hc].
  specialize (Hc (fun s => eq_bool (SparePart.isCustom s)
                                   (Some (String.eqb text "true")))).
  assert (eq_bool (SparePart.isCustom s) (Some (String.eqb text "true"))
          = Some true) as H.
  { apply Hc. unfold Crud.sparePartConditions. rewrite in_app_iff. right. now left. }
  simpl. destruct (SparePart.isCustom s) as [b|]; simpl in H; [|discriminate].
  injection H as H. apply eqb_prop in H. now subst.
Qed.

Lemma spare_part_isCustom_text_witness :
  exists rows o,
    Handlers.get_spare_parts Sample.plant None (Some "yes")
    = mkResponse 200 (BArray rows)
    /\ In o rows /\ List.length rows = 3%nat
    /\ prop o "isCustom" = JBool false.
Proof.
  do 2 eexists. split; [vm_compute; reflexivity|].
  split; [left; reflexivity|]. split; [reflexivity|].
  apply (spare_part_isCustom_text Sample.plant None "yes"
           (Crud.getSpareParts Sample.plant None (Some false))).
  - reflexivity.
  - vm_compute. left. reflexivity.
Defined.

(* ================================================================== *)
(** ** The equipment listing: pages, sort field, search *)

Lemma firstn_plus {A : Type} (a b : nat) (l : list A) :
  firstn (a + b) l = firstn a l ++ firstn b (skipn a l).
Proof.
  revert l. induction a as [|a IH]; intros l; [reflexivity|].
  destruct l as [|x l]; simpl.
  - now rewrite firstn_nil.
  - now rewrite IH.
Qed.

Lemma getEquipments_slice (db : Db) (p : EquipmentParams.t) (k l : Z) :
  1 <= k -> 0 <= l ->
  Storage.getEquipments db (setPage p k l)
  = Ok (firstn (Z.to_nat l)
               (skipn (Z.to_nat ((k - 1) * l)) (equipmentListing db p)),
        Z.of_nat (List.length
                    (where_all (Storage.equipmentConditions p)
                               (Storage.equipmentJoin db)))).
Proof.
  intros Hk Hl. unfold Storage.getEquipments, equipmentListing, limit_offset.
  cbn [setPage EquipmentParams.page EquipmentParams.limit
       EquipmentParams.sortBy EquipmentParams.sortOrder Routes.orDefault].
  change (Storage.equipmentConditions (setPage p k l))
    with (Storage.equipmentConditions p).
  destruct (Z.ltb_spec ((k - 1) * l) 0) as [Hneg|_]; [nia|].
  destruct (Z.leb_spec 0 l) as [_|Hneg]; [|lia].
  unfold bind. now rewrite skipn_map, firstn_map.
Qed.

Lemma pageData_slice (db : Db) (p : EquipmentParams.t) (l : Z) (k : nat) :
  0 <= l ->
  pageData db p l (S k)
  = firstn (Z.to_nat l) (skipn (k * Z.to_nat l) (equipmentListing db p)).
Proof.
  intros Hl. unfold pageData.
  rewrite (getEquipments_slice db p (Z.of_nat (S k)) l ltac:(lia) Hl).
  do 2 f_equal. nia.
Qed.

(** The pages 1, 2, ..., n of one request, put one after the other, are
    the first [n * l] rows of the listing as the model orders it. *)
Lemma pages_concat (db : Db) (p : EquipmentParams.t) (l : Z) (n : nat) :
  0 <= l ->
  List.concat (map (pageData db p l) (seq 1 n))
  = firstn (n * Z.to_nat l) (equipmentListing db p).
Proof.
  intros Hl. induction n as [|n IH]; [reflexivity|].
  rewrite seq_S, map_app, concat_app, IH. cbn [map List.concat Nat.add].
  rewrite app_nil_r, (pageData_slice db p l n Hl).
  rewrite <- firstn_plus. f_equal. lia.
Qed.

(** A list has one sorted arrangement at most when no two of its members
    compare equal. *)
Lemma sorted_unique {A : Type} (R : A -> A -> Prop) (l1 : list A) :
  forall l2,
    (forall x y, In x l1 -> In y l1 -> R x y -> R y x -> x = y) ->
    StronglySorted R l1 -> StronglySorted R l2 -> Permutation l1 l2 ->
    l1 = l2.
Proof.
  induction l1 as [|x l1 IH]; intros l2 Hanti S1 S2 HP.
  - apply Permutation_nil in HP. now subst.
  - destruct l2 as [|y l2].
    + apply Permutation_sym, Permutation_nil in HP. discriminate.
    + apply StronglySorted_inv in S1 as [S1 F1].
      apply StronglySorted_inv in S2 as [S2 F2].
      rewrite Forall_forall in F1, F2.
      assert (x = y) as <-.
      { assert (In x (y :: l2)) as Hx
            by (apply (Permutation_in _ HP); now left).
        assert (In y (x :: l1)) as Hy
            by (apply (Permutation_in _ (Permutation_sym HP)); now left).
        destruct Hx as [E|Hx]; [now subst|].
        destruct Hy as [E|Hy]; [now subst|].
        apply Hanti; [now left|now right|now apply F1|now apply F2]. }
      f_equal. apply IH.
      * intros a b Ha Hb. apply Hanti; now right.
      * exact S1.
      * exact S2.
      * now apply Permutation_cons_inv in HP.
Qed.

(** X10: paging through an equipment listing that is sorted by a field on
    which no two matching rows compare equal.  The rows then have one
    sorted order, whatever the database does with equal keys, and for a page
    size [l >= 0], with filters and offsets in the range of the integer
    type, the pages 1, 2, ..., n of one request, put one after the other,
    are the first [n * l] rows in that order; when [n * l] reaches the
    number of rows they are the whole listing, every row once. *)
Theorem listing_pages_tile
        (db : Db) (p : EquipmentParams.t) (f : string) (l : Z) (n : nat)
        (ordered : list Storage.EquipmentRow) :
  let matching :=
    where_all (Storage.equipmentConditions p) (Storage.equipmentJoin db) in
  0 <= l -> int4 (Z.of_nat n * l) = true ->
  equipment_params_in_range p = true ->
  EquipmentParams.sortBy p = Some f -> In f sortable ->
  In (EquipmentParams.sortOrder p) [None; Some "asc"; Some "desc"] ->
  tie_free f matching ->
  Permutation ordered matching ->
  StronglySorted
    (fun x y => if descendingParams p then column_le f y x else column_le f x y)
    ordered ->
  List.concat (map (pageData db p l) (seq 1 n))
  = map Storage.equipmentSelect (firstn (n * Z.to_nat l) ordered)
  /\ ((List.length ordered <= n * Z.to_nat l)%nat ->
      List.concat (map (pageData db p l) (seq 1 n))
      = map Storage.equipmentSelect ordered).
Proof.
  intros matching Hl _ _ Hf Hin Hdir Hfree HP HS.
  destruct (orderColumn_sortable f Hin) as (le & Hcol & Htot & Htrans & Hle).
  assert (String.eqb f "" = false) as Hne.
  { unfold sortable in Hin.
    repeat (destruct Hin as [<-|Hin]; [reflexivity|]). contradiction. }
  assert (equipmentListing db p = map Storage.equipmentSelect ordered) as Hlist.
  { unfold equipmentListing. rewrite Hf. cbn [Routes.orDefault].
    fold matching. f_equal. symmetry.
    unfold Storage.equipmentSort. rewrite Hne, Hcol.
    unfold descendingParams in HS.
    assert (forall R (sorted : list Storage.EquipmentRow),
               (forall x y, R x y -> R y x ->
                            column_le f x y /\ column_le f y x) ->
               Permutation sorted matching ->
               StronglySorted R ordered -> StronglySorted R sorted ->
               ordered = sorted) as Huniq.
    { intros R sorted HR HPs S1 S2.
      apply (sorted_unique R); [|exact S1|exact S2|].
      - intros x y Hx Hy Hxy Hyx. destruct (HR x y Hxy Hyx).
        apply Hfree; auto; now apply (Permutation_in _ HP).
      - now rewrite HP, HPs. }
    simpl in Hdir. destruct Hdir as [E|[E|[E|[]]]]; rewrite <- E in *;
      cbn [Routes.orDefault String.eqb Ascii.eqb Bool.eqb negb andb] in *.
    - apply (Huniq (fun x y => column_le f x y)); [tauto| |exact HS|].
      + apply orderBy_Permutation.
      + apply StronglySorted_impl with (R := fun x y => le x y = true).
        * intros x y. apply Hle.
        * now apply orderBy_sorted.
    - apply (Huniq (fun x y => column_le f x y)); [tauto| |exact HS|].
      + apply orderBy_Permutation.
      + apply StronglySorted_impl with (R := fun x y => le x y = true).
        * intros x y. apply Hle.
        * now apply orderBy_sorted.
    - apply (Huniq (fun x y => column_le f y x)); [tauto| |exact HS|].
      + apply orderBy_Permutation.
      + apply StronglySorted_impl with (R := fun x y => le y x = true).
        * intros x y. apply Hle.
        * apply orderBy_sorted; [intros x y; apply Htot|].
          intros x y z Hxy Hyz. now apply Htrans with y. }
  rewrite (pages_concat db p l n Hl), Hlist, firstn_map.
  split; [reflexivity|].
  intros Hlen. now rewrite firstn_all2.
Qed.

Lemma listing_pages_tile_witness :
  List.concat (map (pageData Sample.plant Cases.byIdAsc 2) (seq 1 2))
  = map Storage.equipmentSelect (Storage.equipmentJoin Sample.plant)
  /\ List.length (Storage.equipmentJoin Sample.plant) = 3%nat.
Proof.
  split; [|reflexivity].
  apply (listing_pages_tile Sample.plant Cases.byIdAsc "equipmentId" 2 2
           (Storage.equipmentJoin Sample.plant)).
  - lia.
  - reflexivity.
  - reflexivity.
  - reflexivity.
  - simpl. auto.
  - simpl. auto.
  - intros x y Hx Hy. simpl in Hx, Hy.
    destruct Hx as [<-|[<-|[<-|[]]]]; destruct Hy as [<-|[<-|[<-|[]]]];
      simpl; intros; first [reflexivity|lia].
  - apply Permutation_refl.
  - simpl. repeat constructor; simpl; lia.
  - simpl. lia.
Defined.

(** X11: a page number below 1 with a page size of at least 1 makes the
    offset negative; the database refuses the query and GET /api/equipment
    answers 500, whatever the tables hold. *)
Theorem listing_page_below_one (db : Db) (q : EquipmentQuery.t) (p : Z) :
  EquipmentQuery.page q = Some p -> p <= 0 ->
  1 <= Routes.orDefault (EquipmentQuery.limit q) 10 ->
  Routes.get_equipment db q
  = mkResponse 500 (BInternal "OFFSET must not be negative").
Proof.
  intros Hp Hle Hl.
  unfold Routes.get_equipment, Storage.getEquipments, limit_offset.
  cbn [Routes.equipmentParams EquipmentParams.page EquipmentParams.limit
       EquipmentParams.sortBy EquipmentParams.sortOrder].
  rewrite Hp. cbn [Routes.orDefault].
  set (l := Routes.orDefault (EquipmentQuery.limit q) 10) in *.
  destruct (Z.ltb_spec ((p - 1) * l) 0) as [_|Hge]; [reflexivity|nia].
Qed.

Lemma listing_page_below_one_witness :
  Routes.get_equipment Sample.plant
    (EquipmentQuery.mk None None None None (Some 0) None None None)
  = mkResponse 500 (BInternal "OFFSET must not be negative").
Proof.
  apply (listing_page_below_one Sample.plant
           (EquipmentQuery.mk None None None None (Some 0) None None None) 0).
  - reflexivity.
  - lia.
  - simpl. lia.
Defined.

(** X12: with [limit=0], and the numbers of the request in the range of
    the integer type, GET /api/equipment answers 200 with no rows; [total]
    still counts the matching rows, and [totalPages], the result of a
    division by 0, is sent as [null]. *)
Theorem listing_limit_zero (db : Db) (q : EquipmentQuery.t) :
  EquipmentQuery.limit q = Some 0 ->
  equipment_query_in_range q = true ->
  let matching :=
    where_all (Storage.equipmentConditions (Routes.equipmentParams q))
              (Storage.equipmentJoin db) in
  Routes.get_equipment db q
  = mkResponse 200
      (BPage [] (mkPagination (Routes.orDefault (EquipmentQuery.page q) 1) 0
                              (Z.of_nat (List.length matching)) JNull)).
Proof.
  intros Hl _ matching.
  unfold Routes.get_equipment, Storage.getEquipments, limit_offset.
  cbn [Routes.equipmentParams EquipmentParams.page EquipmentParams.limit
       EquipmentParams.sortBy EquipmentParams.sortOrder].
  rewrite Hl. cbn [Routes.orDefault]. fold matching.
  replace ((Routes.orDefault (EquipmentQuery.page q) 1 - 1) * 0) with 0 by lia.
  cbn [Z.ltb Z.compare Z.leb Z.to_nat firstn bind map].
  unfold Js.ceil_div. destruct matching; reflexivity.
Qed.

Lemma listing_limit_zero_witness :
  Routes.get_equipment Sample.plant
    (EquipmentQuery.mk None None None None None (Some 0) None None)
  = mkResponse 200 (BPage [] (mkPagination 1 0 3 JNull)).
Proof.
  apply (listing_limit_zero Sample.plant
           (EquipmentQuery.mk None None None None None (Some 0) None None)).
  - reflexivity.
  - reflexivity.
Defined.

Lemma orderColumn_unsortable (f : string) :
  ~ In f sortable -> Storage.orderColumn f = None.
Proof.
  intros H. unfold Storage.orderColumn, sortable in *.
  repeat match goal with
         | |- context [String.eqb f ?s] =>
             destruct (String.eqb_spec f s) as [E|_];
             [exfalso; apply H; rewrite E; simpl; tauto|]
         end.
  reflexivity.
Qed.

Lemma equipmentSort_unsortable
      (f o : string) (rows : list Storage.EquipmentRow) :
  ~ In f sortable -> Storage.equipmentSort f o rows = rows.
Proof.
  intros H. unfold Storage.equipmentSort.
  rewrite (orderColumn_unsortable f H). now destruct (_ && _).
Qed.

(** X13: the sort direction counts only together with one of the six sort
    fields.  When [sortBy] is left out (the storage default is then
    [equipment_id], which is none of the six) or names another field, no
    ORDER BY is applied and GET /api/equipment answers the same for every
    [sortOrder]. *)
Theorem unknown_sort_field_ignores_order
        (db : Db) (q : EquipmentQuery.t) (o : option string) :
  ~ In (Routes.orDefault (EquipmentQuery.sortBy q) "equipment_id") sortable ->
  Routes.get_equipment db (setQueryOrder q o) = Routes.get_equipment db q.
Proof.
  intros H.
  unfold Routes.get_equipment, Storage.getEquipments.
  cbn [Routes.equipmentParams setQueryOrder
       EquipmentQuery.workshopId EquipmentQuery.typeId EquipmentQuery.baseId
       EquipmentQuery.search EquipmentQuery.page EquipmentQuery.limit
       EquipmentQuery.sortBy EquipmentQuery.sortOrder
       EquipmentParams.page EquipmentParams.limit
       EquipmentParams.sortBy EquipmentParams.sortOrder].
  unfold Routes.orDefault in H.
  rewrite !(equipmentSort_unsortable _ _ _ H).
  reflexivity.
Qed.

Lemma unknown_sort_field_ignores_order_witness :
  Routes.get_equipment Sample.plant
    (setQueryOrder
       Cases.noQuery
       (Some "desc"))
  = Routes.get_equipment Sample.plant
      Cases.noQuery.
Proof.
  apply (unknown_sort_field_ignores_order Sample.plant
           Cases.noQuery
           (Some "desc")).
  simpl. intros [H|[H|[H|[H|[H|[H|H]]]]]]; try discriminate H. exact H.
Defined.

Lemma where_all_equiv {R : Type} (conds conds' : list (R -> tri)) (rows : list R) :
  (forall r, In r rows ->
             (forall c, In c conds -> c r = Some true)
             <-> (forall c, In c conds' -> c r = Some true)) ->
  where_all conds rows = where_all conds' rows.
Proof.
  intros H. rewrite !where_all_filter. apply filter_ext_in. intros r Hr.
  apply eq_true_iff_eq. rewrite !holds_and_all.
  specialize (H r Hr). split; intros Hc c Hin;
    apply in_map_iff in Hin as (c0 & <- & Hin0).
  - apply (proj1 H); [|exact Hin0].
    intros c1 H1. apply Hc, in_map_iff. now exists c1.
  - apply (proj2 H); [|exact Hin0].
    intros c1 H1. apply Hc, in_map_iff. now exists c1.
Qed.

Lemma equipment_search_condition
      (p : EquipmentParams.t) (s : string) (r : Storage.EquipmentRow) :
  s <> "" ->
  (forall c, In c (Storage.equipmentConditions (setSearch p (Some s))) ->
             c r = Some true)
  <-> (forall c, In c (Storage.equipmentConditions (setSearch p None)) ->
                 c r = Some true)
      /\ like (Some (Equipment.equipmentName (listedEquipment r)))
              (contains_pattern s) = Some true.
Proof.
  intros Hne. unfold Storage.equipmentConditions.
  cbn [setSearch EquipmentParams.workshopId EquipmentParams.typeId
       EquipmentParams.baseId EquipmentParams.search Storage.whenStr].
  destruct (String.eqb_spec s "") as [E|_]; [contradiction|].
  destruct r as [[[e w] t] b]. cbn [listedEquipment].
  split.
  - intros H. split.
    + intros c Hc. apply H. rewrite !in_app_iff in *. cbn [In] in Hc. tauto.
    + apply (H (fun '(e, _, _, _) =>
                  like (Some (Equipment.equipmentName e)) (contains_pattern s))).
      rewrite !in_app_iff. right. right. left. now left.
  - intros [H Hs] c Hc. rewrite !in_app_iff in Hc. cbn [In] in Hc.
    destruct Hc as [Hc|[Hc|[[<-|[]]|Hc]]]; [| |exact Hs|];
      apply H; rewrite !in_app_iff; cbn [In]; tauto.
Qed.

(** X14: the search text of the equipment listing, when it has no [%], [_]
    or backslash, keeps exactly the rows in whose equipment name the text
    occurs, among the rows the other filters keep. *)
Theorem equipment_search_plain
        (db : Db) (p : EquipmentParams.t) (s : string) (r : Storage.EquipmentRow) :
  s <> "" -> plain s = true ->
  In r (where_all (Storage.equipmentConditions (setSearch p (Some s)))
                  (Storage.equipmentJoin db))
  <-> In r (where_all (Storage.equipmentConditions (setSearch p None))
                      (Storage.equipmentJoin db))
      /\ occurs s (Equipment.equipmentName (listedEquipment r)).
Proof.
  intros Hne Hplain.
  rewrite !where_all_In, (equipment_search_condition p s r Hne),
    (like_plain_text s _ Hplain).
  tauto.
Qed.

Lemma equipment_search_plain_witness :
  In Cases.pressRow
     (where_all (Storage.equipmentConditions
                   (setSearch Cases.noParams (Some "ress")))
                (Storage.equipmentJoin Sample.plant))
  <-> In Cases.pressRow
         (where_all (Storage.equipmentConditions
                       (setSearch Cases.noParams None))
                    (Storage.equipmentJoin Sample.plant))
      /\ occurs "ress" (Equipment.equipmentName (listedEquipment Cases.pressRow)).
Proof.
  apply (equipment_search_plain Sample.plant Cases.noParams "ress" Cases.pressRow).
  - discriminate.
  - reflexivity.
Defined.

Lemma like_match_percents (p : list tok) (s : string) :
  p <> [] -> (forall t, In t p -> t = PAny) -> like_match p s = true.
Proof.
  revert s. induction p as [|t p IH]; intros s Hne Hall; [contradiction|].
  rewrite (Hall t (or_introl eq_refl)).
  destruct p as [|t' p]; [apply like_match_any_end|].
  rewrite like_match_any, IH; [reflexivity|discriminate|].
  intros t0 H0. apply Hall. now right.
Qed.

Lemma like_tokens_percents (s : string) :
  percents s = true -> forall t, In t (like_tokens (s ++ "%")) -> t = PAny.
Proof.
  induction s as [|c s IH]; simpl.
  - intros _ t [<-|[]]. reflexivity.
  - rewrite andb_true_iff. intros [Hc Hs]. rewrite Hc.
    intros t [<-|Ht]; [reflexivity|now apply IH].
Qed.

Lemma like_wild (s text : string) :
  percents s = true -> like (Some text) (contains_pattern s) = Some true.
Proof.
  intros Hs. unfold like, contains_pattern. f_equal.
  change ("%" ++ s ++ "%")%string with (String "%" (s ++ "%")).
  change (like_tokens (String "%" (s ++ "%")))
    with (PAny :: like_tokens (s ++ "%")).
  apply like_match_percents; [discriminate|].
  intros t [<-|Ht]; [reflexivity|now apply (like_tokens_percents s)].
Qed.

(** X15: a search text made of percent signs only filters nothing: the
    equipment listing and the spare part listing answer as they do without
    a search text. *)
Theorem search_percent_is_no_search
        (db : Db) (p : EquipmentParams.t) (s : string) (isCustom : option bool) :
  wild s = true ->
  Storage.getEquipments db (setSearch p (Some s))
  = Storage.getEquipments db (setSearch p None)
  /\ Crud.getSpareParts db (Some s) isCustom
     = Crud.getSpareParts db None isCustom.
Proof.
  unfold wild. rewrite andb_true_iff, negb_true_iff.
  intros [Hne Hs]. apply String.eqb_neq in Hne. split.
  - unfold Storage.getEquipments.
    cbn [setSearch EquipmentParams.page EquipmentParams.limit
         EquipmentParams.sortBy EquipmentParams.sortOrder].
    rewrite (where_all_equiv
               (Storage.equipmentConditions (setSearch p (Some s)))
               (Storage.equipmentConditions (setSearch p None))); [reflexivity|].
    intros r _. rewrite (equipment_search_condition p s r Hne).
    pose proof (like_wild s (Equipment.equipmentName (listedEquipment r)) Hs).
    tauto.
  - unfold Crud.getSpareParts. do 2 f_equal.
    apply where_all_equiv. intros r _.
    unfold Crud.sparePartConditions. cbn [Storage.whenStr].
    destruct (String.eqb_spec s "") as [E|_]; [contradiction|].
    cbn [app]. split.
    + intros H c Hc. apply H. now right.
    + intros H c [<-|Hc]; [|now apply H].
      apply holds_true. unfold Crud.searchCondition. apply holds_or_any.
      exists (Some true). split; [|reflexivity]. left.
      apply (like_wild s _ Hs).
Qed.

Lemma search_percent_is_no_search_witness :
  Storage.getEquipments Sample.plant (setSearch Cases.noParams (Some "%%"))
  = Storage.getEquipments Sample.plant (setSearch Cases.noParams None)
  /\ Crud.getSpareParts Sample.plant (Some "%%") None
     = Crud.getSpareParts Sample.plant None None.
Proof.
  apply (search_percent_is_no_search Sample.plant Cases.noParams "%%" None).
  reflexivity.
Defined.

(* ================================================================== *)
(** ** Workshops of a base and the two hierarchies *)

Lemma getWorkshops_listing (db : Db) (baseId : option Z) :
  exists rows,
    Storage.getWorkshops db baseId = map obj_of_workshop rows
    /\ Permutation rows (workshopsSelected db baseId)
    /\ StronglySorted
         (fun x y => String.leb (Workshop.workshopName x)
                                (Workshop.workshopName y) = true) rows.
Proof.
  eexists. split; [reflexivity|].
  assert (forall rows,
            StronglySorted
              (fun x y => String.leb (Workshop.workshopName x)
                                     (Workshop.workshopName y) = true)
              (orderBy (fun x y => text_leb (Workshop.workshopName x)
                                            (Workshop.workshopName y)) rows))
    as Hsorted.
  { intros rows.
    apply (orderBy_sorted
             (fun x y => text_leb (Workshop.workshopName x)
                                  (Workshop.workshopName y))).
    - intros x y. apply text_leb_total.
    - intros x y z. apply text_leb_trans. }
  split; [|apply Hsorted].
  unfold workshopsSelected, truthy_num.
  destruct baseId as [id|]; [|apply orderBy_Permutation].
  destruct (Z.eqb_spec id 0) as [E|E]; simpl; [apply orderBy_Permutation|].
  rewrite (filter_ext _ (fun w => Workshop.baseId w =? id));
    [apply orderBy_Permutation|].
  intros w. simpl. now destruct (Workshop.baseId w =? id).
Qed.

(** X16: for a base id in the range of the integer type, the workshop
    listing is ordered by workshop name and holds exactly the workshops of
    the base asked for; a base id that is missing or 0 lists the workshops
    of every base. *)
Theorem workshops_listing (db : Db) (baseId : option Z) :
  int4_opt baseId = true ->
  exists rows,
    Storage.getWorkshops db baseId = map obj_of_workshop rows
    /\ Permutation rows (workshopsSelected db baseId)
    /\ StronglySorted
         (fun x y => String.leb (Workshop.workshopName x)
                                (Workshop.workshopName y) = true) rows
    /\ forall w, In w rows ->
         prop (obj_of_workshop w) "workshopId" = JNum (Workshop.workshopId w)
         /\ prop (obj_of_workshop w) "baseId" = JNum (Workshop.baseId w)
         /\ prop (obj_of_workshop w) "workshopName"
            = JStr (Workshop.workshopName w).
Proof.
  intros _. destruct (getWorkshops_listing db baseId) as (rows & E & HP & HS).
  exists rows. repeat split; assumption.
Qed.

Lemma workshops_listing_witness :
  exists rows,
    Storage.getWorkshops Sample.plant (Some 1) = map obj_of_workshop rows
    /\ Permutation rows [Sample.workshop1].
Proof.
  destruct (workshops_listing Sample.plant (Some 1) eq_refl)
    as (rows & E & HP & _).
  exists rows. split; [exact E|exact HP].
Defined.

Lemma workshopNode_total (db : Db) (workshop : obj) :
  exists n, Routes.workshopNode db workshop = Ok n /\ workshopNode_of workshop n.
Proof.
  eexists. split; [reflexivity|]. repeat split.
Qed.

Lemma all_total {A B : Type} (f : A -> outcome B) (P : A -> B -> Prop)
      (xs : list A) :
  (forall x, exists y, f x = Ok y /\ P x y) ->
  exists ys, all f xs = Ok ys /\ Forall2 P xs ys.
Proof.
  intros H. induction xs as [|x xs (ys & E & F)]; simpl.
  - exists []. split; [reflexivity|constructor].
  - destruct (H x) as (y & Ey & Py). rewrite Ey, E. simpl.
    exists (y :: ys). split; [reflexivity|now constructor].
Qed.

Lemma stands_for_workshops (rows : list Workshop.t) (children : list TreeNode) :
  Forall2 workshopNode_of (map obj_of_workshop rows) children ->
  Forall2 stands_for_workshop rows children.
Proof.
  revert children. induction rows as [|wk rows IH]; intros children H;
    inversion H as [|x n xs ns (Hi & Hn & Ht & Hd) HF]; subst; constructor.
  - unfold stands_for_workshop. rewrite Hi, Hn, Ht, Hd. repeat split.
  - now apply IH.
Qed.

(** X17: for an id in the range of the integer type, GET
    /api/hierarchy/base/:id does not fail.  It answers 404 when no base has
    the id; when a base has it (keys being distinct) it answers 200 with
    that base as root and one workshop node for every workshop of the base,
    ordered by workshop name (a base with id 0, which the sequence never
    hands out, would show the workshops of every base). *)
Theorem base_hierarchy_answers (db : Db) (id : Z) :
  int4 id = true ->
  ((forall b, In b (bases db) -> Base.baseId b <> id) ->
   Routes.GET_hierarchy_base db id = mkResponse 404 (BError "Base not found"))
  /\ (forall b,
        NoDup (map Base.baseId (bases db)) -> In b (bases db) ->
        Base.baseId b = id ->
        exists listing children,
          Routes.GET_hierarchy_base db id
          = mkResponse 200
              (BTree (Node (JNum id) (JStr (Base.baseName b)) "基地"
                           (obj_of_base b) (Some children)))
          /\ Permutation listing (workshopsSelected db (Some id))
          /\ StronglySorted
               (fun x y => String.leb (Workshop.workshopName x)
                                      (Workshop.workshopName y) = true) listing
          /\ Forall2 stands_for_workshop listing children).
Proof.
  intros _.
  unfold Routes.GET_hierarchy_base, Routes.dispatch, Routes.hierarchy_base.
  split.
  - intros Hmiss. now rewrite (getBase_missing db id Hmiss).
  - intros b Hnd Hb <-. rewrite (getBase_found db b Hnd Hb).
    destruct (getWorkshops_listing db (Some (Base.baseId b)))
      as (listing & E & HP & HS).
    destruct (all_total (Routes.workshopNode db) workshopNode_of
                (Storage.getWorkshops db (Some (Base.baseId b)))
                (workshopNode_total db))
      as (children & Ec & F).
    exists listing, children. cbv zeta. rewrite Ec.
    split; [reflexivity|]. split; [exact HP|]. split; [exact HS|].
    apply stands_for_workshops. now rewrite <- E.
Qed.

Lemma base_hierarchy_answers_witness :
  Routes.GET_hierarchy_base Sample.plant 7 = mkResponse 404 (BError "Base not found")
  /\ exists listing children,
       Routes.GET_hierarchy_base Sample.plant 1
       = mkResponse 200
           (BTree (Node (JNum 1) (JStr "North plant") "基地"
                        (obj_of_base Sample.base1) (Some children)))
       /\ Permutation listing [Sample.workshop1]
       /\ Forall2 stands_for_workshop listing children.
Proof.
  split.
  - apply (proj1 (base_hierarchy_answers Sample.plant 7 eq_refl)).
    simpl. intros b [<-|[]]. discriminate.
  - destruct (proj2 (base_hierarchy_answers Sample.plant 1 eq_refl) Sample.base1)
      as (listing & children & E & HP & _ & F).
    + simpl. repeat constructor. simpl. tauto.
    + simpl. auto.
    + reflexivity.
    + exists listing, children. auto.
Defined.

Lemma length_groups_cons {A : Type} (key : A -> Z) (r0 : A) (rows : list A)
      (ks : list Z) :
  List.length (flat_map (fun k => filter (fun r => key r =? k) (r0 :: rows)) ks)
  = Nat.add (List.length (filter (fun k => key r0 =? k) ks))
            (List.length (flat_map (fun k => filter (fun r => key r =? k) rows) ks)).
Proof.
  induction ks as [|k ks IH]; [reflexivity|].
  cbn [flat_map]. rewrite !length_app, IH. cbn [filter].
  destruct (key r0 =? k); cbn [List.length]; lia.
Qed.

(** Grouping by a key that ranges over distinct values loses no row and
    repeats none. *)
Lemma length_groups {A : Type} (key : A -> Z) (ks : list Z) (rows : list A) :
  NoDup ks -> (forall r, In r rows -> In (key r) ks) ->
  List.length (flat_map (fun k => filter (fun r => key r =? k) rows) ks)
  = List.length rows.
Proof.
  intros Hnd. induction rows as [|r0 rows IH]; intros Hcover.
  - induction ks as [|k ks IHk]; [reflexivity|].
    inversion Hnd; subst. simpl. now apply IHk.
  - rewrite length_groups_cons, IH by (intros; apply Hcover; now right).
    rewrite (filter_key (fun k => k) ks (key r0)).
    + reflexivity.
    + now rewrite map_id.
    + apply Hcover. now left.
Qed.

Lemma length_flat_map_map {A B C : Type} (f : A -> list B) (g : B -> C)
      (l : list A) :
  List.length (flat_map (fun a => map g (f a)) l) = List.length (flat_map f l).
Proof.
  induction l as [|a l IH]; simpl; [reflexivity|].
  now rewrite !length_app, length_map, IH.
Qed.

Lemma rowsOf_resolved (db : Db) (a : Assoc.t) (r : Storage.AssociationRow) :
  Integrity db -> In a (equipmentComponentSpareParts db) ->
  In r (rowsOf db a) -> rowAssoc r = a /\ resolved db r.
Proof.
  intros I Ha Hr.
  destruct (rowsOf_suppliers db a I Ha)
    as (e & c & s & _ & _ & _ & _ & _ & Gc & Gs & E).
  rewrite E in Hr.
  assert (exists u, r = (a, e, c, s, u)) as (u & ->).
  { destruct (suppliersOf db (Assoc.sparePartId a)) as [|u0 m].
    - destruct Hr as [<-|[]]. now exists None.
    - apply in_map_iff in Hr as (u & <- & _). now exists (Some u). }
  split; [reflexivity|]. split; assumption.
Qed.

Lemma rowsOf_nonempty (db : Db) (a : Assoc.t) :
  Integrity db -> In a (equipmentComponentSpareParts db) ->
  exists r, In r (rowsOf db a).
Proof.
  intros I Ha.
  destruct (rowsOf_suppliers db a I Ha) as (e & c & s & _ & _ & _ & _ & _ & _ & _ & E).
  rewrite E. destruct (suppliersOf db (Assoc.sparePartId a)) as [|u0 m].
  - eexists. now left.
  - eexists. simpl. now left.
Qed.

(** X18: the equipment hierarchy, whatever the number of components, spare
    parts and suppliers.  With distinct keys and no dangling reference, the
    answer for an equipment that exists is 200; its component nodes carry
    the distinct component ids of the equipment's associations, each once;
    the spare-part nodes under component [k] are the listed rows of that
    component, in listing order; and the tree has exactly one spare-part
    node for every row of the association listing of the equipment. *)
Theorem equipment_hierarchy_groups (db : Db) (id : Z) (e : obj) :
  integrity db = true -> id <> 0 ->
  Storage.getEquipment db id = Some e ->
  exists root rows,
    Storage.associationRows db (ofEquipment id) = Ok rows
    /\ Routes.hierarchy_equipment db id = mkResponse 200 (BTree root)
    /\ node_data root = e
    /\ NoDup (map node_id (node_children root))
    /\ (forall k, In (JNum k) (map node_id (node_children root))
                  <-> exists a, In a (associationsOf db id)
                                /\ Assoc.componentId a = k)
    /\ (forall c, In c (node_children root) ->
          exists k, node_id c = JNum k
                    /\ node_children c
                       = map Routes.sparePartNode
                             (map entryOf (filter (fun r => cidOf r =? k) rows)))
    /\ List.length (flat_map node_children (node_children root))
       = List.length rows.
Proof.
  intros Hi Hid He. apply integrity_Integrity in Hi.
  set (A := associationsOf db id).
  assert (forall a, In a A -> In a (equipmentComponentSpareParts db)) as HA.
  { intros a Ha. now apply filter_In in Ha as [Ha _]. }
  set (rows := orderBy Storage.associationOrder (flat_map (rowsOf db) A)).
  assert (forall r, In r rows -> In (rowAssoc r) A /\ resolved db r) as Hrows.
  { intros r Hr. apply orderBy_In in Hr. apply in_flat_map in Hr as (a & Ha & Hr).
    destruct (rowsOf_resolved db a r Hi (HA a Ha) Hr) as [<- Hres]. auto. }
  destruct (group_fold_groupOf db rows [] []) as (ks & Hnd & Hks & Hfold).
  { intros r Hr. apply (Hrows r Hr). }
  { constructor. }
  { intros x []. }
  simpl in Hfold.
  exists (Node (prop e "equipmentId") (prop e "equipmentName") "设备" e
               (Some (map Routes.componentNode (map (groupOf db rows) ks)))),
         rows.
  split; [apply (associationRows_of_equipment db id Hid)|].
  split.
  { unfold Routes.hierarchy_equipment, Storage.getAssociations.
    rewrite He.
    rewrite (associationRows_of_equipment db id Hid). fold A. fold rows.
    unfold bind. now rewrite Hfold. }
  split; [reflexivity|].
  assert (map node_id (map Routes.componentNode (map (groupOf db rows) ks))
          = map JNum ks) as Hids.
  { rewrite !map_map. reflexivity. }
  cbn [node_children]. rewrite Hids.
  split; [now apply NoDup_map_JNum|].
  split.
  { intros k. split.
    - intros Hk. apply in_map_iff in Hk as (k' & [= ->] & Hk).
      apply Hks in Hk as [[]|(r & Hr & E)].
      exists (rowAssoc r). split; [apply (Hrows r Hr)|exact E].
    - intros (a & Ha & E). apply in_map. apply Hks. right.
      destruct (rowsOf_nonempty db a Hi (HA a Ha)) as (r & Hr).
      exists r. split.
      + apply orderBy_In, in_flat_map. now exists a.
      + destruct (rowsOf_resolved db a r Hi (HA a Ha) Hr) as [Er _].
        unfold cidOf. now rewrite Er. }
  split.
  { intros c Hc. apply in_map_iff in Hc as (g & <- & Hg).
    apply in_map_iff in Hg as (k & <- & Hk). now exists k. }
  rewrite flat_map_concat_map, !map_map. cbn [groupOf Routes.componentNode node_children].
  rewrite <- flat_map_concat_map.
  rewrite (length_flat_map_map
             (fun k => map entryOf (filter (fun r => cidOf r =? k) rows))).
  rewrite (length_flat_map_map (fun k => filter (fun r => cidOf r =? k) rows)).
  apply length_groups; [exact Hnd|].
  intros r Hr. apply Hks. right. now exists r.
Qed.

Lemma equipment_hierarchy_groups_witness :
  exists root rows,
    Storage.associationRows Sample.plant2 (ofEquipment 1) = Ok rows
    /\ Routes.hierarchy_equipment Sample.plant2 1 = mkResponse 200 (BTree root)
    /\ List.length rows = 5%nat
    /\ List.length (flat_map node_children (node_children root))
       = List.length rows.
Proof.
  destruct (equipment_hierarchy_groups Sample.plant2 1
              (obj_of_equipment Sample.press)
              eq_refl ltac:(discriminate) eq_refl)
    as (root & rows & Hrows & E & _ & _ & _ & _ & L).
  exists root, rows. split; [exact Hrows|]. split; [exact E|].
  split; [|exact L].
  vm_compute in Hrows. injection Hrows as <-. reflexivity.
Defined.

(* ================================================================== *)
(** ** The association listing: order, level labels, supply cycle range *)

Section Lexicographic.

Context {A : Type}.
Variables le1 le2 : A -> A -> bool.
Hypothesis total1 : forall x y, le1 x y = true \/ le1 y x = true.
Hypothesis total2 : forall x y, le2 x y = true \/ le2 y x = true.
Hypothesis trans1 : forall x y z, le1 x y = true -> le1 y z = true -> le1 x z = true.
Hypothesis trans2 : forall x y z, le2 x y = true -> le2 y z = true -> le2 x z = true.

Lemma lex_leb_spec (x y : A) :
  lex_leb le1 le2 x y = true
  <-> le1 x y = true /\ (le1 y x = true -> le2 x y = true).
Proof.
  unfold lex_leb. destruct (le1 x y), (le1 y x); intuition congruence.
Qed.

Lemma lex_leb_total (x y : A) :
  lex_leb le1 le2 x y = true \/ lex_leb le1 le2 y x = true.
Proof.
  rewrite !lex_leb_spec.
  destruct (total1 x y), (total2 x y);
    destruct (le1 x y) eqn:E1, (le1 y x) eqn:E2; intuition congruence.
Qed.

Lemma lex_leb_trans (x y z : A) :
  lex_leb le1 le2 x y = true -> lex_leb le1 le2 y z = true ->
  lex_leb le1 le2 x z = true.
Proof.
  rewrite !lex_leb_spec. intros [Hxy Hxy'] [Hyz Hyz']. split.
  - now apply trans1 with y.
  - intros Hzx. apply trans2 with y.
    + apply Hxy'. now apply trans1 with z.
    + apply Hyz'. now apply trans1 with x.
Qed.

End Lexicographic.

Lemma associationOrder_le (x y : Storage.AssociationRow) :
  Storage.associationOrder x y = true <-> association_le x y.
Proof.
  unfold Storage.associationOrder, association_le. rewrite lex_leb_spec.
  destruct x as [[[[a1 e1] c1] s1] u1], y as [[[[a2 e2] c2] s2] u2].
  reflexivity.
Qed.

Lemma associationOrder_sorted (rows : list Storage.AssociationRow) :
  StronglySorted association_le (orderBy Storage.associationOrder rows).
Proof.
  apply StronglySorted_impl
    with (R := fun x y => Storage.associationOrder x y = true).
  - intros x y. apply associationOrder_le.
  - apply orderBy_sorted.
    + intros x y. unfold Storage.associationOrder. apply lex_leb_total.
      * intros [[[[? e1] ?] ?] ?] [[[[? e2] ?] ?] ?]. apply text_leb_total.
      * intros [[[[? ?] c1] ?] ?] [[[[? ?] c2] ?] ?]. apply text_leb_total.
    + intros x y z. unfold Storage.associationOrder. apply lex_leb_trans.
      * intros [[[[? e1] ?] ?] ?] [[[[? e2] ?] ?] ?] [[[[? e3] ?] ?] ?].
        apply text_leb_trans.
      * intros [[[[? ?] c1] ?] ?] [[[[? ?] c2] ?] ?] [[[[? ?] c3] ?] ?].
        apply text_leb_trans.
Qed.

(** X19: whatever the filters, the rows of an association listing are
    ordered by equipment name, and rows with the same equipment name by
    component name. *)
Theorem association_listing_order
        (db : Db) (q : AssociationQuery.t) (rows : list Storage.AssociationRow) :
  Storage.associationRows db (Routes.associationParams q) = Ok rows ->
  Routes.get_associations db q
  = mkResponse 200 (BArray (map Storage.associationSelect rows))
  /\ StronglySorted association_le rows.
Proof.
  intros H. split; [now apply get_associations_rows|].
  unfold Storage.associationRows in H.
  destruct (Storage.levelCondition _) as [level|]; [|discriminate].
  injection H as <-. apply associationOrder_sorted.
Qed.

Lemma association_listing_order_witness :
  exists rows,
    Storage.associationRows Sample.plant2 (Routes.associationParams Sample.noQuery)
    = Ok rows
    /\ List.length rows = 5%nat
    /\ StronglySorted association_le rows.
Proof.
  eexists. split; [vm_compute; reflexivity|]. split; [reflexivity|].
  apply (association_listing_order Sample.plant2 Sample.noQuery).
  vm_compute. reflexivity.
Defined.

Lemma bind_levels_unknown (labels : list string) (label : string) :
  In label labels -> importance_of_label label = None ->
  Storage.bind_levels labels
  = Throw "invalid input value for enum importance_level".
Proof.
  intros Hin Hnone. induction labels as [|s rest IH]; [contradiction|].
  simpl. destruct (importance_of_label s) as [i|] eqn:E; [|reflexivity].
  destruct Hin as [->|Hin]; [congruence|].
  now rewrite (IH Hin).
Qed.

(** X20: an importance level other than A, B and C among the
    comma-separated labels of [importanceLevel] fails the query: GET
    /api/associations answers 500, whatever the tables hold. *)
Theorem unknown_importance_label_fails
        (db : Db) (q : AssociationQuery.t) (text label : string) :
  AssociationQuery.importanceLevel q = Some text -> text <> "" ->
  In label (split "," text) -> importance_of_label label = None ->
  Routes.get_associations db q
  = mkResponse 500 (BInternal "invalid input value for enum importance_level").
Proof.
  intros Hq Hne Hin Hnone.
  unfold Routes.get_associations, Storage.getAssociations, Storage.associationRows.
  unfold Routes.associationParams. cbn [AssociationParams.importanceLevel].
  rewrite Hq. cbn [truthy_str option_map].
  destruct (String.eqb_spec text "") as [E|_]; [contradiction|].
  cbn [negb]. unfold Storage.levelCondition.
  destruct (split "," text) as [|s rest] eqn:Es; [contradiction|].
  now rewrite (bind_levels_unknown (s :: rest) label Hin Hnone).
Qed.

Lemma unknown_importance_label_fails_witness :
  Routes.get_associations Sample.plant Queries.levelAD
  = mkResponse 500 (BInternal "invalid input value for enum importance_level").
Proof.
  apply (unknown_importance_label_fails Sample.plant Queries.levelAD "A,D" "D").
  - reflexivity.
  - discriminate.
  - vm_compute. right. left. reflexivity.
  - reflexivity.
Defined.

(** X21: the edges of [supplyCycleRange].  A range that is not made of
    exactly two numbers is ignored: the answer is the one without the
    parameter.  A range whose lower bound is above its upper bound matches
    nothing: a 200 answer has no rows. *)
Theorem supply_cycle_range_edges (db : Db) (q : AssociationQuery.t) :
  (forall bounds,
      AssociationQuery.supplyCycleRange q = Some bounds ->
      List.length bounds <> 2%nat ->
      Routes.get_associations db q = Routes.get_associations db (setRange q None))
  /\ (forall lo hi rows,
        AssociationQuery.supplyCycleRange q = Some [lo; hi] -> hi < lo ->
        Routes.get_associations db q = mkResponse 200 (BArray rows) ->
        rows = []).
Proof.
  split.
  - intros bounds Hq Hlen.
    unfold Routes.get_associations, Storage.getAssociations, Storage.associationRows.
    unfold Routes.associationParams, Storage.associationConditions.
    cbn [setRange AssociationParams.equipmentId AssociationParams.componentId
         AssociationParams.sparePartId AssociationParams.importanceLevel
         AssociationParams.supplyCycleRange AssociationParams.isCustom
         AssociationParams.keyword
         AssociationQuery.equipmentId AssociationQuery.componentId
         AssociationQuery.sparePartId AssociationQuery.importanceLevel
         AssociationQuery.supplyCycleRange AssociationQuery.isCustom
         AssociationQuery.keyword].
    rewrite Hq.
    assert (Storage.rangeCondition (Some bounds) = Storage.rangeCondition None) as ->.
    { destruct bounds as [|a [|b [|c l]]]; try reflexivity.
      exfalso. now apply Hlen. }
    reflexivity.
  - intros lo hi rows Hq Hlt.
    unfold Routes.get_associations, Storage.getAssociations.
    destruct (Storage.associationRows db (Routes.associationParams q))
      as [kept|] eqn:E; [|discriminate].
    unfold bind. intros [= <-].
    destruct kept as [|r kept]; [reflexivity|exfalso].
    unfold Storage.associationRows in E.
    destruct (Storage.levelCondition _) as [level|]; [|discriminate].
    injection E as E.
    assert (In r (where_all
                    (Storage.associationConditions (Routes.associationParams q) level)
                    (Storage.associationJoin db))) as Hr.
    { apply (orderBy_In Storage.associationOrder). rewrite E. now left. }
    apply where_all_In in Hr as [_ Hc].
    specialize (Hc (fun r => and_all [ge_int (Storage.supplierWeeks r) (Some lo);
                                      le_int (Storage.supplierWeeks r) (Some hi)])).
    assert (and_all [ge_int (Storage.supplierWeeks r) (Some lo);
                     le_int (Storage.supplierWeeks r) (Some hi)] = Some true) as H.
    { apply Hc. unfold Storage.associationConditions, Routes.associationParams.
      cbn [AssociationParams.supplyCycleRange]. rewrite Hq.
      rewrite !in_app_iff. do 4 right. left. now left. }
    apply (proj2 (holds_true _)) in H.
    pose proof (proj1 (holds_and_all _) H) as H'.
    pose proof (H' _ (or_introl eq_refl)) as H1.
    pose proof (H' _ (or_intror (or_introl eq_refl))) as H2.
    destruct (Storage.supplierWeeks r) as [w|]; [|discriminate].
    simpl in H1, H2. injection H1 as H1. injection H2 as H2.
    apply Z.leb_le in H1, H2. lia.
Qed.

Lemma supply_cycle_range_edges_witness :
  Routes.get_associations Sample.plant Queries.oneBound
  = Routes.get_associations Sample.plant (setRange Queries.oneBound None)
  /\ Routes.get_associations Sample.plant Queries.upsideDown
     = mkResponse 200 (BArray []).
Proof.
  split.
  - apply (proj1 (supply_cycle_range_edges Sample.plant Queries.oneBound) [5]).
    + reflexivity.
    + simpl. lia.
  - assert (forall rows,
              Routes.get_associations Sample.plant Queries.upsideDown
              = mkResponse 200 (BArray rows) -> rows = []) as H.
    { intros rows.
      apply (proj2 (supply_cycle_range_edges Sample.plant Queries.upsideDown)
               6 2 rows); [reflexivity|lia]. }
    destruct (Routes.get_associations Sample.plant Queries.upsideDown)
      as [st [| rows | | | | | |]] eqn:E; try (vm_compute in E; discriminate).
    assert (st = 200) as -> by (vm_compute in E; congruence).
    now rewrite (H rows eq_refl).
Defined.

(* ================================================================== *)
(** ** Creating a base, a workshop, a type and an equipment *)

Section FreshRows.

Context {A : Type}.

Lemma filter_fresh_snoc (p : A -> bool) (l : list A) (x : A) :
  (forall y, In y l -> p y = false) -> p x = true ->
  filter p (l ++ [x]) = [x].
Proof.
  intros Hl Hx. rewrite filter_snoc, Hx, filter_none; [reflexivity|exact Hl].
Qed.

Lemma below_existsb (key : A -> Z) (l : list A) (k : Z) :
  forallb (fun x => key x <? k) l = true ->
  existsb (fun x => key x =? k) l = false.
Proof.
  rewrite forallb_forall. intros H. apply fresh_existsb.
  intros x Hx. specialize (H x Hx). apply Z.ltb_lt in H. lia.
Qed.

End FreshRows.

Lemma busy_of_label_label (busy : busy_level) :
  busy_of_label (busy_label busy) = Some busy.
Proof. now destruct busy. Qed.

Lemma post_bases_created (db : Db) (seqs : Serials) (now : Z) (name : string) :
  existsb (fun b => Base.baseId b =? baseSeq seqs) (bases db) = false ->
  Handlers.post_bases (db, seqs) now (baseBody name)
  = ((with_bases db (bases db ++ [Base.mk (baseSeq seqs) name (Some now) (Some now)]),
      mkSerials (baseSeq seqs + 1) (workshopSeq seqs) (equipmentTypeSeq seqs)
                (equipmentSeq seqs)),
     mkResponse 201
       (BObject (obj_of_base (Base.mk (baseSeq seqs) name (Some now) (Some now))))).
Proof.
  intros H. unfold Handlers.post_bases, Crud.createBase, Handlers.created.
  cbn [Handlers.insertBaseSchema_parse baseBody fst snd]. simpl option_map.
  cbv zeta. now rewrite H.
Qed.

Lemma post_workshops_created (db : Db) (seqs : Serials) (now : Z)
      (baseId : Z) (name : string) (busy : busy_level) :
  int4 baseId = true ->
  existsb (fun w => Workshop.workshopId w =? workshopSeq seqs) (workshops db)
  = false ->
  existsb (fun b => Base.baseId b =? baseId) (bases db) = true ->
  Handlers.post_workshops (db, seqs) now (workshopBody baseId name busy)
  = ((with_workshops db
        (workshops db
         ++ [Workshop.mk (workshopSeq seqs) baseId name busy (Some now) (Some now)]),
      mkSerials (baseSeq seqs) (workshopSeq seqs + 1) (equipmentTypeSeq seqs)
                (equipmentSeq seqs)),
     mkResponse 201
       (BObject (obj_of_workshop
                   (Workshop.mk (workshopSeq seqs) baseId name busy
                                (Some now) (Some now))))).
Proof.
  intros Hr H Hb.
  unfold Handlers.post_workshops, Crud.createWorkshop, Handlers.created.
  unfold Handlers.insertWorkshopSchema_parse, workshopBody.
  simpl prop. cbn [Handlers.requiredNumber Routes.requiredString].
  rewrite Hr, busy_of_label_label. cbn [option_map fst snd InsertWorkshop.baseId
    InsertWorkshop.workshopName InsertWorkshop.busyLevel].
  cbv zeta. now rewrite H, Hb.
Qed.

Lemma post_equipment_types_created (db : Db) (seqs : Serials) (now : Z)
      (name : string) :
  existsb (fun t => EquipmentType.typeId t =? equipmentTypeSeq seqs)
          (equipmentTypes db) = false ->
  Handlers.post_equipment_types (db, seqs) now (typeBody name)
  = ((with_equipmentTypes db
        (equipmentTypes db
         ++ [EquipmentType.mk (equipmentTypeSeq seqs) name None (Some now) (Some now)]),
      mkSerials (baseSeq seqs) (workshopSeq seqs) (equipmentTypeSeq seqs + 1)
                (equipmentSeq seqs)),
     mkResponse 201
       (BObject (Crud.obj_of_equipmentType
                   (EquipmentType.mk (equipmentTypeSeq seqs) name None
                                     (Some now) (Some now))))).
Proof.
  intros H.
  unfold Handlers.post_equipment_types, Crud.createEquipmentType, Handlers.created.
  unfold Handlers.insertEquipmentTypeSchema_parse, typeBody.
  simpl prop. cbn [Handlers.optionalNumber Routes.requiredString fst snd
    InsertEquipmentType.typeName InsertEquipmentType.lifecycleYears Storage.stored].
  cbv zeta. now rewrite H.
Qed.

Lemma post_equipment_created (db : Db) (seqs : Serials) (now : Z)
      (workshopId typeId : Z) (name : string) :
  int4 workshopId = true -> int4 typeId = true ->
  existsb (fun e => Equipment.equipmentId e =? equipmentSeq seqs) (equipment db)
  = false ->
  existsb (fun w => Workshop.workshopId w =? workshopId) (workshops db) = true ->
  existsb (fun t => EquipmentType.typeId t =? typeId) (equipmentTypes db) = true ->
  Handlers.post_equipment (db, seqs) now (equipmentBody workshopId typeId name)
  = ((with_equipment db
        (equipment db
         ++ [Equipment.mk (equipmentSeq seqs) workshopId typeId name
                          (Some now) (Some now)]),
      mkSerials (baseSeq seqs) (workshopSeq seqs) (equipmentTypeSeq seqs)
                (equipmentSeq seqs + 1)),
     mkResponse 201
       (BObject (obj_of_equipment
                   (Equipment.mk (equipmentSeq seqs) workshopId typeId name
                                 (Some now) (Some now))))).
Proof.
  intros Hrw Hrt H Hw Ht.
  unfold Handlers.post_equipment, Crud.createEquipment, Handlers.created.
  unfold Handlers.insertEquipmentSchema_parse, equipmentBody.
  simpl prop. cbn [Handlers.requiredNumber Routes.requiredString].
  rewrite Hrw, Hrt. cbn [fst snd
    InsertEquipment.workshopId InsertEquipment.typeId InsertEquipment.equipmentName].
  cbv zeta. now rewrite H, Hw, Ht.
Qed.

Lemma existsb_snoc_hit {A : Type} (p : A -> bool) (l : list A) (x : A) :
  p x = true -> existsb p (l ++ [x]) = true.
Proof.
  intros H. rewrite existsb_app. simpl. rewrite H. apply orb_true_r.
Qed.

Lemma filter_innerJoin_left {A B : Type} (p : A -> bool) (l : list A)
      (r : list B) (on : A -> B -> bool) :
  filter (fun ab => p (fst ab)) (innerJoin l r on) = innerJoin (filter p l) r on.
Proof.
  unfold innerJoin. rewrite filter_flat_map, flat_map_filter_source.
  apply flat_map_ext. intros a. destruct (p a) eqn:E.
  - apply filter_all. intros ab Hab.
    apply in_map_iff in Hab as (b & <- & _). exact E.
  - apply filter_none. intros ab Hab.
    apply in_map_iff in Hab as (b & <- & _). exact E.
Qed.

(** A filter on the equipment of a listing row can be applied to the
    equipment table before joining. *)
Lemma filter_equipmentJoin (db : Db) (p : Equipment.t -> bool) :
  filter (fun r => p (listedEquipment r)) (Storage.equipmentJoin db)
  = Storage.equipmentJoin (with_equipment db (filter p (equipment db))).
Proof.
  unfold Storage.equipmentJoin.
  cbn [with_equipment equipment workshops equipmentTypes bases].
  rewrite <- (filter_innerJoin_left p), <- (filter_innerJoin_left (fun ew => p (fst ew))),
    <- (filter_innerJoin_left (fun ewt => p (fst (fst ewt)))).
  apply filter_ext. now intros [[[e w] t] b].
Qed.

(** The equipment listing the base hierarchy asks for, for a workshop id
    other than 0. *)
Lemma getEquipments_of_workshop (db : Db) (workshopId : Z) :
  workshopId <> 0 ->
  Storage.getEquipments db
    (EquipmentParams.mk (Some workshopId) None None None None (Some 100) None None)
  = Ok (map Storage.equipmentSelect
            (firstn 100
               (Storage.equipmentJoin
                  (with_equipment db
                     (filter (fun e => Equipment.workshopId e =? workshopId)
                             (equipment db))))),
        Z.of_nat
          (List.length
             (Storage.equipmentJoin
                (with_equipment db
                   (filter (fun e => Equipment.workshopId e =? workshopId)
                           (equipment db)))))).
Proof.
  intros Hne. unfold Storage.getEquipments, Storage.equipmentConditions.
  cbn [EquipmentParams.workshopId EquipmentParams.typeId EquipmentParams.baseId
       EquipmentParams.search EquipmentParams.page EquipmentParams.limit
       EquipmentParams.sortBy EquipmentParams.sortOrder
       Storage.whenNum Storage.whenStr].
  destruct (Z.eqb_spec workshopId 0) as [E|_]; [contradiction|].
  cbn [app]. rewrite where_all_filter.
  rewrite (filter_ext _ (fun r => Equipment.workshopId (listedEquipment r)
                                  =? workshopId)).
  2:{ intros [[[e w] t] b]. simpl.
      now destruct (Equipment.workshopId e =? workshopId). }
  rewrite (filter_equipmentJoin db (fun e => Equipment.workshopId e =? workshopId)).
  reflexivity.
Qed.

(** X22: a base, a workshop in it, an equipment type and an equipment of
    that type in that workshop, created one after the other through the POST
    handlers, each insert at its own time, are each answered 201, and the
    hierarchy of the new base is then, field by field, the base with that
    one workshop holding that one equipment.  The sequences are ahead of the
    keys in use and in the range of the integer type. *)
Theorem create_chain_then_hierarchy
        (st : Store) (at_ : Times)
        (baseName workshopName typeName equipmentName : string)
        (busy : busy_level) :
  ahead st = true ->
  let r1 := Handlers.post_bases st (atBase at_) (baseBody baseName) in
  let r2 := Handlers.post_workshops (fst r1) (atWorkshop at_)
              (workshopBody (baseSeq (snd st)) workshopName busy) in
  let r3 := Handlers.post_equipment_types (fst r2) (atType at_)
              (typeBody typeName) in
  let r4 := Handlers.post_equipment (fst r3) (atEquipment at_)
              (equipmentBody (workshopSeq (snd st)) (equipmentTypeSeq (snd st))
                             equipmentName) in
  map (fun r => status (snd r)) [r1; r2; r3; r4] = [201; 201; 201; 201]
  /\ Routes.GET_hierarchy_base (fst (fst r4)) (baseSeq (snd st))
     = mkResponse 200
         (BTree (chainTree st at_ baseName workshopName busy typeName
                           equipmentName)).
Proof.
  destruct st as [db0 seqs0].
  intros Hahead. cbv zeta.
  unfold ahead in Hahead. cbn [fst snd] in Hahead.
  rewrite !andb_true_iff in Hahead.
  destruct Hahead as [[[[[[[[[Hbs Hws] Rb] Rw] Rt] Re] HB] HW] HT] HE].
  apply Z.ltb_lt in Hbs, Hws.
  rewrite forallb_forall in HW, HE, HB.
  assert (forall w, In w (workshops db0) ->
                    Workshop.workshopId w < workshopSeq seqs0
                    /\ Workshop.baseId w < baseSeq seqs0) as HW'.
  { intros w Hw. specialize (HW w Hw). apply andb_true_iff in HW as [H1 H2].
    apply Z.ltb_lt in H1, H2. auto. }
  assert (forall e, In e (equipment db0) ->
                    Equipment.equipmentId e < equipmentSeq seqs0
                    /\ Equipment.workshopId e < workshopSeq seqs0) as HE'.
  { intros e He. specialize (HE e He). apply andb_true_iff in HE as [H1 H2].
    apply Z.ltb_lt in H1, H2. auto. }
  assert (forall b, In b (bases db0) -> Base.baseId b < baseSeq seqs0) as HB'.
  { intros b Hb. apply Z.ltb_lt. now apply HB. }
  clear HW HE HB.
  cbn [snd].
  rewrite (post_bases_created db0 seqs0 (atBase at_) baseName)
    by (now apply (below_existsb Base.baseId); apply forallb_forall;
        intros b Hb; apply Z.ltb_lt, HB').
  cbn [fst].
  set (db1 := with_bases db0 _). set (seqs1 := mkSerials (baseSeq seqs0 + 1) _ _ _).
  rewrite (post_workshops_created db1 seqs1 (atWorkshop at_) (baseSeq seqs0)
             workshopName busy Rb).
  2:{ apply fresh_existsb. intros w Hw. destruct (HW' w Hw). simpl. lia. }
  2:{ apply existsb_snoc_hit. apply Z.eqb_refl. }
  cbn [fst].
  set (db2 := with_workshops db1 _). set (seqs2 := mkSerials _ (workshopSeq seqs1 + 1) _ _).
  rewrite (post_equipment_types_created db2 seqs2 (atType at_) typeName)
    by (now apply (below_existsb EquipmentType.typeId)).
  cbn [fst].
  set (db3 := with_equipmentTypes db2 _).
  set (seqs3 := mkSerials _ _ (equipmentTypeSeq seqs2 + 1) _).
  rewrite (post_equipment_created db3 seqs3 (atEquipment at_) (workshopSeq seqs0)
             (equipmentTypeSeq seqs0) equipmentName Rw Rt).
  2:{ apply fresh_existsb. intros e He. destruct (HE' e He). simpl. lia. }
  2:{ apply existsb_snoc_hit. apply Z.eqb_refl. }
  2:{ apply existsb_snoc_hit. apply Z.eqb_refl. }
  cbn [fst snd map status].
  split; [reflexivity|].
  set (db4 := with_equipment db3 _).
  set (b := Base.mk (baseSeq seqs0) baseName (Some (atBase at_)) (Some (atBase at_))).
  set (w := Workshop.mk (workshopSeq seqs0) (baseSeq seqs0) workshopName busy
                        (Some (atWorkshop at_)) (Some (atWorkshop at_))).
  set (t := EquipmentType.mk (equipmentTypeSeq seqs0) typeName None
                             (Some (atType at_)) (Some (atType at_))).
  set (e := Equipment.mk (equipmentSeq seqs0) (workshopSeq seqs0)
                         (equipmentTypeSeq seqs0) equipmentName
                         (Some (atEquipment at_)) (Some (atEquipment at_))).
  assert (bases db4 = bases db0 ++ [b]) as Eb by reflexivity.
  assert (workshops db4 = workshops db0 ++ [w]) as Ew by reflexivity.
  assert (equipmentTypes db4 = equipmentTypes db0 ++ [t]) as Et by reflexivity.
  assert (equipment db4 = equipment db0 ++ [e]) as Ee by reflexivity.
  clearbody db4. clear db1 db2 db3 seqs1 seqs2 seqs3.
  assert (Storage.getBase db4 (baseSeq seqs0) = Some (obj_of_base b)) as Gb.
  { unfold Storage.getBase. rewrite Eb, filter_fresh_snoc; [reflexivity| |].
    - intros y Hy. apply Z.eqb_neq. specialize (HB' y Hy). lia.
    - apply Z.eqb_refl. }
  assert (Storage.getWorkshops db4 (Some (baseSeq seqs0)) = [obj_of_workshop w])
    as Gw.
  { unfold Storage.getWorkshops, truthy_num.
    destruct (Z.eqb_spec (baseSeq seqs0) 0) as [E0|_]; [lia|].
    cbn [negb]. rewrite Ew, filter_fresh_snoc; [reflexivity| |].
    - intros y Hy. destruct (HW' y Hy) as [_ H]. simpl.
      destruct (Z.eqb_spec (Workshop.baseId y) (baseSeq seqs0)); [lia|reflexivity].
    - simpl. now rewrite Z.eqb_refl. }
  assert (Storage.equipmentJoin
            (with_equipment db4
               (filter (fun x => Equipment.workshopId x =? workshopSeq seqs0)
                       (equipment db4)))
          = [(e, w, t, b)]) as Gj.
  { rewrite Ee, filter_fresh_snoc.
    2:{ intros y Hy. destruct (HE' y Hy) as [_ H]. apply Z.eqb_neq. lia. }
    2:{ apply Z.eqb_refl. }
    unfold Storage.equipmentJoin.
    cbn [with_equipment equipment workshops equipmentTypes bases].
    rewrite Ew, Et, Eb.
    rewrite (innerJoin_one e w).
    2:{ apply filter_fresh_snoc.
        - intros y Hy. destruct (HW' y Hy) as [H _]. apply Z.eqb_neq.
          simpl. lia.
        - apply Z.eqb_refl. }
    rewrite (innerJoin_one (e, w) t).
    2:{ apply filter_fresh_snoc.
        - intros y Hy. rewrite forallb_forall in HT. specialize (HT y Hy).
          apply Z.ltb_lt in HT. apply Z.eqb_neq. simpl. lia.
        - apply Z.eqb_refl. }
    apply innerJoin_one. apply filter_fresh_snoc.
    - intros y Hy. specialize (HB' y Hy). apply Z.eqb_neq. simpl. lia.
    - apply Z.eqb_refl. }
  unfold Routes.GET_hierarchy_base, Routes.dispatch, Routes.hierarchy_base.
  rewrite Gb, Gw. cbn [all]. unfold Routes.workshopNode.
  change (as_num (prop (obj_of_workshop w) "workshopId"))
    with (Some (workshopSeq seqs0)).
  rewrite (getEquipments_of_workshop db4 (workshopSeq seqs0)) by lia.
  rewrite Gj. reflexivity.
Qed.

Lemma create_chain_then_hierarchy_witness :
  ahead Stores.plantStore = true
  /\ Routes.GET_hierarchy_base
       (fst (fst (Handlers.post_equipment
                    (fst (Handlers.post_equipment_types
                            (fst (Handlers.post_workshops
                                    (fst (Handlers.post_bases Stores.plantStore 2000
                                            (baseBody "South plant")))
                                    2001 (workshopBody 2 "Foundry" Busy3)))
                            2002 (typeBody "Furnace")))
                    2003 (equipmentBody 2 2 "Furnace-1"))))
       2
     = mkResponse 200
         (BTree (chainTree Stores.plantStore Stores.fourTimes "South plant"
                           "Foundry" Busy3 "Furnace" "Furnace-1")).
Proof.
  split; [reflexivity|].
  apply (create_chain_then_hierarchy Stores.plantStore Stores.fourTimes
           "South plant" "Foundry" "Furnace" "Furnace-1" Busy3).
  reflexivity.
Defined.

(* ================================================================== *)
(** ** POST /api/workshops: what is refused *)

(** X23: POST /api/workshops refuses a body whose [busyLevel] is not one of
    the texts 1, 2, 3, 4, or whose [baseId] is outside the range of the
    integer type, with 400 and changes nothing.  A valid body that names a
    base that does not exist is answered 500: the foreign key refuses the
    row, no table changes, but the key the row would have had is used
    up. *)
Theorem post_workshop_rejections
        (st : Store) (now : Z) (body : obj) (baseId : Z) (name label : string) :
  prop body "baseId" = JNum baseId ->
  prop body "workshopName" = JStr name ->
  prop body "busyLevel" = JStr label ->
  (busy_of_label label = None \/ int4 baseId = false ->
   Handlers.post_workshops st now body = (st, handleZodError))
  /\ (busy_of_label label <> None -> int4 baseId = true ->
      (forall w, In w (workshops (fst st)) ->
                 Workshop.workshopId w <> workshopSeq (snd st)) ->
      (forall b, In b (bases (fst st)) -> Base.baseId b <> baseId) ->
      exists seqs',
        Handlers.post_workshops st now body
        = ((fst st, seqs'),
           mkResponse 500 (BInternal "violates foreign key constraint"))
        /\ workshopSeq seqs' = workshopSeq (snd st) + 1).
Proof.
  intros Hb Hn Hl. unfold Handlers.post_workshops, Handlers.insertWorkshopSchema_parse.
  rewrite Hb, Hn, Hl. cbn [Handlers.requiredNumber Routes.requiredString].
  split.
  - intros [E|E]; rewrite E; [now destruct (int4 baseId)|reflexivity].
  - intros Hbusy Hr Hw Hbase. rewrite Hr.
    destruct (busy_of_label label) as [busy|]; [|contradiction].
    cbn [option_map]. unfold Crud.createWorkshop. cbv zeta.
    rewrite (fresh_existsb Workshop.workshopId _ _ Hw).
    cbn [InsertWorkshop.baseId].
    rewrite (fresh_existsb Base.baseId _ _ Hbase). cbn [negb Handlers.created].
    eexists. split; reflexivity.
Qed.

Lemma post_workshop_rejections_witness :
  Handlers.post_workshops Stores.plantStore 2000 Bodies.badBusy
  = (Stores.plantStore, handleZodError)
  /\ Handlers.post_workshops Stores.plantStore 2000 Bodies.farBase
     = (Stores.plantStore, handleZodError)
  /\ exists seqs',
       Handlers.post_workshops Stores.plantStore 2000 Bodies.noBase
       = ((Sample.plant, seqs'),
          mkResponse 500 (BInternal "violates foreign key constraint"))
       /\ workshopSeq seqs' = 3.
Proof.
  split; [|split].
  - apply (proj1 (post_workshop_rejections Stores.plantStore 2000 Bodies.badBusy
                    1 "Foundry" "5" eq_refl eq_refl eq_refl)).
    left. reflexivity.
  - apply (proj1 (post_workshop_rejections Stores.plantStore 2000 Bodies.farBase
                    99999999999 "Foundry" "3" eq_refl eq_refl eq_refl)).
    right. reflexivity.
  - apply (proj2 (post_workshop_rejections Stores.plantStore 2000 Bodies.noBase
                    9 "Foundry" "3" eq_refl eq_refl eq_refl)).
    + discriminate.
    + reflexivity.
    + simpl. intros w [<-|[]]. discriminate.
    + simpl. intros b [<-|[]]. discriminate.
Defined.
